(** * DealRelay: the price tracker of [app.py]

    A shallow embedding of [app.py]: the extractor [get_product_details],
    the notifier [send_notification_email], the hourly sweep [check_prices]
    and the HTTP endpoint [track_product], together with the parts of the
    Python runtime they rely on ([str.strip], [str.replace], [float],
    BeautifulSoup's [find] and [get_text], the SQLAlchemy session).

    Effects are explicit: a computation takes a world (the committed rows,
    the rows as the session sees them, the events so far) and returns or
    raises.  What comes from outside the process (the pages behind
    [requests.get] and what the parser makes of them, the mail credentials,
    the answers of the mail relay and of the storage layer) is a parameter,
    the environment; the body of a request is any JSON value, or none.  One sweep or
    one request runs at a time: the scheduler thread and the interleaving
    of requests are not part of the model. *)

From Stdlib Require Import ZArith List String Ascii Bool Lia.
From Stdlib Require Import Floats.SpecFloat.
Import ListNotations.

Set Warnings "-register-all".
Local Open Scope string_scope.
Local Open Scope Z_scope.

(** ** Python strings and floats *)

Module Py.

(** A [str] is modelled as a sequence of code points below 256. *)

(** [str.isspace] on those code points: TAB..CR, FS..US, SPACE, NEL, NBSP. *)
Definition isspace (c : ascii) : bool :=
  let n := Z.of_nat (nat_of_ascii c) in
  ((9 <=? n) && (n <=? 13)) || ((28 <=? n) && (n <=? 32))
  || (n =? 133) || (n =? 160).

(** The leading characters satisfying [sp] are dropped. *)
Fixpoint lstrip_by (sp : ascii -> bool) (s : string) : string :=
  match s with
  | String c s' => if sp c then lstrip_by sp s' else s
  | EmptyString => EmptyString
  end.

(** The trailing ones: a character stays when it does not satisfy [sp] or
    when something stays after it. *)
Fixpoint rstrip_by (sp : ascii -> bool) (s : string) : string :=
  match s with
  | String c s' =>
      match rstrip_by sp s' with
      | EmptyString => if sp c then EmptyString else String c EmptyString
      | r => String c r
      end
  | EmptyString => EmptyString
  end.

(** [s.strip()] *)
Definition strip (s : string) : string := rstrip_by isspace (lstrip_by isspace s).

(** [s.replace(c, '')] for a one-character pattern [c]. *)
Fixpoint remove_char (c : ascii) (s : string) : string :=
  match s with
  | String d s' =>
      if Ascii.eqb c d then remove_char c s' else String d (remove_char c s')
  | EmptyString => EmptyString
  end.

(** [s[:n]] *)
Definition prefix (n : nat) (s : string) : string := substring 0 n s.

(** *** Floats

    A Python [float] is an IEEE 754 binary64 number: precision 53, infinities
    at exponent 1024. *)

Definition float := spec_float.
Definition prec : Z := 53.
Definition emax : Z := 1024.

(** The literal [0.0] (and the integer [0] in a comparison with a float). *)
Definition zero : float := S754_zero false.

(** [x < y], [x <= y], [x >= y] and [x == y]; all are [False] as soon as a
    NaN is involved. *)
Definition lt (x y : float) : bool := SFltb x y.
Definition le (x y : float) : bool := SFleb x y.
Definition ge (x y : float) : bool := le y x.
Definition eq (x y : float) : bool := SFeqb x y.

(** The binary64 number nearest to [m * 10 ^ e] (ties to even), with the
    sign [neg]; what [strtod] computes from the digits of a literal. *)
Definition of_decimal (neg : bool) (m : Z) (e : Z) : float :=
  match m with
  | Zpos p =>
      if 0 <=? e
      then binary_round prec emax neg (p * Z.to_pos (10 ^ e)) 0
      else
        let '(q, e', l) := SFdiv_core_binary prec emax (Zpos p) 0 (10 ^ (- e)) 0 in
        binary_round_aux prec emax neg q e' l
  | _ => S754_zero neg
  end.

Definition isdigit (c : ascii) : bool :=
  let n := Z.of_nat (nat_of_ascii c) in (48 <=? n) && (n <=? 57).

Definition digit_val (c : ascii) : Z := Z.of_nat (nat_of_ascii c) - 48.

(** ASCII lower-casing, for the case-insensitive [inf] and [nan]. *)
Definition lower (c : ascii) : ascii :=
  let n := nat_of_ascii c in
  if ((65 <=? Z.of_nat n) && (Z.of_nat n <=? 90))%Z
  then ascii_of_nat (n + 32) else c.

Fixpoint lower_str (s : string) : string :=
  match s with
  | String c s' => String (lower c) (lower_str s')
  | EmptyString => EmptyString
  end.

(** Underscores are allowed only between two digits; they are dropped.
    [prev] is the previous character of the input. *)
Fixpoint drop_underscores (prev : ascii) (s : string) : option string :=
  match s with
  | EmptyString =>
      if Ascii.eqb prev "_" then None else Some EmptyString
  | String c s' =>
      if Ascii.eqb c "_" then
        if isdigit prev then drop_underscores c s' else None
      else
        if Ascii.eqb prev "_" && negb (isdigit c) then None
        else option_map (String c) (drop_underscores c s')
  end.

(** Reads a run of digits: the value accumulated on [acc], the number of
    digits read, and the rest of the input. *)
Fixpoint digits (s : string) (acc : Z) (n : Z) : Z * Z * string :=
  match s with
  | String c s' =>
      if isdigit c then digits s' (10 * acc + digit_val c) (n + 1)
      else (acc, n, s)
  | EmptyString => (acc, n, s)
  end.

(** An optional sign. *)
Definition sign (s : string) : bool * string :=
  match s with
  | String "-" s' => (true, s')
  | String "+" s' => (false, s')
  | _ => (false, s)
  end.

(** The exponent part: empty, or [e] or [E], an optional sign and at least
    one digit, up to the end of the input. *)
Definition exponent (s : string) : option Z :=
  match s with
  | EmptyString => Some 0
  | String c s' =>
      if Ascii.eqb (lower c) "e" then
        let '(neg, s1) := sign s' in
        match digits s1 0 0 with
        | (v, n, EmptyString) =>
            if 0 <? n then Some (if neg then - v else v) else None
        | _ => None
        end
      else None
  end.

(** A decimal literal without its sign: digits, an optional point and more
    digits (at least one digit in all), an optional exponent. *)
Definition decimal (neg : bool) (s : string) : option float :=
  let '(i, ni, r1) := digits s 0 0 in
  let '(m, nf, r2) :=
    match r1 with
    | String "." r => digits r i 0
    | _ => (i, 0, r1)
    end in
  if 0 <? ni + nf then
    match exponent r2 with
    | Some x => Some (of_decimal neg m (x - nf))
    | None => None
    end
  else None.

(** The space that [float] skips at both ends of its argument: the one of
    [str.isspace] without FS..US. *)
Definition float_space (c : ascii) : bool :=
  let n := Z.of_nat (nat_of_ascii c) in
  ((9 <=? n) && (n <=? 13)) || (n =? 32) || (n =? 133) || (n =? 160).

(** [float(s)] for a string [s]: [None] stands for [ValueError]. *)
Definition float_of_string (s : string) : option float :=
  match drop_underscores " " (rstrip_by float_space (lstrip_by float_space s)) with
  | None => None
  | Some t =>
      let '(neg, u) := sign t in
      let l := lower_str u in
      if String.eqb l "inf" || String.eqb l "infinity" then Some (S754_infinity neg)
      else if String.eqb l "nan" then Some S754_nan
      else decimal neg u
  end.

End Py.

(** ** JSON values

    The body of a request as [request.get_json()] decodes it.  The handler
    takes whatever value stands under a key, so every kind of value is
    there. *)

Module Json.

(** What the driver makes of a value that is bound as the parameter of a
    statement: a text, [NULL], or an error of its own. *)
Inductive bound :=
| Text (s : string)
| Null
| Unbindable (e : string).

(** A number, by what the handler can tell of it: whether it is zero, and
    how the driver binds it.  Compared with a text column or stored in one,
    a number is turned into its text; a NaN is bound as [NULL]; an integer
    beyond 64 bits is refused. *)
Record number := { nonzero : bool; sqlite : bound }.

Inductive t :=
| JNull
| JBool (b : bool)
| JNumber (n : number)
| JString (s : string)
| JArray (items : list t)
| JObject (members : list (string * t)).

(** The truth value of a decoded value. *)
Definition truth (v : t) : bool :=
  match v with
  | JNull => false
  | JBool b => b
  | JNumber n => nonzero n
  | JString s => negb (String.eqb s "")
  | JArray items => negb (Nat.eqb (List.length items) 0)
  | JObject members => negb (Nat.eqb (List.length members) 0)
  end.

(** [pattern in s] on two strings. *)
Fixpoint occurs (pattern s : string) : bool :=
  String.prefix pattern s
  || match s with
     | String _ s' => occurs pattern s'
     | EmptyString => false
     end.

(** [k in v], where it is defined: a key of a dict, an element of a list, a
    part of a string. *)
Definition member (k : string) (v : t) : option bool :=
  match v with
  | JObject members => Some (existsb (fun kv => String.eqb (fst kv) k) members)
  | JArray items =>
      Some (existsb (fun x => match x with
                              | JString s => String.eqb s k
                              | _ => false
                              end) items)
  | JString s => Some (occurs k s)
  | JNull | JBool _ | JNumber _ => None
  end.

(** The value under the key [k] of a dict; of a key that stands twice in
    the body the decoder keeps the last value. *)
Definition lookup (k : string) (members : list (string * t)) : option t :=
  fold_left (fun found kv => if String.eqb (fst kv) k then Some (snd kv) else found)
            members None.

(** How the driver binds a value: booleans go as the integers 1 and 0,
    lists and dicts are refused. *)
Definition bind (v : t) : bound :=
  match v with
  | JString s => Text s
  | JNull => Null
  | JBool b => Text (if b then "1" else "0")
  | JNumber n => sqlite n
  | JArray _ | JObject _ => Unbindable "Error binding parameter: type is not supported"
  end.

End Json.

(** ** BeautifulSoup documents

    [BeautifulSoup(page.content, "html.parser")] is taken as already parsed:
    a forest of tags and text nodes.  Of a tag's attributes only [id] and
    [class] (split into its tokens) are kept, the two that [app.py] searches
    by; comments and other nodes that [get_text] skips are left out. *)

Module Soup.

Inductive node :=
| NavigableString (s : string)
| Tag (name : string) (id : option string) (class : list string)
      (contents : list node).

Definition soup := list node.

(** [tag.descendants], in document order, preceded by the node itself. *)
Fixpoint self_and_descendants (n : node) : list node :=
  n :: match n with
       | NavigableString _ => []
       | Tag _ _ _ cs => flat_map self_and_descendants cs
       end.

Definition descendants (doc : soup) : list node :=
  flat_map self_and_descendants doc.

Definition has_id (i : string) (n : node) : bool :=
  match n with
  | Tag _ (Some j) _ _ => String.eqb i j
  | _ => false
  end.

Definition has_class (c : string) (n : node) : bool :=
  match n with
  | Tag _ _ cl _ => existsb (String.eqb c) cl
  | _ => false
  end.

(** [soup.find(...)]: the first matching tag among the descendants, or
    Python's [None]. *)
Definition find (matches : node -> bool) (doc : soup) : option node :=
  List.find matches (descendants doc).

(** The text nodes below a tag, in document order. *)
Definition strings (n : node) : list string :=
  flat_map (fun d => match d with NavigableString s => [s] | Tag _ _ _ _ => [] end)
           (match n with
            | NavigableString _ => []
            | Tag _ _ _ cs => descendants cs
            end).

(** [tag.get_text(strip=True)]: every string stripped, the empty ones
    dropped, the rest joined without a separator. *)
Definition get_text (n : node) : string :=
  String.concat ""
    (filter (fun s => negb (String.eqb s ""))
            (map Py.strip (strings n))).

End Soup.

(** ** Rows of the two tables *)

Module Product.
Record t := mk { id : Z; url : string; title : string; price : Py.float }.
End Product.

Module Subscription.
Record t := mk { id : Z; user_email : string; product_id : Z }.
End Subscription.

(** The rows of both tables, in insertion order. *)
Record DB := { products : list Product.t; subscriptions : list Subscription.t }.

(** ** The process environment

    Everything [app.py] reads from outside: the web behind [requests.get],
    the two mail credentials of [os.environ], the mail relay and the
    storage layer's answer to a flush or a commit. *)

Record Response := {
  status_code : Z;
  http_error_msg : string;   (* the text of the HTTPError of raise_for_status *)
  content : Soup.soup
}.

(** What stands behind an address: no response, a response whose body
    [html.parser] turns into the tree [content r], or a response whose body
    the parser rejects with [ParserRejectedMarkup e] (the tree of [r] is
    then of no account). *)
Inductive fetched :=
| ConnectionFailed (e : string)    (* requests.get raises a RequestException *)
| Fetched (r : Response)
| Malformed (r : Response) (e : string).

(** The [page] that [requests.get] returns. *)
Record Page := { response : Response; markup_error : option string }.

(** The parameters of the message template of [send_notification_email]:
    the subject line, and the product and new price that fill the body. *)
Record Mail := {
  mail_from : string;
  mail_to : string;
  mail_subject : string;
  mail_product : Product.t;
  mail_new_price : Py.float
}.

Record Env := {
  web : string -> fetched;
  SENDER_EMAIL : option string;
  SENDER_PASSWORD : option string;
  (* login with the sender's password and sendmail: [None] when the message
     is accepted, otherwise the text of the exception *)
  smtp : string -> Mail -> option string;
  (* the storage layer's answer to writing these rows, at a flush as at a
     commit: [None] when accepted, otherwise the text of the exception *)
  commit_error : DB -> option string
}.

(** ** Exceptions, observable events and the monad of effects *)

(** The exception classes that occur, each subclasses included; [e] is the
    text that [str] gives. *)
Inductive exn :=
| RequestException (e : string)  (* requests.exceptions.RequestException *)
| AttributeError                 (* an attribute of None is looked up *)
| ValueError                     (* float() rejects its argument *)
| SMTPException (e : string)     (* whatever smtplib, ssl or the socket raise *)
| SQLAlchemyError (e : string)   (* raised by flush or commit *)
| ParserRejectedMarkup (e : string)  (* bs4: html.parser gives up on the body *)
| HTTPException (code : Z)       (* werkzeug's abort, here of get_json *)
| TypeError (e : string)         (* an operation on a value of the wrong type *)
| KeyError (k : string)          (* a dict has no such key *)
| BindError (e : string).        (* a statement parameter that cannot be bound *)

Definition str_exn (e : exn) : string :=
  match e with
  | RequestException s | SMTPException s | SQLAlchemyError s
  | ParserRejectedMarkup s | TypeError s | KeyError s | BindError s => s
  | AttributeError => "'NoneType' object has no attribute 'get_text'"
  | ValueError => "could not convert string to float"
  | HTTPException 415 => "415 Unsupported Media Type"
  | HTTPException _ => "400 Bad Request"
  end.

Inductive event :=
| Print (line : string)
| PrintPrices (old new : Py.float)      (* the printed line that shows the old
                                            and the new price *)
| PrintValue (before : string) (v : Json.t) (after : string)
                                         (* a printed line that shows a value
                                            that is not a str *)
| Notify (receiver : string) (product : Product.t) (new_price : Py.float)
                                         (* send_notification_email is entered *)
| Sent (m : Mail)                        (* sendmail went through *)
| SetPrice (pid : Z) (p : Py.float)      (* product.price = new_price *)
| Commit (accepted : bool)               (* db.session.commit() and its outcome *)
| Rollback.

(** [store] holds the committed rows, [session] the rows as the current
    SQLAlchemy session sees them (the store plus its uncommitted changes),
    [trace] what the process has done so far. *)
Record World := { store : DB; session : DB; trace : list event }.

Inductive res (A : Type) :=
| Ret (a : A)
| Raise (e : exn).
Arguments Ret {A} a.
Arguments Raise {A} e.

(** A computation changes the world and returns or raises; what it did
    before raising stays done. *)
Definition M (A : Type) : Type := World -> res A * World.

Definition ret {A} (a : A) : M A := fun w => (Ret a, w).

Definition bind {A B} (c : M A) (k : A -> M B) : M B :=
  fun w =>
    match c w with
    | (Ret a, w') => k a w'
    | (Raise e, w') => (Raise e, w')
    end.

Definition raise {A} (e : exn) : M A := fun w => (Raise e, w).

(** [try: body  except <classes>: handler] *)
Definition try_except {A} (body : M A) (catches : exn -> bool)
           (handler : exn -> M A) : M A :=
  fun w =>
    match body w with
    | (Raise e, w') => if catches e then handler e w' else (Raise e, w')
    | r => r
    end.

Declare Scope py_scope.
Delimit Scope py_scope with py.
Notation "x <- c ;; k" := (bind c (fun x => k))
  (at level 61, c at next level, right associativity) : py_scope.
Notation "c ;;; k" := (bind c (fun _ => k))
  (at level 61, right associativity) : py_scope.
Local Open Scope py_scope.

(** [for x in l: body x] *)
Fixpoint for_each {A} (l : list A) (body : A -> M unit) : M unit :=
  match l with
  | [] => ret tt
  | x :: l' => body x ;;; for_each l' body
  end.

(** The world after some more events. *)
Definition extend (w : World) (tr : list event) : World :=
  {| store := store w; session := session w; trace := trace w ++ tr |}.

Definition emit (e : event) : M unit := fun w => (Ret tt, extend w [e]).

Definition print (line : string) : M unit := emit (Print line).

(** A query against the session. *)
Definition query {A} (q : DB -> A) : M A := fun w => (Ret (q (session w)), w).

(** A change made in the session, not yet committed. *)
Definition update (f : DB -> DB) : M unit :=
  fun w => (Ret tt, {| store := store w; session := f (session w);
                       trace := trace w |}).

(** [db.session.commit()] *)
Definition commit (env : Env) : M unit :=
  fun w =>
    match commit_error env (session w) with
    | None => (Ret tt, {| store := session w; session := session w;
                          trace := trace w ++ [Commit true] |})
    | Some e => (Raise (SQLAlchemyError e), extend w [Commit false])
    end.

(** [db.session.rollback()] *)
Definition rollback : M unit :=
  fun w => (Ret tt, {| store := store w; session := store w;
                       trace := trace w ++ [Rollback] |}).

(** ** Queries and inserts of the two models *)

(** [Product.query.all()] *)
Definition Product_query_all : M (list Product.t) := query products.

(** The first product row with the address [u]. *)
Definition product_by_url (d : DB) (u : string) : option Product.t :=
  List.find (fun p => String.eqb (Product.url p) u) (products d).

(** [Product.query.filter_by(url=u).first()] *)
Definition Product_query_by_url (u : string) : M (option Product.t) :=
  query (fun d => product_by_url d u).

(** The test of [filter_by(user_email=e, product_id=pid)] on a row. *)
Definition subscribes (e : string) (pid : Z) (s : Subscription.t) : bool :=
  String.eqb (Subscription.user_email s) e && (Subscription.product_id s =? pid).

(** The first subscription row of [e] to the product with key [pid]. *)
Definition subscription_of (d : DB) (e : string) (pid : Z) : option Subscription.t :=
  List.find (subscribes e pid) (subscriptions d).

(** [Subscription.query.filter_by(user_email=e, product_id=pid).first()] *)
Definition Subscription_query (e : string) (pid : Z) : M (option Subscription.t) :=
  query (fun d => subscription_of d e pid).

(** The rows of [product.subscriptions]: those whose foreign key is the
    product's key. *)
Definition subscriptions_of (d : DB) (product : Product.t) : list Subscription.t :=
  filter (fun s => Subscription.product_id s =? Product.id product) (subscriptions d).

(** [product.subscriptions] *)
Definition Product_subscriptions (product : Product.t) : M (list Subscription.t) :=
  query (fun d => subscriptions_of d product).

(** The key SQLite gives a new row: one more than the largest key in use,
    1 in an empty table. *)
Definition next_id (ids : list Z) : Z :=
  match ids with
  | [] => 1
  | i :: l => 1 + fold_right Z.max i l
  end.

(** The product row that an insert creates, and the rows after it. *)
Definition new_product (d : DB) (u t : string) (p : Py.float) : Product.t :=
  Product.mk (next_id (map Product.id (products d))) u t p.

Definition insert_product (product : Product.t) (d : DB) : DB :=
  {| products := products d ++ [product]; subscriptions := subscriptions d |}.

(** The same for a subscription row. *)
Definition new_subscription (d : DB) (e : string) (pid : Z) : Subscription.t :=
  Subscription.mk (next_id (map Subscription.id (subscriptions d))) e pid.

Definition insert_subscription (s : Subscription.t) (d : DB) : DB :=
  {| products := products d; subscriptions := subscriptions d ++ [s] |}.

(** [db.session.flush()]: the pending rows are written.  When the storage
    layer refuses them the session is back at the stored rows and the
    exception is raised. *)
Definition flush (env : Env) : M unit :=
  fun w =>
    match commit_error env (session w) with
    | None => (Ret tt, w)
    | Some e => (Raise (SQLAlchemyError e),
                 {| store := store w; session := store w; trace := trace w |})
    end.

(** [product = Product(url=.., title=.., price=..); db.session.add(product);
    db.session.flush()]: the row is inserted in the session and has its
    key, unless the flush raises. *)
Definition add_Product (env : Env) (u t : string) (p : Py.float) : M Product.t :=
  product <- query (fun d => new_product d u t p) ;;
  update (insert_product product) ;;;
  flush env ;;;
  ret product.

(** [db.session.add(Subscription(user_email=.., product_id=..))]; the insert
    itself is part of the commit that follows. *)
Definition add_Subscription (e : string) (pid : Z) : M unit :=
  s <- query (fun d => new_subscription d e pid) ;;
  update (insert_subscription s).

(** The commit of a pending subscription whose address is bound as [NULL]:
    the column is not nullable, the insert fails and the commit raises. *)
Definition commit_refused (e : string) : M unit :=
  fun w => (Raise (SQLAlchemyError e), extend w [Commit false]).

(** The row [q] with the price [p]. *)
Definition with_price (q : Product.t) (p : Py.float) : Product.t :=
  Product.mk (Product.id q) (Product.url q) (Product.title q) p.

(** The rows after the price of the product with key [pid] is set to [p]. *)
Definition repriced (pid : Z) (p : Py.float) (d : DB) : DB :=
  {| products := map (fun q => if Product.id q =? pid then with_price q p else q)
                     (products d);
     subscriptions := subscriptions d |}.

(** [product.price = new_price] on the row with the product's key. *)
Definition set_price (pid : Z) (p : Py.float) : M unit :=
  emit (SetPrice pid p) ;;;
  update (repriced pid p).

(** ** [send_notification_email] *)

(** Truth value of what [os.environ.get] returns: [None] and the empty
    string are false. *)
Definition truthy (v : option string) : bool :=
  match v with
  | Some (String _ _) => true
  | _ => false
  end.

Definition value (v : option string) : string :=
  match v with Some s => s | None => "" end.

(** [server.login(sender_email, password); server.sendmail(..)] inside the
    [with smtplib.SMTP_SSL(..)] block. *)
Definition SMTP_SSL_send (env : Env) (password : string) (m : Mail) : M unit :=
  match smtp env password m with
  | None => emit (Sent m)
  | Some e => raise (SMTPException e)
  end.

(** [subject], [body] and [message]: the template filled in. *)
Definition message (env : Env) (receiver_email : string)
           (product : Product.t) (new_price : Py.float) : Mail :=
  {| mail_from := value (SENDER_EMAIL env);
     mail_to := receiver_email;
     mail_subject :=
       "Subject: Price Drop Alert: " ++ Py.prefix 30 (Product.title product) ++ "...";
     mail_product := product;
     mail_new_price := new_price |}.

Definition send_notification_email (env : Env) (receiver_email : string)
           (product : Product.t) (new_price : Py.float) : M unit :=
  emit (Notify receiver_email product new_price) ;;;
  let sender_email := SENDER_EMAIL env in
  let password := SENDER_PASSWORD env in
  if negb (forallb truthy [sender_email; password]) then
    print "Sender email credentials are not set."
  else
    print ("Attempting to send email to " ++ receiver_email ++ "...") ;;;
    try_except
      (SMTP_SSL_send env (value password)
                     (message env receiver_email product new_price) ;;;
       print ("Email successfully sent to " ++ receiver_email ++ "!"))
      (fun _ => true)
      (fun e => print ("An error occurred while sending email: " ++ str_exn e)).

(** ** [get_product_details] *)

(** [requests.get(url, headers=headers)] *)
Definition requests_get (env : Env) (u : string) : M Page :=
  match web env u with
  | ConnectionFailed e => raise (RequestException e)
  | Fetched r => ret {| response := r; markup_error := None |}
  | Malformed r e => ret {| response := r; markup_error := Some e |}
  end.

(** The client and server error statuses, 400 to 599. *)
Definition error_status (page : Response) : bool :=
  (400 <=? status_code page) && (status_code page <? 600).

(** [page.raise_for_status()]: an HTTPError, which is a RequestException,
    on an error status. *)
Definition raise_for_status (page : Page) : M unit :=
  if error_status (response page)
  then raise (RequestException (http_error_msg (response page)))
  else ret tt.

(** [BeautifulSoup(page.content, "html.parser")]: the tree, or the parser's
    exception. *)
Definition BeautifulSoup (page : Page) : M Soup.soup :=
  match markup_error page with
  | Some e => raise (ParserRejectedMarkup e)
  | None => ret (content (response page))
  end.

(** [x.get_text(strip=True)] where [x] is the result of a [find]: on [None]
    the attribute lookup raises. *)
Definition get_text (x : option Soup.node) : M string :=
  match x with
  | Some tag => ret (Soup.get_text tag)
  | None => raise AttributeError
  end.

(** [float(s)] *)
Definition float (s : string) : M Py.float :=
  match Py.float_of_string s with
  | Some x => ret x
  | None => raise ValueError
  end.

Definition is_RequestException (e : exn) : bool :=
  match e with RequestException _ => true | _ => false end.

Definition is_AttributeError (e : exn) : bool :=
  match e with AttributeError => true | _ => false end.

Definition is_ValueError (e : exn) : bool :=
  match e with ValueError => true | _ => false end.

Definition get_product_details (env : Env) (url_to_check : string)
  : M (string * Py.float) :=
  print ("Checking URL: " ++ Py.prefix 50 url_to_check ++ "...") ;;;
  fetched <-
    try_except
      (page <- requests_get env url_to_check ;;
       raise_for_status page ;;;
       ret (Some page))
      is_RequestException
      (fun e => print ("Connection error: " ++ str_exn e) ;;; ret None) ;;
  match fetched with
  | None => ret ("N/A", Py.zero)
  | Some page =>
      soup <- BeautifulSoup page ;;
      product_name <-
        try_except
          (get_text (Soup.find (Soup.has_id "productTitle") soup))
          is_AttributeError
          (fun _ => ret "N/A") ;;
      full_price <-
        try_except
          (whole <- get_text (Soup.find (Soup.has_class "a-price-whole") soup) ;;
           let price_whole_str := Py.remove_char "," (Py.remove_char "." whole) in
           price_fraction_str <-
             get_text (Soup.find (Soup.has_class "a-price-fraction") soup) ;;
           float (price_whole_str ++ "." ++ price_fraction_str))
          (fun e => is_AttributeError e || is_ValueError e)
          (fun _ => ret Py.zero) ;;
      ret (product_name, full_price)
  end.

(** ** [check_prices] and [job] *)

(** [0 < new_price < product.price] *)
Definition price_drop (new_price : Py.float) (product : Product.t) : bool :=
  Py.lt Py.zero new_price && Py.lt new_price (Product.price product).

(** The body of the loop over the products.  [product] is the row as
    [Product.query.all()] loaded it; no step of the sweep changes the row of
    a product before its turn. *)
Definition check_product (env : Env) (product : Product.t) : M unit :=
  print ("Checking: " ++ Py.prefix 30 (Product.title product) ++ "...") ;;;
  details <- get_product_details env (Product.url product) ;;
  let new_price := snd details in
  if price_drop new_price product then
    print ("PRICE DROP DETECTED! " ++ Py.prefix 30 (Product.title product)) ;;;
    emit (PrintPrices (Product.price product) new_price) ;;;
    subs <- Product_subscriptions product ;;
    for_each subs (fun sub =>
      send_notification_email env (Subscription.user_email sub) product new_price) ;;;
    set_price (Product.id product) new_price ;;;
    commit env ;;;
    print "Database updated."
  else
    print "No price change detected.".

Definition check_prices (env : Env) : M unit :=
  print "Hourly price check started." ;;;
  products <- Product_query_all ;;
  match products with
  | [] => print "No products found in the database."
  | _ =>
      for_each products (check_product env) ;;;
      print "Price check completed."
  end.

(** A world whose session has just been opened on the rows [d]. *)
Definition fresh (d : DB) : World := {| store := d; session := d; trace := [] |}.

(** [job]: the sweep in an application context of its own. *)
Definition job (env : Env) (d : DB) : res unit * World := check_prices env (fresh d).

(** ** [track_product] *)

(** The body of the request: not declared as JSON, not decodable, or a
    decoded value. *)
Inductive Body :=
| NotJson
| BadJson
| Json (data : Json.t).

(** [request.get_json()]: the decoded body; the request is aborted (an
    [HTTPException] is raised in the handler) with status 415 when the
    body is not declared as JSON and with 400 when it does not decode. *)
Definition get_json (request : Body) : M Json.t :=
  match request with
  | NotJson => raise (HTTPException 415)
  | BadJson => raise (HTTPException 400)
  | Json data => ret data
  end.

(** [k in data] *)
Definition contains (k : string) (data : Json.t) : M bool :=
  match Json.member k data with
  | Some b => ret b
  | None => raise (TypeError "argument is not iterable")
  end.

(** [data[k]] for a string [k] *)
Definition getitem (data : Json.t) (k : string) : M Json.t :=
  match data with
  | Json.JObject members =>
      match Json.lookup k members with
      | Some v => ret v
      | None => raise (KeyError k)
      end
  | Json.JArray _ | Json.JString _ => raise (TypeError "indices must be integers")
  | _ => raise (TypeError "object is not subscriptable")
  end.

(** [Product.query.filter_by(url=v).first()] for whatever value [v]: a
    value bound as [NULL] matches no row, since no address is [NULL]. *)
Definition Product_query_filter_by (url : Json.t) : M (option Product.t) :=
  match Json.bind url with
  | Json.Text u => Product_query_by_url u
  | Json.Null => ret None
  | Json.Unbindable e => raise (BindError e)
  end.

(** [Subscription.query.filter_by(user_email=v, product_id=pid).first()] *)
Definition Subscription_query_filter_by (user_email : Json.t) (pid : Z)
  : M (option Subscription.t) :=
  match Json.bind user_email with
  | Json.Text e => Subscription_query e pid
  | Json.Null => ret None
  | Json.Unbindable e => raise (BindError e)
  end.

(** [print(f"New product detected: {product_url}. Fetching details...")] *)
Definition print_detected (product_url : Json.t) : M unit :=
  match product_url with
  | Json.JString u => print ("New product detected: " ++ u ++ ". Fetching details...")
  | v => emit (PrintValue "New product detected: " v ". Fetching details...")
  end.

(** The argument of [get_product_details], which is written for a str: on
    any other value its first step, the slice [url_to_check[:50]], raises.
    (A list or a dict does not get this far: the query before has raised.) *)
Definition url_argument (v : Json.t) : M string :=
  match v with
  | Json.JString u => ret u
  | _ => raise (TypeError "object is not subscriptable")
  end.

Definition dquote : string := String (ascii_of_nat 34) EmptyString.

(** Lines 170 to 181 of [track_product]: the product row with the requested
    address, looked up or else fetched, extracted and inserted; or the
    response that ends the request when the extraction gives a sentinel. *)
Definition find_or_create (env : Env) (product_url : Json.t)
  : M ((string * Z) + Product.t) :=
  found <- Product_query_filter_by product_url ;;
  match found with
  | Some product => ret (inr product)
  | None =>
      print_detected product_url ;;;
      url_to_check <- url_argument product_url ;;
      details <- get_product_details env url_to_check ;;
      let '(title, price) := details in
      if String.eqb title "N/A" || Py.eq price Py.zero then
        ret (inl ("Failed to retrieve product information. Please verify the Amazon URL.", 400))
      else
        product <- add_Product env url_to_check title price ;;
        ret (inr product)
  end.

(** Lines 183 to 198: the subscription of [user_email] to [product].  A
    pending row whose address is bound as [NULL] is not one the session can
    hold as a row of the table: its commit is refused. *)
Definition subscribe (env : Env) (product : Product.t) (user_email : Json.t)
  : M (string * Z) :=
  subscription <- Subscription_query_filter_by user_email (Product.id product) ;;
  match subscription with
  | Some _ => ret ("You are already tracking this product.", 200)
  | None =>
      write <-
        match Json.bind user_email with
        | Json.Text e =>
            add_Subscription e (Product.id product) ;;;
            ret (commit env)
        | _ =>
            ret (commit_refused "NOT NULL constraint failed: subscription.user_email")
        end ;;
      failed <-
        try_except
          (write ;;; ret None)
          (fun _ => true)
          (fun e =>
             rollback ;;;
             print ("Database error: " ++ str_exn e) ;;;
             ret (Some ("An error occurred while creating the tracking request.", 500))) ;;
      match failed with
      | Some response => ret response
      | None =>
          ret ("Success! Tracking has been set up for " ++ dquote
               ++ Py.prefix 30 (Product.title product) ++ "..." ++ dquote, 201)
      end
  end.

Definition track_product (env : Env) (request : Body) : M (string * Z) :=
  data <- get_json request ;;
  missing <-
    (if negb (Json.truth data) then ret true
     else
       has_url <- contains "product_url" data ;;
       if negb has_url then ret true
       else
         has_email <- contains "user_email" data ;;
         ret (negb has_email)) ;;
  if missing then ret ("Missing product_url or user_email.", 400)
  else
    product_url <- getitem data "product_url" ;;
    user_email <- getitem data "user_email" ;;
    created <- find_or_create env product_url ;;
    match created with
    | inl response => ret response
    | inr product => subscribe env product user_email
    end.

(** The endpoint serving one request: a session of its own on the stored
    rows. *)
Definition POST_track (env : Env) (request : Body) (d : DB)
  : res (string * Z) * World :=
  track_product env request (fresh d).

(** * Notions used in the statements *)

(** [writes c a tr]: in every world, [c] returns [a], changes no row and
    adds the events [tr]. *)
Definition writes {A} (c : M A) (a : A) (tr : list event) : Prop :=
  forall w, c w = (Ret a, extend w tr).

(** [fails c e tr]: in every world, [c] raises [e], changes no row and
    adds the events [tr]. *)
Definition fails {A} (c : M A) (e : exn) (tr : list event) : Prop :=
  forall w, c w = (Raise e, extend w tr).

Definition is_print (e : event) : bool :=
  match e with Print _ => true | _ => false end.

(** What the two [try] blocks of [get_product_details] leave in
    [product_name] and [full_price]. *)
Definition title_of (soup : Soup.soup) : string :=
  match Soup.find (Soup.has_id "productTitle") soup with
  | Some tag => Soup.get_text tag
  | None => "N/A"
  end.

Definition price_of (soup : Soup.soup) : Py.float :=
  match Soup.find (Soup.has_class "a-price-whole") soup,
        Soup.find (Soup.has_class "a-price-fraction") soup with
  | Some tw, Some tf =>
      match Py.float_of_string
              (Py.remove_char "," (Py.remove_char "." (Soup.get_text tw))
               ++ "." ++ Soup.get_text tf) with
      | Some x => x
      | None => Py.zero
      end
  | _, _ => Py.zero
  end.

(** [extracts env u t p]: fetching and extracting [u] yields the title [t]
    and the price [p]. *)
Definition extracts (env : Env) (u t : string) (p : Py.float) : Prop :=
  forall w, fst (get_product_details env u w) = Ret (t, p).

(** The events that concern the product with key [pid]: a notification about
    it, a mail about it, a change of its price. *)
Definition about (pid : Z) (e : event) : bool :=
  match e with
  | Notify _ product _ => Product.id product =? pid
  | Sent m => Product.id (mail_product m) =? pid
  | SetPrice i _ => i =? pid
  | _ => false
  end.

Definition silent (pid : Z) (tr : list event) : Prop :=
  forallb (fun e => negb (about pid e)) tr = true.

(** The calls of the notifier recorded in a trace, in order. *)
Definition notified (tr : list event) : list (string * Product.t * Py.float) :=
  flat_map (fun e => match e with
                     | Notify r product p => [(r, product, p)]
                     | _ => []
                     end) tr.

(** The mails handed over to the relay, in order. *)
Definition sent (tr : list event) : list Mail :=
  flat_map (fun e => match e with Sent m => [m] | _ => [] end) tr.

(** What the notifier itself may leave in the trace. *)
Definition notifier_event (e : event) : bool :=
  match e with
  | Notify _ _ _ | Print _ | Sent _ => true
  | _ => false
  end.

(** Both credentials are set, as [all([sender_email, password])] tests it. *)
Definition credentials_set (env : Env) : bool :=
  forallb truthy [SENDER_EMAIL env; SENDER_PASSWORD env].

(** The relay's answer to the mail for [receiver]. *)
Definition relay_answer (env : Env) (receiver : string) (product : Product.t)
           (p : Py.float) : option string :=
  smtp env (value (SENDER_PASSWORD env)) (message env receiver product p).

(** Both credentials are set and the relay accepts the mail to [receiver]. *)
Definition deliverable (env : Env) (product : Product.t) (p : Py.float)
           (receiver : string) : bool :=
  credentials_set env
  && match relay_answer env receiver product p with
     | None => true
     | Some _ => false
     end.

(** The keys and addresses of the products and the subscription rows: what
    the sweep never changes. *)
Definition keys_and_subs (d : DB) : list (Z * string) * list Subscription.t :=
  (map (fun q => (Product.id q, Product.url q)) (products d), subscriptions d).

(** [frame pid w w']: from [w] to [w'] nothing happened that concerns the
    product with key [pid], and no key or subscription changed. *)
Definition frame (pid : Z) (w w' : World) : Prop :=
  (exists tr, trace w' = (trace w ++ tr)%list /\ silent pid tr) /\
  (forall R, Product.id R = pid ->
             In R (products (session w)) -> In R (products (session w'))) /\
  (forall R, Product.id R = pid ->
             In R (products (store w)) -> In R (products (session w)) ->
             In R (products (store w'))) /\
  keys_and_subs (session w') = keys_and_subs (session w) /\
  (keys_and_subs (store w) = keys_and_subs (session w) ->
   keys_and_subs (store w') = keys_and_subs (store w)).

(** The loop body run on [product] cannot concern the key [pid]: it is
    another product, or its price did not drop. *)
Definition leaves_alone (env : Env) (pid : Z) (product : Product.t) : Prop :=
  Product.id product <> pid \/
  exists t p, extracts env (Product.url product) t p /\ price_drop p product = false.

(** A request whose body is an object with the two keys and strings under
    them. *)
Definition request (u e : string) : Body :=
  Json (Json.JObject [("product_url", Json.JString u); ("user_email", Json.JString e)]).

(** The lookup of the value [v] among the product rows finds none. *)
Definition unknown (d : DB) (v : Json.t) : Prop :=
  Json.bind v = Json.Null \/
  exists u, Json.bind v = Json.Text u /\ product_by_url d u = None.

(** A request that stops short of the rows or on a value of the wrong
    type: the answer for a missing key, or one of the exceptions of
    [get_json], of [in] and the subscripts, of the slice in the extractor,
    and of the driver. *)
Definition stops_short (r : res (string * Z)) : Prop :=
  r = Ret ("Missing product_url or user_email.", 400) \/
  exists x, r = Raise x /\
    (x = HTTPException 415 \/ x = HTTPException 400 \/
     (exists m, x = TypeError m) \/ exists m, x = BindError m).

(** What the handler does once it holds the two values of the body. *)
Definition track_values (env : Env) (product_url user_email : Json.t)
  : M (string * Z) :=
  created <- find_or_create env product_url ;;
  match created with
  | inl response => ret response
  | inr product => subscribe env product user_email
  end.

(** The ways in which a request ends before the handler looks at the rows:
    [get_json] aborts it, the decoded body is not a value that [in] or a
    subscript with a string is defined on, or a key is missing. *)
Definition ends_early (r : res (string * Z)) : Prop :=
  r = Raise (HTTPException 415) \/ r = Raise (HTTPException 400) \/
  (exists x, r = Raise (TypeError x)) \/
  r = Ret ("Missing product_url or user_email.", 400).

(** The constraints that the two models declare: the primary keys, the
    unique address of a product, the unique pair of subscriber and product,
    and the foreign key of a subscription. *)
Definition schema (d : DB) : Prop :=
  NoDup (map Product.id (products d)) /\
  NoDup (map Product.url (products d)) /\
  NoDup (map Subscription.id (subscriptions d)) /\
  NoDup (map (fun s => (Subscription.user_email s, Subscription.product_id s))
             (subscriptions d)) /\
  (forall s, In s (subscriptions d) ->
             In (Subscription.product_id s) (map Product.id (products d))).

(** No stored price is equal to [0.0]. *)
Definition priced (d : DB) : Prop :=
  forall product, In product (products d) -> Py.eq (Product.price product) Py.zero = false.

(** What holds of every world of a sweep that starts on priced rows: the
    rows are priced and every price set so far is strictly positive. *)
Definition sound (w : World) : Prop :=
  priced (store w) /\ priced (session w) /\
  (forall pid p, In (SetPrice pid p) (trace w) -> Py.lt Py.zero p = true).

(** The stores that the application can bring about: the empty tables of
    [db.create_all()], then any track request and any sweep, in any
    environment and however they end. *)
Inductive reachable : DB -> Prop :=
| reachable_empty : reachable {| products := []; subscriptions := [] |}
| reachable_track env data d r w :
    reachable d -> POST_track env data d = (r, w) -> reachable (store w)
| reachable_job env d r w :
    reachable d -> job env d = (r, w) -> reachable (store w).

(** The ways in which no price can be read off the page behind [u]. *)
Inductive price_unavailable (env : Env) (u : string) : Prop :=
| network_failure e :
    web env u = ConnectionFailed e -> price_unavailable env u
| non_success_status r :
    web env u = Fetched r -> error_status r = true -> price_unavailable env u
| whole_part_missing r :
    web env u = Fetched r ->
    (forall name i cl cs, In (Soup.Tag name i cl cs) (Soup.descendants (content r)) ->
                          ~ In "a-price-whole" cl) ->
    price_unavailable env u
| fraction_part_missing r :
    web env u = Fetched r ->
    (forall name i cl cs, In (Soup.Tag name i cl cs) (Soup.descendants (content r)) ->
                          ~ In "a-price-fraction" cl) ->
    price_unavailable env u
| price_unparsable r tw tf :
    web env u = Fetched r ->
    Soup.find (Soup.has_class "a-price-whole") (content r) = Some tw ->
    Soup.find (Soup.has_class "a-price-fraction") (content r) = Some tf ->
    Py.float_of_string
      (Py.remove_char "," (Py.remove_char "." (Soup.get_text tw))
       ++ "." ++ Soup.get_text tf) = None ->
    price_unavailable env u.

(** ** Reference functions

    What the extractor does for the address [u], read off the environment,
    and what a sweep makes of a product row. *)

(** The message of the [ParserRejectedMarkup] that the extractor raises for
    [u]: the response has no error status and the parser rejects its body. *)
Definition rejection (env : Env) (u : string) : option string :=
  match web env u with
  | Malformed r e => if error_status r then None else Some e
  | _ => None
  end.

(** The pair that the extractor returns for [u].  Where it raises instead
    (see [rejection]) the sentinels stand in, so that [details] shows a
    title and a price only where the extractor returns them. *)
Definition details (env : Env) (u : string) : string * Py.float :=
  match web env u with
  | ConnectionFailed _ => ("N/A", Py.zero)
  | Fetched r =>
      if error_status r then ("N/A", Py.zero)
      else (title_of (content r), price_of (content r))
  | Malformed _ _ => ("N/A", Py.zero)
  end.

(** The row after its turn in a sweep: at the price on its page when that
    is a drop, as it was otherwise. *)
Definition lowered (env : Env) (product : Product.t) : Product.t :=
  if price_drop (snd (details env (Product.url product))) product
  then with_price product (snd (details env (Product.url product)))
  else product.

(** [turn env P P']: the row [P'] is the row [P] after its turn in a sweep.
    Key, address and title are the same, the page of [P] was read through,
    and the price is the one on the page when that is a drop, the one from
    before otherwise. *)
Definition turn (env : Env) (P P' : Product.t) : Prop :=
  Product.id P' = Product.id P /\
  Product.url P' = Product.url P /\
  Product.title P' = Product.title P /\
  rejection env (Product.url P) = None /\
  Product.price P' =
    if Py.lt Py.zero (snd (details env (Product.url P)))
       && Py.lt (snd (details env (Product.url P))) (Product.price P)
    then snd (details env (Product.url P))
    else Product.price P.

(** The characters of a text, to say that one occurs in it. *)
Definition chars (s : string) : list ascii := list_ascii_of_string s.

(** The lines that the loop body prints before it notifies. *)
Definition is_log (e : event) : bool :=
  match e with
  | Print _ | PrintPrices _ _ => true
  | _ => false
  end.

(** What stands behind a notification of a sweep over the rows [d]: a
    stored product whose page shows a drop and one of its subscribers; a
    mail is the filled template, sent with both credentials set. *)
Definition justified (env : Env) (d : DB) (e : event) : Prop :=
  match e with
  | Notify a P p =>
      In P (products d) /\
      p = snd (details env (Product.url P)) /\ price_drop p P = true /\
      exists s, In s (subscriptions d) /\
                Subscription.product_id s = Product.id P /\
                Subscription.user_email s = a
  | Sent m =>
      m = message env (mail_to m) (mail_product m) (mail_new_price m) /\
      credentials_set env = true /\
      In (mail_product m) (products d) /\
      mail_new_price m = snd (details env (Product.url (mail_product m))) /\
      price_drop (mail_new_price m) (mail_product m) = true /\
      exists s, In s (subscriptions d) /\
                Subscription.product_id s = Product.id (mail_product m) /\
                Subscription.user_email s = mail_to m
  | _ => True
  end.

(** How a sweep over the rows [d] can end: it returns and no commit failed;
    or it raises the error of a failed commit, which is then the last event
    and the only failed commit; or it raises the [ParserRejectedMarkup] of
    the page of a stored product, the last event being the line that the
    extractor prints first, and no commit has failed. *)
Definition sweep_ends (env : Env) (d : DB) (r : res unit) (tr : list event) : Prop :=
  (r = Ret tt /\ ~ In (Commit false) tr) \/
  (exists x tr0, r = Raise (SQLAlchemyError x) /\
                 tr = (tr0 ++ [Commit false])%list /\ ~ In (Commit false) tr0) \/
  (exists x tr0 Q,
      r = Raise (ParserRejectedMarkup x) /\
      In Q (products d) /\ rejection env (Product.url Q) = Some x /\
      tr = (tr0 ++ [Print ("Checking URL: " ++ Py.prefix 50 (Product.url Q) ++ "...")])%list /\
      ~ In (Commit false) tr0).

(** [P'] is the row [P] later on: the same key, address and title, at the
    same price or at a strictly positive, strictly lower one. *)
Definition kept (P P' : Product.t) : Prop :=
  Product.id P' = Product.id P /\
  Product.url P' = Product.url P /\
  Product.title P' = Product.title P /\
  (Product.price P' = Product.price P \/
   (Py.lt Py.zero (Product.price P') = true /\
    Py.lt (Product.price P') (Product.price P) = true)).

(** One operation of the application on the store: a track request or a
    sweep, in any environment and however it ends; [evolves] is any number
    of them. *)
Inductive evolves : DB -> DB -> Prop :=
| evolves_refl d : evolves d d
| evolves_track env data d d' r w :
    evolves d d' -> POST_track env data d' = (r, w) -> evolves d (store w)
| evolves_job env d d' r w :
    evolves d d' -> job env d' = (r, w) -> evolves d (store w).

(** ** Sample data *)

Module Sample.

(** A product page in the markup the extractor expects. *)
Definition page (title whole fraction : string) : Soup.soup :=
  [Soup.Tag "div" None ["a-section"]
     [Soup.Tag "span" (Some "productTitle") ["a-size-large"]
        [Soup.NavigableString title];
      Soup.Tag "span" None ["a-price"]
        [Soup.Tag "span" None ["a-price-whole"]
           [Soup.NavigableString whole;
            Soup.Tag "span" None ["a-price-decimal"] [Soup.NavigableString ","]];
         Soup.Tag "span" None ["a-price-fraction"]
           [Soup.NavigableString fraction]]]].

Definition ok (doc : Soup.soup) : fetched :=
  Fetched {| status_code := 200; http_error_msg := ""; content := doc |}.

(** An environment with working mail and storage, serving [doc] at every
    address. *)
Definition serving (doc : Soup.soup) : Env :=
  {| web := fun _ => ok doc;
     SENDER_EMAIL := Some "dealrelay@example.org";
     SENDER_PASSWORD := Some "secret";
     smtp := fun _ _ => None;
     commit_error := fun _ => None |}.

(** The same environment with, at every address, a response of status 200
    whose body the parser rejects (such as the bytes [<![ab]>]): there is
    no tree, hence no title and no price element. *)
Definition rejecting : Env :=
  {| web := fun _ =>
       Malformed {| status_code := 200; http_error_msg := ""; content := [] |}
                 "The markup you provided was rejected by the parser.";
     SENDER_EMAIL := Some "dealrelay@example.org";
     SENDER_PASSWORD := Some "secret";
     smtp := fun _ _ => None;
     commit_error := fun _ => None |}.

Definition empty : DB := {| products := []; subscriptions := [] |}.

(** A lamp tracked at 50.00 by two subscribers. *)
Definition lamp : Product.t :=
  Product.mk 1 "https://shop.example/lamp" "Lamp" (Py.of_decimal false 5000 (-2)).

Definition shop : DB :=
  {| products := [lamp];
     subscriptions := [Subscription.mk 1 "ann@example.org" 1;
                       Subscription.mk 2 "bob@example.org" 1] |}.

End Sample.

(** * Properties *)

(** ** Comparisons of floats *)

Module PyFacts.

Lemma compare_swap (x y : Py.float) :
  SFcompare y x = option_map CompOpp (SFcompare x y).
Proof.
  destruct x as [[]|[]| |[] m1 e1], y as [[]|[]| |[] m2 e2]; simpl; try reflexivity;
    rewrite (Z.compare_antisym e1 e2);
    destruct (e1 ?= e2); simpl; try reflexivity;
    rewrite (Pos.compare_cont_antisym m1 m2 Eq); simpl;
    try rewrite CompOpp_involutive; reflexivity.
Qed.

(** [y <= x] excludes [x < y]. *)
Lemma le_not_lt (x y : Py.float) : Py.le y x = true -> Py.lt x y = false.
Proof.
  unfold Py.le, Py.lt, SFleb, SFltb. rewrite (compare_swap x y).
  destruct (SFcompare x y) as [[]|]; simpl; congruence.
Qed.

(** [x == 0.0] excludes [0 < x]. *)
Lemma eq_zero_not_pos (x : Py.float) :
  Py.eq x Py.zero = true -> Py.lt Py.zero x = false.
Proof.
  unfold Py.eq, Py.lt, SFeqb, SFltb. rewrite (compare_swap Py.zero x).
  destruct (SFcompare Py.zero x) as [[]|]; simpl; congruence.
Qed.

(** [0 < x] excludes [x == 0.0]. *)
Lemma pos_not_eq_zero (x : Py.float) :
  Py.lt Py.zero x = true -> Py.eq x Py.zero = false.
Proof.
  intros H. destruct (Py.eq x Py.zero) eqn:E; [|reflexivity].
  apply eq_zero_not_pos in E. congruence.
Qed.


(** Some values of [float], as CPython gives them. *)
Example float_45_00 : Py.float_of_string "45.00"
  = Some (S754_finite false 6333186975989760 (-47)).
Proof. reflexivity. Qed.

Example float_0_1 : Py.float_of_string "0.1"
  = Some (S754_finite false 7205759403792794 (-56)).
Proof. reflexivity. Qed.

Example float_padded : Py.float_of_string " 1_000.5 "
  = Some (S754_finite false 8800491068719104 (-43)).
Proof. reflexivity. Qed.

Example float_exponent : Py.float_of_string "1.5e3"
  = Some (S754_finite false 6597069766656000 (-42)).
Proof. reflexivity. Qed.

Example float_negative : Py.float_of_string "-5.00"
  = Some (S754_finite true 5629499534213120 (-50)).
Proof. reflexivity. Qed.

Example float_negative_zero : Py.float_of_string "-0.00"
  = Some (S754_zero true).
Proof. reflexivity. Qed.

Example float_overflow : Py.float_of_string "1e400"
  = Some (S754_infinity false).
Proof. reflexivity. Qed.

Example float_smallest : Py.float_of_string "5e-324"
  = Some (S754_finite false 1 (-1074)).
Proof. reflexivity. Qed.

Example float_infinity : Py.float_of_string "-Infinity"
  = Some (S754_infinity true).
Proof. reflexivity. Qed.

Example float_two_points : Py.float_of_string "1.5.6" = None.
Proof. reflexivity. Qed.

Example float_comma : Py.float_of_string "1234.5,6" = None.
Proof. reflexivity. Qed.

Example float_only_point : Py.float_of_string "." = None.
Proof. reflexivity. Qed.

Example float_bad_underscore : Py.float_of_string "1__0" = None.
Proof. reflexivity. Qed.

Example float_empty : Py.float_of_string "" = None.
Proof. reflexivity. Qed.

Example float_tie_even : Py.float_of_string "9007199254740993"
  = Some (S754_finite false 4503599627370496 (1)).
Proof. reflexivity. Qed.

End PyFacts.

(** ** Computations that only add to the trace *)

Lemma extend_nil (w : World) : extend w [] = w.
Proof. destruct w; unfold extend; simpl. now rewrite app_nil_r. Qed.

Lemma extend_extend (w : World) (a b : list event) :
  extend (extend w a) b = extend w (a ++ b).
Proof. unfold extend; simpl. now rewrite app_assoc. Qed.


Section Writes.
Context {A B : Type}.

Lemma writes_ret (a : A) : writes (ret a) a [].
Proof. intros w. unfold ret. now rewrite extend_nil. Qed.

Lemma writes_bind (c : M A) (k : A -> M B) a b t1 t2 :
  writes c a t1 -> writes (k a) b t2 -> writes (bind c k) b (t1 ++ t2).
Proof.
  intros Hc Hk w. unfold bind. rewrite Hc, Hk. now rewrite extend_extend.
Qed.

End Writes.

Lemma writes_emit (e : event) : writes (emit e) tt [e].
Proof. intros w. reflexivity. Qed.

Lemma writes_print (line : string) : writes (print line) tt [Print line].
Proof. intros w. reflexivity. Qed.

(** ** The extractor *)

Ltac run_extractor :=
  unfold get_product_details, bind, try_except, requests_get, raise_for_status,
    BeautifulSoup, get_text, float.

Ltac step_run :=
  cbn -[extend String.append Py.prefix Py.float_of_string Soup.find error_status
        forallb message].

Ltac finish_run :=
  step_run; unfold print, emit, ret; rewrite ?extend_extend; reflexivity.




Lemma get_product_details_unreachable env u e :
  web env u = ConnectionFailed e ->
  writes (get_product_details env u) ("N/A", Py.zero)
         [Print ("Checking URL: " ++ Py.prefix 50 u ++ "...");
          Print ("Connection error: " ++ e)].
Proof.
  intros H w. run_extractor. rewrite H. finish_run.
Qed.

Lemma get_product_details_http_error env u r :
  web env u = Fetched r -> error_status r = true ->
  writes (get_product_details env u) ("N/A", Py.zero)
         [Print ("Checking URL: " ++ Py.prefix 50 u ++ "...");
          Print ("Connection error: " ++ http_error_msg r)].
Proof.
  intros H E w. run_extractor. rewrite H. step_run. rewrite E. finish_run.
Qed.

Lemma get_product_details_fetched env u r :
  web env u = Fetched r -> error_status r = false ->
  writes (get_product_details env u) (title_of (content r), price_of (content r))
         [Print ("Checking URL: " ++ Py.prefix 50 u ++ "...")].
Proof.
  intros H E w. run_extractor. rewrite H. step_run. rewrite E.
  unfold title_of, price_of. step_run.
  destruct (Soup.find (Soup.has_id "productTitle") (content r));
    destruct (Soup.find (Soup.has_class "a-price-whole") (content r));
    destruct (Soup.find (Soup.has_class "a-price-fraction") (content r));
    step_run; try destruct (Py.float_of_string _); finish_run.
Qed.

Lemma get_product_details_http_error_malformed env u r e :
  web env u = Malformed r e -> error_status r = true ->
  writes (get_product_details env u) ("N/A", Py.zero)
         [Print ("Checking URL: " ++ Py.prefix 50 u ++ "...");
          Print ("Connection error: " ++ http_error_msg r)].
Proof.
  intros H E w. run_extractor. rewrite H. step_run. rewrite E. finish_run.
Qed.

(** The parser is called outside the [try] blocks: its exception leaves the
    extractor. *)
Lemma get_product_details_rejected env u r e :
  web env u = Malformed r e -> error_status r = false ->
  fails (get_product_details env u) (ParserRejectedMarkup e)
        [Print ("Checking URL: " ++ Py.prefix 50 u ++ "...")].
Proof.
  intros H E w. run_extractor. rewrite H. step_run. rewrite E. finish_run.
Qed.

Lemma get_product_details_fails env u e :
  rejection env u = Some e ->
  fails (get_product_details env u) (ParserRejectedMarkup e)
        [Print ("Checking URL: " ++ Py.prefix 50 u ++ "...")].
Proof.
  unfold rejection. destruct (web env u) as [x|r|r x] eqn:H; try discriminate.
  destruct (error_status r) eqn:E; [discriminate|].
  intros Hx. inversion Hx; subst. exact (get_product_details_rejected _ _ _ _ H E).
Qed.

(** Where the parser does not reject the page, the extractor returns,
    touches no row and only prints. *)
Lemma get_product_details_writes env u :
  rejection env u = None ->
  exists t p tr,
    writes (get_product_details env u) (t, p) tr /\ forallb is_print tr = true.
Proof.
  unfold rejection. destruct (web env u) as [e|r|r e] eqn:H.
  - intros _.
    eexists _, _, _. split; [apply (get_product_details_unreachable _ _ _ H)|reflexivity].
  - intros _. destruct (error_status r) eqn:E.
    + eexists _, _, _. split; [apply (get_product_details_http_error _ _ _ H E)|reflexivity].
    + eexists _, _, _. split; [apply (get_product_details_fetched _ _ _ H E)|reflexivity].
  - destruct (error_status r) eqn:E; [intros _|discriminate].
    eexists _, _, _.
    split; [apply (get_product_details_http_error_malformed _ _ _ _ H E)|reflexivity].
Qed.

(** An extraction that returns is not one that the parser rejects. *)
Lemma extracts_accepted env u t p : extracts env u t p -> rejection env u = None.
Proof.
  intros H. destruct (rejection env u) as [e|] eqn:R; [|reflexivity].
  specialize (H (fresh {| products := []; subscriptions := [] |})).
  rewrite (get_product_details_fails env u e R) in H. discriminate.
Qed.


Lemma writes_extracts env u t p tr :
  writes (get_product_details env u) (t, p) tr -> extracts env u t p.
Proof. intros H w. now rewrite H. Qed.

Lemma extracts_writes env u t p :
  extracts env u t p ->
  exists tr, writes (get_product_details env u) (t, p) tr /\ forallb is_print tr = true.
Proof.
  intros H.
  destruct (get_product_details_writes env u (extracts_accepted env u t p H))
    as (t' & p' & tr & Hw & Hp).
  exists tr. split; [|exact Hp].
  specialize (H (fresh (Build_DB [] []))). rewrite Hw in H. simpl in H.
  inversion H; subst. exact Hw.
Qed.

(** *** Searching a document *)

Lemma find_absent (matches : Soup.node -> bool) (doc : Soup.soup) :
  (forall n, In n (Soup.descendants doc) -> matches n = false) ->
  Soup.find matches doc = None.
Proof.
  intros H. unfold Soup.find.
  destruct (List.find matches (Soup.descendants doc)) as [n|] eqn:E; [|reflexivity].
  apply find_some in E. destruct E as [Hin Hm]. rewrite (H n Hin) in Hm. discriminate.
Qed.

Lemma has_id_tag (i : string) (n : Soup.node) :
  Soup.has_id i n = true -> exists name cl cs, n = Soup.Tag name (Some i) cl cs.
Proof.
  destruct n as [s|name [j|] cl cs]; simpl; try discriminate.
  intros E. apply String.eqb_eq in E. subst j. now exists name, cl, cs.
Qed.

Lemma has_class_tag (c : string) (n : Soup.node) :
  Soup.has_class c n = true ->
  exists name i cl cs, n = Soup.Tag name i cl cs /\ In c cl.
Proof.
  destruct n as [s|name i cl cs]; simpl; try discriminate.
  intros E. apply existsb_exists in E. destruct E as (x & Hin & Hx).
  apply String.eqb_eq in Hx. subst x. now exists name, i, cl, cs.
Qed.

Lemma find_id_absent (i : string) (doc : Soup.soup) :
  (forall name cl cs, ~ In (Soup.Tag name (Some i) cl cs) (Soup.descendants doc)) ->
  Soup.find (Soup.has_id i) doc = None.
Proof.
  intros H. apply find_absent. intros n Hin.
  destruct (Soup.has_id i n) eqn:E; [|reflexivity].
  apply has_id_tag in E. destruct E as (name & cl & cs & ->).
  now apply H in Hin.
Qed.

Lemma find_class_absent (c : string) (doc : Soup.soup) :
  (forall name i cl cs, In (Soup.Tag name i cl cs) (Soup.descendants doc) -> ~ In c cl) ->
  Soup.find (Soup.has_class c) doc = None.
Proof.
  intros H. apply find_absent. intros n Hin.
  destruct (Soup.has_class c n) eqn:E; [|reflexivity].
  apply has_class_tag in E. destruct E as (name & i & cl & cs & -> & Hc).
  now apply H in Hin.
Qed.

(** *** The title sentinel *)

(** C5, as the code has it: when no tag of the fetched page carries the id
    [productTitle], the extractor returns the sentinel title ["N/A"]. *)
Theorem missing_title_yields_NA env u r :
  web env u = Fetched r ->
  error_status r = false ->
  (forall name cl cs,
      ~ In (Soup.Tag name (Some "productTitle") cl cs) (Soup.descendants (content r))) ->
  exists p, extracts env u "N/A" p.
Proof.
  intros Hweb Hst Habs. exists (price_of (content r)).
  pose proof (get_product_details_fetched env u r Hweb Hst) as Hw.
  unfold title_of in Hw. rewrite (find_id_absent _ _ Habs) in Hw.
  exact (writes_extracts _ _ _ _ _ Hw).
Qed.

Lemma missing_title_yields_NA_witness :
  exists p, extracts (Sample.serving []) "https://shop.example/item" "N/A" p.
Proof.
  apply (missing_title_yields_NA (Sample.serving []) "https://shop.example/item"
           {| status_code := 200; http_error_msg := ""; content := [] |}).
  - reflexivity.
  - reflexivity.
  - simpl. intros name cl cs H. exact H.
Defined.

(** C5 as the spec words it fails: on a page without the title element the
    title returned is not ["unknown title"]. *)
Lemma missing_title_is_not_unknown_title :
  ~ (forall env u r,
        web env u = Fetched r ->
        error_status r = false ->
        (forall name cl cs,
            ~ In (Soup.Tag name (Some "productTitle") cl cs)
                 (Soup.descendants (content r))) ->
        exists p, extracts env u "unknown title" p).
Proof.
  intros H.
  destruct (H (Sample.serving []) "https://shop.example/item"
              {| status_code := 200; http_error_msg := ""; content := [] |}
              eq_refl eq_refl (fun _ _ _ F => F)) as [p Hp].
  specialize (Hp (fresh Sample.empty)). vm_compute in Hp. discriminate Hp.
Qed.

(** *** The price sentinel *)

(** Where the three [try] blocks reach: when the fetch fails, or the parser
    has made a tree of the body and one of the two price elements is
    missing from it or their text does not parse, the extractor returns and
    the price it returns is the sentinel [0.0]. *)
Lemma no_price_yields_zero env u :
  price_unavailable env u ->
  forall w, exists t w', get_product_details env u w = (Ret (t, Py.zero), w').
Proof.
  intros [e He | r Hr Hs | r Hr Hm | r Hr Hm | r tw tf Hr Hw Hf Hp] w.
  - eexists _, _. apply (get_product_details_unreachable env u e He).
  - eexists _, _. apply (get_product_details_http_error env u r Hr Hs).
  - destruct (error_status r) eqn:Hs.
    + eexists _, _. apply (get_product_details_http_error env u r Hr Hs).
    + pose proof (get_product_details_fetched env u r Hr Hs w) as Hrun.
      unfold price_of in Hrun. rewrite (find_class_absent _ _ Hm) in Hrun.
      eexists _, _. exact Hrun.
  - destruct (error_status r) eqn:Hs.
    + eexists _, _. apply (get_product_details_http_error env u r Hr Hs).
    + pose proof (get_product_details_fetched env u r Hr Hs w) as Hrun.
      unfold price_of in Hrun. rewrite (find_class_absent _ _ Hm) in Hrun.
      destruct (Soup.find (Soup.has_class "a-price-whole") (content r));
        eexists _, _; exact Hrun.
  - destruct (error_status r) eqn:Hs.
    + eexists _, _. apply (get_product_details_http_error env u r Hr Hs).
    + pose proof (get_product_details_fetched env u r Hr Hs w) as Hrun.
      unfold price_of in Hrun. rewrite Hw, Hf, Hp in Hrun.
      eexists _, _. exact Hrun.
Qed.

Lemma no_price_yields_zero_witness :
  exists t w',
    get_product_details
      (Sample.serving [Soup.Tag "span" None ["a-price-whole"] [Soup.NavigableString "45"]])
      "https://shop.example/item" (fresh Sample.empty)
    = (Ret (t, Py.zero), w').
Proof.
  apply (no_price_yields_zero
           (Sample.serving [Soup.Tag "span" None ["a-price-whole"] [Soup.NavigableString "45"]])
           "https://shop.example/item").
  apply (fraction_part_missing _ _
           {| status_code := 200; http_error_msg := "";
              content := [Soup.Tag "span" None ["a-price-whole"] [Soup.NavigableString "45"]] |}).
  - reflexivity.
  - simpl. intros name i cl cs [H|[H|H]].
    + inversion H; subst. simpl. intros [F|F]; [discriminate F|exact F].
    + discriminate H.
    + destruct H.
Defined.

(** C6 fails where the parser rejects the body of the response: the call of
    [BeautifulSoup] stands between the [try] blocks, so its
    [ParserRejectedMarkup] leaves the extractor instead of a sentinel being
    returned, and it leaves the two callers as well: the sweep stops at
    that product and the track request ends without an answer. *)
Theorem rejected_markup_is_raised :
  (forall w,
      get_product_details Sample.rejecting "https://shop.example/lamp" w =
      (Raise (ParserRejectedMarkup "The markup you provided was rejected by the parser."),
       extend w [Print "Checking URL: https://shop.example/lamp..."])) /\
  Soup.find (Soup.has_class "a-price-whole") [] = None /\
  fst (job Sample.rejecting Sample.shop) =
    Raise (ParserRejectedMarkup "The markup you provided was rejected by the parser.") /\
  fst (POST_track Sample.rejecting
                  (request "https://shop.example/desk" "ann@example.org") Sample.shop) =
    Raise (ParserRejectedMarkup "The markup you provided was rejected by the parser.").
Proof.
  split; [|repeat split].
  intros w.
  apply (get_product_details_rejected Sample.rejecting "https://shop.example/lamp"
           {| status_code := 200; http_error_msg := ""; content := [] |});
    reflexivity.
Qed.

(** A price text that does not parse: ["45"] and ["9o"]. *)
Example unparsable_price_is_zero :
  extracts (Sample.serving (Sample.page "Lamp" "45" "9o"))
           "https://shop.example/item" "Lamp" Py.zero.
Proof. intros w. reflexivity. Qed.

(** An error status hides whatever the page holds. *)
Example not_found_is_zero :
  extracts {| web := fun _ => Fetched {| status_code := 404;
                                         http_error_msg := "404 Client Error";
                                         content := Sample.page "Lamp" "45" "00" |};
              SENDER_EMAIL := None; SENDER_PASSWORD := None;
              smtp := fun _ _ => None; commit_error := fun _ => None |}
           "https://shop.example/item" "N/A" Py.zero.
Proof. intros w. reflexivity. Qed.

(** *** Separators in the whole part *)

Lemma remove_char_absent (c : ascii) (s : string) :
  ~ In c (list_ascii_of_string (Py.remove_char c s)).
Proof.
  induction s as [|d s IH]; simpl; [tauto|].
  destruct (Ascii.eqb c d) eqn:E; [exact IH|].
  simpl. intros [H|H]; [|exact (IH H)].
  subst d. rewrite Ascii.eqb_refl in E. discriminate.
Qed.

Lemma remove_char_subset (c d : ascii) (s : string) :
  In d (list_ascii_of_string (Py.remove_char c s)) -> In d (list_ascii_of_string s).
Proof.
  induction s as [|x s IH]; simpl; [tauto|].
  destruct (Ascii.eqb c x); simpl; tauto.
Qed.

(** C10: with both price elements on the page, the text handed to [float]
    is the whole part without any ['.'] or [','], a point, and the
    fraction part as it stands; the price returned is that text parsed, or
    [0.0] when it does not parse. *)
Theorem whole_part_loses_separators env u r tw tf :
  web env u = Fetched r ->
  error_status r = false ->
  Soup.find (Soup.has_class "a-price-whole") (content r) = Some tw ->
  Soup.find (Soup.has_class "a-price-fraction") (content r) = Some tf ->
  let whole := Py.remove_char "," (Py.remove_char "." (Soup.get_text tw)) in
  (forall c, In c (list_ascii_of_string whole) -> c <> "."%char /\ c <> ","%char) /\
  exists t,
    extracts env u t
      match Py.float_of_string (whole ++ "." ++ Soup.get_text tf) with
      | Some x => x
      | None => Py.zero
      end.
Proof.
  intros Hweb Hst Hw Hf whole. split.
  - intros c Hc. split; intros ->.
    + apply remove_char_subset in Hc. exact (remove_char_absent _ _ Hc).
    + exact (remove_char_absent _ _ Hc).
  - exists (title_of (content r)).
    pose proof (get_product_details_fetched env u r Hweb Hst) as Hrun.
    unfold price_of in Hrun. rewrite Hw, Hf in Hrun.
    exact (writes_extracts _ _ _ _ _ Hrun).
Qed.

(** The whole part ["1.234"] with the fraction ["56"] is read as 1234.56,
    the binary64 number nearest to 123456e-2. *)
Lemma whole_part_loses_separators_witness :
  exists t,
    extracts (Sample.serving (Sample.page "Lamp" "1.234" "56"))
             "https://shop.example/item" t (Py.of_decimal false 123456 (-2)).
Proof.
  exact (proj2
    (whole_part_loses_separators
       (Sample.serving (Sample.page "Lamp" "1.234" "56")) "https://shop.example/item"
       {| status_code := 200; http_error_msg := "";
          content := Sample.page "Lamp" "1.234" "56" |}
       (Soup.Tag "span" None ["a-price-whole"]
          [Soup.NavigableString "1.234";
           Soup.Tag "span" None ["a-price-decimal"] [Soup.NavigableString ","]])
       (Soup.Tag "span" None ["a-price-fraction"] [Soup.NavigableString "56"])
       eq_refl eq_refl eq_refl eq_refl)).
Defined.

Example price_1234_56_is_not_the_sentinel :
  Py.of_decimal false 123456 (-2) = S754_finite false 5429652300748554 (-42) /\
  Py.eq (Py.of_decimal false 123456 (-2)) Py.zero = false.
Proof. split; reflexivity. Qed.

(** The fraction part keeps its separators: ["5,6"] makes the text
    ["1234.5,6"], which does not parse. *)
Example fraction_part_keeps_separators :
  extracts (Sample.serving (Sample.page "Lamp" "1.234" "5,6"))
           "https://shop.example/item" "Lamp" Py.zero.
Proof. intros w. reflexivity. Qed.

(** ** The notifier *)

Section Notifier.
Variable env : Env.
Variable receiver : string.
Variable product : Product.t.
Variable new_price : Py.float.

Lemma notifier_without_credentials :
  credentials_set env = false ->
  writes (send_notification_email env receiver product new_price) tt
         [Notify receiver product new_price;
          Print "Sender email credentials are not set."].
Proof.
  unfold credentials_set. intros H w. unfold send_notification_email, bind.
  step_run. rewrite H. finish_run.
Qed.

Lemma notifier_delivers :
  credentials_set env = true ->
  relay_answer env receiver product new_price = None ->
  writes (send_notification_email env receiver product new_price) tt
         [Notify receiver product new_price;
          Print ("Attempting to send email to " ++ receiver ++ "...");
          Sent (message env receiver product new_price);
          Print ("Email successfully sent to " ++ receiver ++ "!")].
Proof.
  unfold credentials_set, relay_answer. intros H R w.
  unfold send_notification_email, bind, try_except, SMTP_SSL_send.
  step_run. rewrite H. step_run. rewrite R. finish_run.
Qed.

Lemma notifier_catches e :
  credentials_set env = true ->
  relay_answer env receiver product new_price = Some e ->
  writes (send_notification_email env receiver product new_price) tt
         [Notify receiver product new_price;
          Print ("Attempting to send email to " ++ receiver ++ "...");
          Print ("An error occurred while sending email: " ++ e)].
Proof.
  unfold credentials_set, relay_answer. intros H R w.
  unfold send_notification_email, bind, try_except, SMTP_SSL_send.
  step_run. rewrite H. step_run. rewrite R. finish_run.
Qed.

(** One call of the notifier: it returns, the trace shows the call, the
    mail if it went through, and nothing but notifier events. *)
Lemma notifier_writes :
  exists tr,
    writes (send_notification_email env receiver product new_price) tt tr /\
    notified tr = [(receiver, product, new_price)] /\
    sent tr = (if deliverable env product new_price receiver
               then [message env receiver product new_price] else []) /\
    forallb notifier_event tr = true /\
    (forall pid, Product.id product <> pid -> silent pid tr).
Proof.
  unfold deliverable.
  assert (Hs : forall pid, Product.id product <> pid -> (Product.id product =? pid) = false)
    by (intros pid; apply Z.eqb_neq).
  destruct (credentials_set env) eqn:C;
    [destruct (relay_answer env receiver product new_price) as [e|] eqn:R|].
  - eexists. split; [exact (notifier_catches e C R)|].
    repeat split; try reflexivity.
    intros pid Hp. unfold silent. simpl. now rewrite (Hs pid Hp).
  - eexists. split; [exact (notifier_delivers C R)|].
    repeat split; try reflexivity.
    intros pid Hp. unfold silent. simpl. now rewrite (Hs pid Hp).
  - eexists. split; [exact (notifier_without_credentials C)|].
    repeat split; try reflexivity.
    intros pid Hp. unfold silent. simpl. now rewrite (Hs pid Hp).
Qed.

End Notifier.

(** ** Traces *)

Lemma silent_app pid (a b : list event) :
  silent pid a -> silent pid b -> silent pid (a ++ b).
Proof. unfold silent. intros Ha Hb. rewrite forallb_app, Ha, Hb. reflexivity. Qed.

Lemma silent_nil pid : silent pid [].
Proof. reflexivity. Qed.

Lemma prints_silent pid (tr : list event) :
  forallb is_print tr = true -> silent pid tr.
Proof.
  unfold silent. induction tr as [|e tr IH]; simpl; [reflexivity|].
  intros H. apply andb_true_iff in H. destruct H as [He Ht].
  rewrite (IH Ht). destruct e; try discriminate He. reflexivity.
Qed.

Lemma notified_app (a b : list event) : notified (a ++ b) = (notified a ++ notified b)%list.
Proof. apply flat_map_app. Qed.

Lemma sent_app (a b : list event) : sent (a ++ b) = (sent a ++ sent b)%list.
Proof. apply flat_map_app. Qed.

(** ** Running the monad *)

Lemma bind_writes {A B} (c : M A) (k : A -> M B) a tr w :
  writes c a tr -> bind c k w = k a (extend w tr).
Proof. intros H. unfold bind. now rewrite H. Qed.

Lemma bind_query {A B} (q : DB -> A) (k : A -> M B) w :
  bind (query q) k w = k (q (session w)) w.
Proof. reflexivity. Qed.

Lemma bind_returns {A B} (c : M A) (k : A -> M B) a w w' :
  c w = (Ret a, w') -> bind c k w = k a w'.
Proof. intros H. unfold bind. now rewrite H. Qed.

Lemma set_price_run pid p w :
  set_price pid p w =
  (Ret tt, {| store := store w; session := repriced pid p (session w);
              trace := trace w ++ [SetPrice pid p] |}).
Proof. reflexivity. Qed.

(** ** The sweep *)

Section Sweep.
Variable env : Env.

(** The notifications of one price drop: every subscriber is called, in
    order, whatever becomes of the mails to the others. *)
Lemma notify_all_writes (product : Product.t) (p : Py.float)
      (subs : list Subscription.t) :
  exists tr,
    writes (for_each subs (fun sub =>
              send_notification_email env (Subscription.user_email sub) product p))
           tt tr /\
    notified tr = map (fun s => (Subscription.user_email s, product, p)) subs /\
    sent tr = map (fun s => message env (Subscription.user_email s) product p)
                  (filter (fun s => deliverable env product p (Subscription.user_email s))
                          subs) /\
    forallb notifier_event tr = true /\
    (forall pid, Product.id product <> pid -> silent pid tr).
Proof.
  induction subs as [|s subs (tr & Hw & Hn & Hs & He & Hq)].
  - exists []. repeat split; try reflexivity. apply writes_ret.
  - destruct (notifier_writes env (Subscription.user_email s) product p)
      as (t1 & Hw1 & Hn1 & Hs1 & He1 & Hq1).
    exists (t1 ++ tr)%list. repeat split.
    + simpl. apply (writes_bind _ _ tt tt); assumption.
    + rewrite notified_app, Hn1, Hn. reflexivity.
    + rewrite sent_app, Hs1, Hs. simpl.
      destruct (deliverable env product p (Subscription.user_email s)); reflexivity.
    + rewrite forallb_app, He1, He. reflexivity.
    + intros pid Hp. apply silent_app; auto.
Qed.

(** A product whose price did not drop: the loop body only prints. *)
Lemma check_product_no_drop product t p :
  extracts env (Product.url product) t p ->
  price_drop p product = false ->
  exists tr, writes (check_product env product) tt tr /\ forallb is_print tr = true.
Proof.
  intros Hx Hd. destruct (extracts_writes _ _ _ _ Hx) as (tr & Hw & Hp).
  exists ([Print ("Checking: " ++ Py.prefix 30 (Product.title product) ++ "...")]
          ++ tr ++ [Print "No price change detected."])%list.
  split.
  - unfold check_product.
    apply (writes_bind _ _ tt tt); [apply writes_print|].
    apply (writes_bind _ _ (t, p) tt); [exact Hw|].
    cbn [snd]. rewrite Hd. apply writes_print.
  - simpl. rewrite forallb_app, Hp. reflexivity.
Qed.

(** A product whose price dropped: print, notify every subscriber, set the
    price, commit. *)
Lemma check_product_drop product t p :
  extracts env (Product.url product) t p ->
  price_drop p product = true ->
  forall w, exists pre mid,
    check_product env product w =
      (let rows := repriced (Product.id product) p (session w) in
       match commit_error env rows with
       | None =>
           (Ret tt,
            {| store := rows; session := rows;
               trace := trace w ++ pre ++ mid
                        ++ [SetPrice (Product.id product) p; Commit true;
                            Print "Database updated."] |})
       | Some e =>
           (Raise (SQLAlchemyError e),
            {| store := store w; session := rows;
               trace := trace w ++ pre ++ mid
                        ++ [SetPrice (Product.id product) p; Commit false] |})
       end) /\
    (forall pid, silent pid pre) /\
    notified mid = map (fun s => (Subscription.user_email s, product, p))
                       (subscriptions_of (session w) product) /\
    sent mid = map (fun s => message env (Subscription.user_email s) product p)
                   (filter (fun s => deliverable env product p (Subscription.user_email s))
                           (subscriptions_of (session w) product)) /\
    forallb notifier_event mid = true /\
    (forall pid, Product.id product <> pid -> silent pid mid).
Proof.
  intros Hx Hd w. destruct (extracts_writes _ _ _ _ Hx) as (tr & Hw & Hp).
  destruct (notify_all_writes product p (subscriptions_of (session w) product))
    as (mid & Hm & Hn & Hs & He & Hq).
  exists ([Print ("Checking: " ++ Py.prefix 30 (Product.title product) ++ "...")]
          ++ tr
          ++ [Print ("PRICE DROP DETECTED! " ++ Py.prefix 30 (Product.title product));
              PrintPrices (Product.price product) p])%list, mid.
  split; [|repeat split; try assumption].
  - unfold check_product.
    rewrite (bind_writes _ _ _ _ _ (writes_print _)).
    rewrite (bind_writes _ _ _ _ _ Hw). cbn [snd]. rewrite Hd.
    rewrite (bind_writes _ _ _ _ _ (writes_print _)).
    rewrite (bind_writes _ _ _ _ _ (writes_emit _)).
    unfold Product_subscriptions. rewrite bind_query.
    rewrite !extend_extend. cbn [session extend].
    rewrite (bind_writes _ _ _ _ _ Hm). rewrite !extend_extend.
    rewrite (bind_returns _ _ _ _ _ (set_price_run _ _ _)).
    unfold bind, commit. cbn [session store trace extend].
    destruct (commit_error env (repriced (Product.id product) p (session w))).
    + unfold extend. cbn [session store trace].
      repeat rewrite <- app_assoc. reflexivity.
    + unfold print, emit, extend. cbn [session store trace].
      repeat rewrite <- app_assoc. reflexivity.
  - intros pid. unfold silent. rewrite !forallb_app.
    pose proof (prints_silent pid tr Hp) as Ht. unfold silent in Ht. rewrite Ht.
    reflexivity.
Qed.

End Sweep.

(** *** What the sweep leaves alone *)

Lemma frame_refl pid w : frame pid w w.
Proof.
  repeat split; auto. exists []. split; [now rewrite app_nil_r|apply silent_nil].
Qed.

Lemma frame_trans pid w1 w2 w3 : frame pid w1 w2 -> frame pid w2 w3 -> frame pid w1 w3.
Proof.
  intros ((t1 & E1 & S1) & A1 & B1 & K1 & L1) ((t2 & E2 & S2) & A2 & B2 & K2 & L2).
  repeat split.
  - exists (t1 ++ t2)%list. split; [now rewrite E2, E1, app_assoc|now apply silent_app].
  - intros R HR Hs. now apply A2, A1.
  - intros R HR Hst Hs. apply B2; [assumption|now apply B1|now apply A1].
  - congruence.
  - intros H. specialize (L1 H). rewrite <- L1. apply L2. congruence.
Qed.

Lemma frame_extend pid w tr : silent pid tr -> frame pid w (extend w tr).
Proof. intros H. repeat split; auto. now exists tr. Qed.

Lemma extracts_fun env u t p t' p' :
  extracts env u t p -> extracts env u t' p' -> t = t' /\ p = p'.
Proof.
  intros H H'. specialize (H (fresh (Build_DB [] []))). rewrite H' in H.
  inversion H. split; reflexivity.
Qed.

Lemma extracts_total env u :
  rejection env u = None -> exists t p, extracts env u t p.
Proof.
  intros R. destruct (get_product_details_writes env u R) as (t & p & tr & Hw & _).
  exists t, p. exact (writes_extracts _ _ _ _ _ Hw).
Qed.

(** The two ways of an extraction: it returns a pair, or the parser's
    exception leaves it. *)
Lemma extraction_cases env u :
  (exists t p, extracts env u t p) \/ (exists e, rejection env u = Some e).
Proof.
  destruct (rejection env u) as [e|] eqn:R; [right; now exists e|left].
  now apply extracts_total.
Qed.

(** A product whose page the parser rejects: the exception leaves the loop
    body after two printed lines. *)
Lemma check_product_rejected env product e :
  rejection env (Product.url product) = Some e ->
  fails (check_product env product) (ParserRejectedMarkup e)
        [Print ("Checking: " ++ Py.prefix 30 (Product.title product) ++ "...");
         Print ("Checking URL: " ++ Py.prefix 50 (Product.url product) ++ "...")].
Proof.
  intros R w. unfold check_product.
  rewrite (bind_writes _ _ _ _ _ (writes_print _)).
  unfold bind. rewrite (get_product_details_fails env _ e R).
  now rewrite extend_extend.
Qed.

Lemma keys_and_subs_eq d d' :
  keys_and_subs d = keys_and_subs d' ->
  map Product.id (products d) = map Product.id (products d') /\
  map Product.url (products d) = map Product.url (products d') /\
  subscriptions d = subscriptions d'.
Proof.
  unfold keys_and_subs. intros H. inversion H as [[Hk Hs]]. repeat split.
  - apply (f_equal (map fst)) in Hk. now rewrite !map_map in Hk.
  - apply (f_equal (map snd)) in Hk. now rewrite !map_map in Hk.
Qed.

Lemma repriced_keys pid p d : keys_and_subs (repriced pid p d) = keys_and_subs d.
Proof.
  unfold keys_and_subs, repriced. cbn [products subscriptions]. f_equal.
  rewrite map_map. apply map_ext. intros q.
  destruct (Product.id q =? pid); reflexivity.
Qed.

Lemma repriced_other pid p d R :
  Product.id R <> pid -> In R (products d) -> In R (products (repriced pid p d)).
Proof.
  intros Hne Hin. unfold repriced. cbn [products]. apply in_map_iff.
  exists R. split; [|exact Hin].
  apply Z.eqb_neq in Hne. now rewrite Hne.
Qed.

Lemma repriced_self p d P :
  In P (products d) -> In (with_price P p) (products (repriced (Product.id P) p d)).
Proof.
  intros Hin. unfold repriced. cbn [products]. apply in_map_iff.
  exists P. split; [|exact Hin]. now rewrite Z.eqb_refl.
Qed.

Section SweepFrame.
Variable env : Env.

Lemma check_product_frame pid product w r w' :
  leaves_alone env pid product ->
  check_product env product w = (r, w') ->
  frame pid w w'.
Proof.
  intros Hl Hrun.
  destruct (extraction_cases env (Product.url product)) as [(t & p & Hx)|(x & R)];
    [|rewrite (check_product_rejected env product x R) in Hrun;
      inversion Hrun; subst; apply frame_extend; reflexivity].
  destruct (price_drop p product) eqn:Hd.
  - assert (Hne : Product.id product <> pid).
    { destruct Hl as [Hne|(t' & p' & Hx' & Hd')]; [exact Hne|].
      destruct (extracts_fun _ _ _ _ _ _ Hx Hx') as [_ ->]. congruence. }
    destruct (check_product_drop env product t p Hx Hd w)
      as (pre & mid & Hrun' & Hpre & _ & _ & _ & Hmid).
    rewrite Hrun' in Hrun. cbv zeta in Hrun.
    assert (Hsil : forall b rest,
               silent pid (pre ++ mid ++ SetPrice (Product.id product) p :: Commit b :: rest)
               <-> silent pid rest).
    { intros b rest. unfold silent. rewrite !forallb_app.
      pose proof (Hpre pid) as H1. pose proof (Hmid pid Hne) as H2.
      unfold silent in H1, H2. rewrite H1, H2. cbn [forallb about negb andb].
      apply Z.eqb_neq in Hne. rewrite Hne. cbn [negb andb]. reflexivity. }
    destruct (commit_error env (repriced (Product.id product) p (session w)));
      inversion Hrun; subst; clear Hrun; unfold frame; cbn [store session trace].
    + split; [|split; [|split; [|split]]].
      * eexists. split; [reflexivity|]. apply Hsil. reflexivity.
      * intros R HR Hin. apply repriced_other; congruence.
      * auto.
      * apply repriced_keys.
      * auto.
    + split; [|split; [|split; [|split]]].
      * eexists. split; [reflexivity|]. apply Hsil. reflexivity.
      * intros R HR Hin. apply repriced_other; congruence.
      * intros R HR _ Hin. apply repriced_other; congruence.
      * apply repriced_keys.
      * intros H. rewrite repriced_keys. now symmetry.
  - destruct (check_product_no_drop env product t p Hx Hd) as (tr & Hw & Hp).
    rewrite Hw in Hrun. inversion Hrun; subst.
    apply frame_extend, prints_silent, Hp.
Qed.

Lemma loop_frame pid (ps : list Product.t) :
  (forall Q, In Q ps -> leaves_alone env pid Q) ->
  forall w r w', for_each ps (check_product env) w = (r, w') -> frame pid w w'.
Proof.
  induction ps as [|Q ps IH]; intros Hall w r w' Hrun.
  - inversion Hrun; subst. apply frame_refl.
  - cbn [for_each] in Hrun. unfold bind in Hrun.
    destruct (check_product env Q w) as [[[]|e] w1] eqn:Hq.
    + apply (frame_trans _ _ w1).
      * apply (check_product_frame _ _ _ _ _ (Hall Q (or_introl eq_refl)) Hq).
      * apply (IH (fun Q' H => Hall Q' (or_intror H)) _ _ _ Hrun).
    + inversion Hrun; subst.
      apply (check_product_frame _ _ _ _ _ (Hall Q (or_introl eq_refl)) Hq).
Qed.

(** With a storage layer that accepts every commit and pages that the
    parser accepts the loop runs to its end. *)
Lemma check_product_returns product w :
  (forall rows, commit_error env rows = None) ->
  rejection env (Product.url product) = None ->
  exists w', check_product env product w = (Ret tt, w').
Proof.
  intros Hc R.
  destruct (extracts_total env (Product.url product) R) as (t & p & Hx).
  destruct (price_drop p product) eqn:Hd.
  - destruct (check_product_drop env product t p Hx Hd w) as (pre & mid & Hrun & _).
    rewrite Hrun. cbv zeta. rewrite Hc. eexists. reflexivity.
  - destruct (check_product_no_drop env product t p Hx Hd) as (tr & Hw & _).
    rewrite Hw. eexists. reflexivity.
Qed.

Lemma loop_returns (ps : list Product.t) :
  (forall rows, commit_error env rows = None) ->
  (forall Q, In Q ps -> rejection env (Product.url Q) = None) ->
  forall w, exists w', for_each ps (check_product env) w = (Ret tt, w').
Proof.
  intros Hc. induction ps as [|Q ps IH]; intros HR w.
  - eexists. reflexivity.
  - destruct (check_product_returns Q w Hc (HR Q (or_introl eq_refl))) as [w1 H1].
    destruct (IH (fun Q' H => HR Q' (or_intror H)) w1) as [w2 H2]. exists w2.
    cbn [for_each]. now rewrite (bind_returns _ _ _ _ _ H1).
Qed.

End SweepFrame.

(** *** The whole sweep *)

Lemma NoDup_map_eq {A B} (f : A -> B) (l : list A) x y :
  NoDup (map f l) -> In x l -> In y l -> f x = f y -> x = y.
Proof.
  induction l as [|a l IH]; simpl; [tauto|].
  intros Hnd Hx Hy E. inversion Hnd as [|? ? Hna Hl]; subst.
  destruct Hx as [->|Hx], Hy as [->|Hy]; auto.
  - exfalso. apply Hna. rewrite E. now apply in_map.
  - exfalso. apply Hna. rewrite <- E. now apply in_map.
Qed.

Lemma subscriptions_of_keys d d' product :
  keys_and_subs d = keys_and_subs d' ->
  subscriptions_of d product = subscriptions_of d' product.
Proof.
  unfold keys_and_subs, subscriptions_of. intros H. inversion H. congruence.
Qed.

Lemma job_run env d :
  products d <> [] ->
  job env d =
  match for_each (products d) (check_product env)
                 (extend (fresh d) [Print "Hourly price check started."]) with
  | (Ret _, w) => (Ret tt, extend w [Print "Price check completed."])
  | (Raise e, w) => (Raise e, w)
  end.
Proof.
  intros Hne. unfold job, check_prices.
  rewrite (bind_writes _ _ _ _ _ (writes_print _)).
  unfold Product_query_all. rewrite bind_query. cbn [session extend fresh].
  destruct (products d) as [|P ps] eqn:E; [congruence|].
  unfold bind at 1.
  destruct (for_each (P :: ps) (check_product env) _) as [[[]|e] w]; reflexivity.
Qed.

Section SweepClaims.
Variable env : Env.
Variable d : DB.
Variable P : Product.t.
Variables (t : string) (p : Py.float).
Hypothesis keys : NoDup (map Product.id (products d)).
Hypothesis stored : In P (products d).
Hypothesis extracted : extracts env (Product.url P) t p.

Lemma others_leave_alone (ps : list Product.t) :
  ~ In (Product.id P) (map Product.id ps) ->
  forall Q, In Q ps -> leaves_alone env (Product.id P) Q.
Proof.
  intros Hn Q HQ. left. intros E. apply Hn. rewrite <- E. now apply in_map.
Qed.

Lemma sweep_frame r w' :
  price_drop p P = false ->
  job env d = (r, w') ->
  frame (Product.id P) (fresh d) w'.
Proof.
  intros Hd Hjob.
  assert (Hne : products d <> []) by (intros E; rewrite E in stored; exact stored).
  rewrite (job_run env d Hne) in Hjob.
  destruct (for_each (products d) (check_product env) _) as [[[]|e] w1] eqn:Hloop.
  - inversion Hjob; subst.
    apply (frame_trans _ _ w1); [|now apply frame_extend].
    apply (frame_trans _ _ (extend (fresh d) [Print "Hourly price check started."]));
      [now apply frame_extend|].
    apply (loop_frame env _ (products d)) with (r := Ret tt); [|exact Hloop].
    intros Q HQ. destruct (Z.eq_dec (Product.id Q) (Product.id P)) as [E|E].
    + right. rewrite (NoDup_map_eq _ _ _ _ keys HQ stored E). now exists t, p.
    + now left.
  - inversion Hjob; subst.
    apply (frame_trans _ _ (extend (fresh d) [Print "Hourly price check started."]));
      [now apply frame_extend|].
    apply (loop_frame env _ (products d)) with (r := Raise e); [|exact Hloop].
    intros Q HQ. destruct (Z.eq_dec (Product.id Q) (Product.id P)) as [E|E].
    + right. rewrite (NoDup_map_eq _ _ _ _ keys HQ stored E). now exists t, p.
    + now left.
Qed.

Lemma loop_drop :
  price_drop p P = true ->
  (forall rows, commit_error env rows = None) ->
  forall ps, NoDup (map Product.id ps) -> In P ps ->
  (forall Q, In Q ps -> rejection env (Product.url Q) = None) ->
  forall w, In P (products (session w)) ->
  exists w' pre mid post,
    for_each ps (check_product env) w = (Ret tt, w') /\
    trace w' = (trace w ++ pre ++ mid
                ++ SetPrice (Product.id P) p :: Commit true :: post)%list /\
    silent (Product.id P) pre /\ silent (Product.id P) post /\
    notified mid = map (fun s => (Subscription.user_email s, P, p))
                       (subscriptions_of (session w) P) /\
    sent mid = map (fun s => message env (Subscription.user_email s) P p)
                   (filter (fun s => deliverable env P p (Subscription.user_email s))
                           (subscriptions_of (session w) P)) /\
    forallb notifier_event mid = true /\
    In (with_price P p) (products (store w')) /\
    keys_and_subs (store w') = keys_and_subs (session w).
Proof.
  intros Hd Hc. induction ps as [|Q ps IH]; intros Hnd Hin HR w Hw; [destruct Hin|].
  inversion Hnd as [|? ? Hq Hps]; subst.
  pose proof (fun Q' H => HR Q' (or_intror H)) as HR'.
  cbn [for_each].
  destruct Hin as [->|Hin].
  - destruct (check_product_drop env P t p extracted Hd w)
      as (pre & mid & Hrun & Hpre & Hn & Hs & He & _).
    cbv zeta in Hrun. rewrite Hc in Hrun.
    rewrite (bind_returns _ _ _ _ _ Hrun).
    match type of Hrun with _ = (_, ?w1') => set (w1 := w1') in * end.
    destruct (loop_returns env ps Hc HR' w1) as [w' Hloop].
    destruct (loop_frame env (Product.id P) ps (others_leave_alone ps Hq) _ _ _ Hloop)
      as ((tr & Etr & Str) & _ & Hst & Hk & Hks).
    exists w', pre, mid, (Print "Database updated." :: tr).
    repeat split; try assumption.
    + rewrite Etr. subst w1. cbn [trace].
      repeat rewrite <- app_assoc. reflexivity.
    + apply Hpre.
    + apply Hst; subst w1; cbn [store session]; try reflexivity;
        now apply repriced_self.
    + rewrite Hks; subst w1; cbn [store session]; [apply repriced_keys|reflexivity].
  - assert (Hne : Product.id Q <> Product.id P).
    { intros E. apply Hq. rewrite E. now apply in_map. }
    destruct (check_product_returns env Q w Hc (HR Q (or_introl eq_refl))) as [w1 Hrun].
    rewrite (bind_returns _ _ _ _ _ Hrun).
    destruct (check_product_frame env (Product.id P) Q _ _ _ (or_introl Hne) Hrun)
      as ((tr & Etr & Str) & Hse & _ & Hk & _).
    destruct (IH Hps Hin HR' w1 (Hse P eq_refl Hw))
      as (w' & pre & mid & post & Hloop & Et & Spre & Spost & Hn & Hs & He & Hst & Hks).
    exists w', (tr ++ pre)%list, mid, post.
    rewrite (subscriptions_of_keys _ _ P Hk) in Hn, Hs.
    repeat split; try assumption.
    + rewrite Et, Etr. repeat rewrite <- app_assoc. reflexivity.
    + now apply silent_app.
    + congruence.
Qed.

End SweepClaims.

(** C1: in a sweep over rows with distinct keys, with a storage layer that
    accepts the commits and pages that the parser accepts, a product whose
    page yields a price [p] with [0 < p < product.price] has the notifier
    called once per subscription row whose foreign key is the product's
    key, in their order, with the subscriber's address, the product and
    [p]; every mail that goes out is to such a subscriber, from the
    configured sender, about this product and this price.  The price is set
    and committed after the last of these calls; the row with the product's
    key is then stored with the price [p] and is otherwise as before, and
    the keys, the addresses and the subscriptions are as before.  Nothing
    else in the sweep concerns that product. *)
Theorem sweep_notifies_then_persists env d P t p :
  NoDup (map Product.id (products d)) ->
  (forall rows, commit_error env rows = None) ->
  (forall Q, In Q (products d) -> rejection env (Product.url Q) = None) ->
  In P (products d) ->
  extracts env (Product.url P) t p ->
  Py.lt Py.zero p = true ->
  Py.lt p (Product.price P) = true ->
  let subscribers :=
    filter (fun s => Subscription.product_id s =? Product.id P) (subscriptions d) in
  let reached :=
    filter (fun s => deliverable env P p (Subscription.user_email s)) subscribers in
  exists w' pre mid post,
    job env d = (Ret tt, w') /\
    trace w' = (pre ++ mid ++ SetPrice (Product.id P) p :: Commit true :: post)%list /\
    silent (Product.id P) pre /\ silent (Product.id P) post /\
    notified mid = map (fun s => (Subscription.user_email s, P, p)) subscribers /\
    sent mid = map (fun s => message env (Subscription.user_email s) P p) reached /\
    map mail_to (sent mid) = map Subscription.user_email reached /\
    Forall (fun m =>
              mail_from m = value (SENDER_EMAIL env) /\
              mail_subject m = "Subject: Price Drop Alert: "
                               ++ Py.prefix 30 (Product.title P) ++ "..." /\
              mail_product m = P /\ mail_new_price m = p) (sent mid) /\
    forallb notifier_event mid = true /\
    (exists Q, In Q (products (store w')) /\ Product.id Q = Product.id P) /\
    (forall Q, In Q (products (store w')) -> Product.id Q = Product.id P ->
               Product.url Q = Product.url P /\ Product.title Q = Product.title P /\
               Product.price Q = p) /\
    map (fun q => (Product.id q, Product.url q)) (products (store w')) =
      map (fun q => (Product.id q, Product.url q)) (products d) /\
    subscriptions (store w') = subscriptions d.
Proof.
  intros Hnd Hc HR Hin Hx H0 H1 subscribers reached.
  assert (Hd : price_drop p P = true) by (unfold price_drop; now rewrite H0, H1).
  assert (Hne : products d <> []) by (intros E; rewrite E in Hin; exact Hin).
  destruct (loop_drop env P t p Hx Hd Hc (products d) Hnd Hin HR
              (extend (fresh d) [Print "Hourly price check started."]) Hin)
    as (w1 & pre & mid & post & Hloop & Et & Spre & Spost & Hn & Hs & He & Hst & Hk).
  cbn [session extend fresh] in Hn, Hs, Hk.
  change (subscriptions_of d P) with subscribers in Hn, Hs. fold reached in Hs.
  assert (Hkeys : map (fun q => (Product.id q, Product.url q)) (products (store w1)) =
                  map (fun q => (Product.id q, Product.url q)) (products d) /\
                  subscriptions (store w1) = subscriptions d).
  { unfold keys_and_subs in Hk. inversion Hk. split; reflexivity. }
  destruct Hkeys as [Hkeys Hsubs].
  assert (Hnd1 : NoDup (map Product.id (products (store w1)))).
  { destruct (keys_and_subs_eq _ _ Hk) as (Hids & _). now rewrite Hids. }
  exists (extend w1 [Print "Price check completed."]),
         (Print "Hourly price check started." :: pre), mid,
         (post ++ [Print "Price check completed."])%list.
  rewrite (job_run env d Hne), Hloop. cbn [store extend].
  split; [reflexivity|]. split.
  { cbn [trace extend]. rewrite Et. cbn [trace extend fresh].
    repeat rewrite <- app_assoc. reflexivity. }
  split; [exact Spre|]. split; [apply silent_app; [assumption|reflexivity]|].
  split; [exact Hn|]. split; [exact Hs|]. split.
  { rewrite Hs, map_map. apply map_ext. reflexivity. }
  split.
  { rewrite Hs. apply Forall_forall. intros m Hm. apply in_map_iff in Hm.
    destruct Hm as (s & <- & _). repeat split; reflexivity. }
  split; [exact He|]. split.
  { exists (with_price P p). split; [exact Hst|reflexivity]. }
  split; [|split; assumption].
  intros Q HQ HidQ.
  assert (HQP : Q = with_price P p)
    by (apply (NoDup_map_eq Product.id _ _ _ Hnd1 HQ Hst); exact HidQ).
  subst Q. repeat split; reflexivity.
Qed.

(** The example of the specification: 50.00 stored, 45.00 on the page, two
    subscribers. *)
Lemma sweep_notifies_then_persists_witness :
  let env := Sample.serving (Sample.page "Lamp" "45" "00") in
  let p := Py.of_decimal false 4500 (-2) in
  exists w' pre mid post,
    job env Sample.shop = (Ret tt, w') /\
    trace w' = (pre ++ mid ++ SetPrice 1 p :: Commit true :: post)%list /\
    silent 1 pre /\ silent 1 post /\
    notified mid = [("ann@example.org", Sample.lamp, p);
                    ("bob@example.org", Sample.lamp, p)] /\
    sent mid = [message env "ann@example.org" Sample.lamp p;
                message env "bob@example.org" Sample.lamp p] /\
    map mail_to (sent mid) = ["ann@example.org"; "bob@example.org"] /\
    Forall (fun m =>
              mail_from m = "dealrelay@example.org" /\
              mail_subject m = "Subject: Price Drop Alert: Lamp..." /\
              mail_product m = Sample.lamp /\ mail_new_price m = p) (sent mid) /\
    forallb notifier_event mid = true /\
    (exists Q, In Q (products (store w')) /\ Product.id Q = 1) /\
    (forall Q, In Q (products (store w')) -> Product.id Q = 1 ->
               Product.url Q = "https://shop.example/lamp" /\ Product.title Q = "Lamp" /\
               Product.price Q = p) /\
    map (fun q => (Product.id q, Product.url q)) (products (store w')) =
      [(1, "https://shop.example/lamp")] /\
    subscriptions (store w') = subscriptions Sample.shop.
Proof.
  intros env p.
  apply (sweep_notifies_then_persists env Sample.shop Sample.lamp "Lamp" p).
  - simpl. constructor; [simpl; tauto|constructor].
  - intros rows. reflexivity.
  - intros Q _. reflexivity.
  - simpl. left. reflexivity.
  - intros w. reflexivity.
  - reflexivity.
  - reflexivity.
Defined.

(** C2: in a sweep over rows with distinct keys, a product whose page yields
    a price [p] with [p == 0] or [p >= product.price] keeps its row, the
    subscriptions stay as they are, and the sweep neither calls the
    notifier nor sends a mail about it, nor sets its price; this holds for
    whichever way the sweep ends. *)
Theorem sweep_without_drop_changes_nothing env d P t p :
  NoDup (map Product.id (products d)) ->
  In P (products d) ->
  extracts env (Product.url P) t p ->
  Py.eq p Py.zero = true \/ Py.ge p (Product.price P) = true ->
  forall r w',
    job env d = (r, w') ->
    In P (products (store w')) /\
    map Product.id (products (store w')) = map Product.id (products d) /\
    subscriptions (store w') = subscriptions d /\
    silent (Product.id P) (trace w').
Proof.
  intros Hnd Hin Hx Hp r w' Hjob.
  assert (Hd : price_drop p P = false).
  { unfold price_drop. destruct Hp as [Hz|Hge].
    - now rewrite (PyFacts.eq_zero_not_pos p Hz).
    - unfold Py.ge in Hge. rewrite (PyFacts.le_not_lt p (Product.price P) Hge).
      apply andb_false_r. }
  destruct (sweep_frame env d P t p Hnd Hin Hx r w' Hd Hjob)
    as ((tr & Et & St) & _ & Hst & _ & Hk).
  specialize (Hk eq_refl). cbn [store fresh] in Hk.
  destruct (keys_and_subs_eq _ _ Hk) as (Hids & _ & Hsubs).
  repeat split; try assumption.
  - now apply Hst.
  - rewrite Et. exact St.
Qed.

(** 50.00 stored, 55.00 on the page. *)
Lemma sweep_without_drop_changes_nothing_witness :
  let run := job (Sample.serving (Sample.page "Lamp" "55" "00")) Sample.shop in
  In Sample.lamp (products (store (snd run))) /\
  map Product.id (products (store (snd run))) = map Product.id (products Sample.shop) /\
  subscriptions (store (snd run)) = subscriptions Sample.shop /\
  silent (Product.id Sample.lamp) (trace (snd run)).
Proof.
  intros run.
  apply (sweep_without_drop_changes_nothing
           (Sample.serving (Sample.page "Lamp" "55" "00")) Sample.shop Sample.lamp
           "Lamp" (Py.of_decimal false 5500 (-2))) with (r := fst run).
  - simpl. constructor; [simpl; tauto|constructor].
  - simpl. left. reflexivity.
  - intros w. reflexivity.
  - right. reflexivity.
  - apply surjective_pairing.
Defined.

(** An extraction failure reads as [0.0] and changes nothing either. *)
Example sweep_on_failed_extraction :
  job (Sample.serving []) Sample.shop =
  (Ret tt,
   {| store := Sample.shop; session := Sample.shop;
      trace := [Print "Hourly price check started."; Print "Checking: Lamp...";
                Print "Checking URL: https://shop.example/lamp...";
                Print "No price change detected."; Print "Price check completed."] |}).
Proof. reflexivity. Qed.

(** ** The notifier inside the sweep *)

(** C8: a call of the notifier returns in every world and changes no row.
    Without one of the two credentials it only prints the warning; when the
    relay raises, the error is printed and the call returns all the same.
    So the loop over the subscribers calls the notifier for each of them,
    delivers to exactly those the relay accepts, and the loop body goes on
    to set the price and to commit. *)
Theorem notifier_never_raises env receiver product new_price :
  (exists tr,
      writes (send_notification_email env receiver product new_price) tt
             (Notify receiver product new_price :: tr)) /\
  (SENDER_EMAIL env = None \/ SENDER_PASSWORD env = None ->
   writes (send_notification_email env receiver product new_price) tt
          [Notify receiver product new_price;
           Print "Sender email credentials are not set."]) /\
  (forall e,
      credentials_set env = true ->
      relay_answer env receiver product new_price = Some e ->
      writes (send_notification_email env receiver product new_price) tt
             [Notify receiver product new_price;
              Print ("Attempting to send email to " ++ receiver ++ "...");
              Print ("An error occurred while sending email: " ++ e)]) /\
  (forall subs,
      exists tr,
        writes (for_each subs (fun sub =>
                  send_notification_email env (Subscription.user_email sub)
                                          product new_price)) tt tr /\
        notified tr = map (fun s => (Subscription.user_email s, product, new_price)) subs /\
        sent tr = map (fun s => message env (Subscription.user_email s) product new_price)
                      (filter (fun s => deliverable env product new_price
                                                    (Subscription.user_email s)) subs)) /\
  (forall t w,
      extracts env (Product.url product) t new_price ->
      price_drop new_price product = true ->
      exists r w' pre mid accepted post,
        check_product env product w = (r, w') /\
        trace w' = (trace w ++ pre ++ mid
                    ++ SetPrice (Product.id product) new_price
                       :: Commit accepted :: post)%list /\
        notified mid = map (fun s => (Subscription.user_email s, product, new_price))
                           (subscriptions_of (session w) product) /\
        session w' = repriced (Product.id product) new_price (session w) /\
        (commit_error env (session w') = None ->
         r = Ret tt /\ accepted = true /\ store w' = session w')).
Proof.
  split; [|split; [|split; [|split]]].
  - destruct (credentials_set env) eqn:C.
    + destruct (relay_answer env receiver product new_price) as [e|] eqn:R.
      * eexists. exact (notifier_catches env receiver product new_price e C R).
      * eexists. exact (notifier_delivers env receiver product new_price C R).
    + eexists. exact (notifier_without_credentials env receiver product new_price C).
  - intros H. apply notifier_without_credentials. unfold credentials_set.
    destruct H as [H|H]; rewrite H; simpl; [reflexivity|apply andb_false_r].
  - intros e C R. exact (notifier_catches env receiver product new_price e C R).
  - intros subs.
    destruct (notify_all_writes env product new_price subs) as (tr & Hw & Hn & Hs & _).
    exists tr. repeat split; assumption.
  - intros t w Hx Hd.
    destruct (check_product_drop env product t new_price Hx Hd w)
      as (pre & mid & Hrun & _ & Hn & _).
    cbv zeta in Hrun.
    destruct (commit_error env (repriced (Product.id product) new_price (session w)))
      as [e|] eqn:Hc.
    + eexists _, _, pre, mid, false, []. split; [exact Hrun|].
      cbn [trace session store]. repeat split; try assumption.
      all: rewrite Hc in *; discriminate.
    + eexists _, _, pre, mid, true, [Print "Database updated."].
      split; [exact Hrun|].
      cbn [trace session store]. repeat split; assumption.
Qed.

(** The relay refuses the mail to the first subscriber: the second one gets
    hers, and the price is stored. *)
Example refused_mail_blocks_nothing :
  let env := {| web := fun _ => Sample.ok (Sample.page "Lamp" "45" "00");
                SENDER_EMAIL := Some "dealrelay@example.org";
                SENDER_PASSWORD := Some "secret";
                smtp := fun _ m => if String.eqb (mail_to m) "ann@example.org"
                                   then Some "550 mailbox unavailable" else None;
                commit_error := fun _ => None |} in
  let run := job env Sample.shop in
  fst run = Ret tt /\
  notified (trace (snd run)) =
    [("ann@example.org", Sample.lamp, Py.of_decimal false 4500 (-2));
     ("bob@example.org", Sample.lamp, Py.of_decimal false 4500 (-2))] /\
  map mail_to (sent (trace (snd run))) = ["bob@example.org"] /\
  products (store (snd run)) = [with_price Sample.lamp (Py.of_decimal false 4500 (-2))].
Proof. repeat split. Qed.

(** ** The track endpoint *)

Lemma prints_no_commit (tr : list event) b :
  forallb is_print tr = true -> ~ In (Commit b) tr.
Proof.
  intros H Hin. rewrite forallb_forall in H. specialize (H _ Hin). discriminate.
Qed.

Lemma printed_no_commit line (tr : list event) b :
  forallb is_print tr = true -> ~ In (Commit b) (Print line :: tr).
Proof. intros H. now apply prints_no_commit. Qed.

Section Track.
Variable env : Env.

(** *** The subscription part *)

Lemma subscribe_bind P v v' :
  Json.bind v = Json.bind v' -> subscribe env P v = subscribe env P v'.
Proof.
  intros H. unfold subscribe, Subscription_query_filter_by. now rewrite H.
Qed.

Lemma subscribe_unbindable P v x w :
  Json.bind v = Json.Unbindable x ->
  subscribe env P v w = (Raise (BindError x), w).
Proof.
  intros H. unfold subscribe, Subscription_query_filter_by. rewrite H. reflexivity.
Qed.

Lemma subscribe_tracked P v e s w :
  Json.bind v = Json.Text e ->
  subscription_of (session w) e (Product.id P) = Some s ->
  subscribe env P v w = (Ret ("You are already tracking this product.", 200), w).
Proof.
  intros H Hs. unfold subscribe, Subscription_query_filter_by. rewrite H.
  unfold Subscription_query. rewrite bind_query, Hs. reflexivity.
Qed.

Lemma subscribe_new P v e w :
  Json.bind v = Json.Text e ->
  subscription_of (session w) e (Product.id P) = None ->
  subscribe env P v w =
  (let rows := insert_subscription (new_subscription (session w) e (Product.id P))
                                   (session w) in
   match commit_error env rows with
   | None =>
       (Ret ("Success! Tracking has been set up for " ++ dquote
             ++ Py.prefix 30 (Product.title P) ++ "..." ++ dquote, 201),
        {| store := rows; session := rows; trace := trace w ++ [Commit true] |})
   | Some x =>
       (Ret ("An error occurred while creating the tracking request.", 500),
        {| store := store w; session := store w;
           trace := trace w ++ [Commit false; Rollback;
                                Print ("Database error: " ++ x)] |})
   end).
Proof.
  intros H Hs. unfold subscribe, Subscription_query_filter_by. rewrite H.
  unfold Subscription_query. rewrite bind_query, Hs.
  unfold add_Subscription, bind, ret, query, update, try_except, commit, rollback,
    print, emit, extend.
  cbn [session store trace]. cbv zeta.
  destruct (commit_error env _); cbn [session store trace];
    repeat rewrite <- app_assoc; reflexivity.
Qed.

Lemma subscribe_null P v w :
  Json.bind v = Json.Null ->
  subscribe env P v w =
  (Ret ("An error occurred while creating the tracking request.", 500),
   {| store := store w; session := store w;
      trace := trace w ++ [Commit false; Rollback;
                           Print ("Database error: "
                                  ++ "NOT NULL constraint failed: subscription.user_email")]
   |}).
Proof.
  intros H. unfold subscribe, Subscription_query_filter_by. rewrite H.
  unfold bind, ret, try_except, commit_refused, rollback, print, emit, extend.
  cbn [session store trace str_exn]. repeat rewrite <- app_assoc. reflexivity.
Qed.

(** *** The product part *)

Lemma find_unbindable v x w :
  Json.bind v = Json.Unbindable x ->
  find_or_create env v w = (Raise (BindError x), w).
Proof.
  intros H. unfold find_or_create, Product_query_filter_by. rewrite H. reflexivity.
Qed.

Lemma find_known v u P w :
  Json.bind v = Json.Text u ->
  product_by_url (session w) u = Some P ->
  find_or_create env v w = (Ret (inr P), w).
Proof.
  intros H HP. unfold find_or_create, Product_query_filter_by. rewrite H.
  unfold Product_query_by_url. rewrite bind_query, HP. reflexivity.
Qed.

Lemma find_unknown {A} v (k : option Product.t -> M A) w :
  unknown (session w) v ->
  bind (Product_query_filter_by v) k w = k None w.
Proof.
  unfold Product_query_filter_by.
  intros [H|(u & H & HP)]; rewrite H; [reflexivity|].
  unfold Product_query_by_url. now rewrite bind_query, HP.
Qed.

(** A value that is not a str and matches no row: the slice in the
    extractor raises. *)
Lemma find_not_str v w :
  unknown (session w) v ->
  (forall u, v <> Json.JString u) ->
  find_or_create env v w =
  (Raise (TypeError "object is not subscriptable"),
   extend w [PrintValue "New product detected: " v ". Fetching details..."]).
Proof.
  intros Hu Hs. unfold find_or_create. rewrite (find_unknown _ _ _ Hu).
  destruct v; try reflexivity. exfalso. now apply (Hs s).
Qed.

Lemma unknown_str d u : product_by_url d u = None -> unknown d (Json.JString u).
Proof. intros H. right. now exists u. Qed.

Lemma create_fails u x w :
  product_by_url (session w) u = None ->
  rejection env u = Some x ->
  find_or_create env (Json.JString u) w =
  (Raise (ParserRejectedMarkup x),
   extend w [Print ("New product detected: " ++ u ++ ". Fetching details...");
             Print ("Checking URL: " ++ Py.prefix 50 u ++ "...")]).
Proof.
  intros HP R. unfold find_or_create. rewrite (find_unknown _ _ _ (unknown_str _ _ HP)).
  cbn [print_detected url_argument].
  rewrite (bind_writes _ _ _ _ _ (writes_print _)).
  rewrite (bind_writes _ _ _ _ _ (writes_ret _)).
  unfold bind. rewrite (get_product_details_fails env u x R).
  rewrite !extend_extend. reflexivity.
Qed.

Lemma create_rejected u t p tr w :
  product_by_url (session w) u = None ->
  writes (get_product_details env u) (t, p) tr ->
  String.eqb t "N/A" || Py.eq p Py.zero = true ->
  find_or_create env (Json.JString u) w =
  (Ret (inl ("Failed to retrieve product information. Please verify the Amazon URL.", 400)),
   extend w (Print ("New product detected: " ++ u ++ ". Fetching details...") :: tr)).
Proof.
  intros HP Hw Ht. unfold find_or_create.
  rewrite (find_unknown _ _ _ (unknown_str _ _ HP)).
  cbn [print_detected url_argument].
  rewrite (bind_writes _ _ _ _ _ (writes_print _)).
  rewrite (bind_writes _ _ _ _ _ (writes_ret _)).
  rewrite (bind_writes _ _ _ _ _ Hw). rewrite Ht.
  rewrite !extend_extend. reflexivity.
Qed.

Lemma create_accepted u t p tr w :
  product_by_url (session w) u = None ->
  writes (get_product_details env u) (t, p) tr ->
  String.eqb t "N/A" || Py.eq p Py.zero = false ->
  find_or_create env (Json.JString u) w =
  (let P := new_product (session w) u t p in
   let log := Print ("New product detected: " ++ u ++ ". Fetching details...") :: tr in
   match commit_error env (insert_product P (session w)) with
   | None =>
       (Ret (inr P),
        {| store := store w; session := insert_product P (session w);
           trace := trace w ++ log |})
   | Some x =>
       (Raise (SQLAlchemyError x),
        {| store := store w; session := store w; trace := trace w ++ log |})
   end).
Proof.
  intros HP Hw Ht. unfold find_or_create.
  rewrite (find_unknown _ _ _ (unknown_str _ _ HP)).
  cbn [print_detected url_argument].
  rewrite (bind_writes _ _ _ _ _ (writes_print _)).
  rewrite (bind_writes _ _ _ _ _ (writes_ret _)).
  rewrite (bind_writes _ _ _ _ _ Hw). rewrite Ht.
  rewrite !extend_extend.
  unfold add_Product, flush, bind, ret, query, update, extend.
  cbn [session store trace app]. cbv zeta.
  destruct (commit_error env _); reflexivity.
Qed.

(** *** A request with two strings *)

Variable d : DB.
Variables u e : string.

Lemma track_request :
  POST_track env (request u e) d =
  track_values env (Json.JString u) (Json.JString e) (fresh d).
Proof. reflexivity. Qed.

Ltac run_track :=
  rewrite track_request; unfold track_values.

Lemma track_known_tracked P s :
  product_by_url d u = Some P ->
  subscription_of d e (Product.id P) = Some s ->
  POST_track env (request u e) d =
  (Ret ("You are already tracking this product.", 200), fresh d).
Proof.
  intros HP Hs. run_track.
  rewrite (bind_returns _ _ _ _ _ (find_known (Json.JString u) u P (fresh d) eq_refl HP)).
  now apply (subscribe_tracked P (Json.JString e) e s).
Qed.

Lemma track_known_new P :
  product_by_url d u = Some P ->
  subscription_of d e (Product.id P) = None ->
  POST_track env (request u e) d =
  (let rows := insert_subscription (new_subscription d e (Product.id P)) d in
   match commit_error env rows with
   | None =>
       (Ret ("Success! Tracking has been set up for " ++ dquote
             ++ Py.prefix 30 (Product.title P) ++ "..." ++ dquote, 201),
        {| store := rows; session := rows; trace := [Commit true] |})
   | Some x =>
       (Ret ("An error occurred while creating the tracking request.", 500),
        {| store := d; session := d;
           trace := [Commit false; Rollback; Print ("Database error: " ++ x)] |})
   end).
Proof.
  intros HP Hs. run_track.
  rewrite (bind_returns _ _ _ _ _ (find_known (Json.JString u) u P (fresh d) eq_refl HP)).
  now rewrite (subscribe_new P (Json.JString e) e (fresh d) eq_refl Hs).
Qed.

Lemma track_unknown_fails x :
  product_by_url d u = None ->
  rejection env u = Some x ->
  POST_track env (request u e) d =
  (Raise (ParserRejectedMarkup x),
   extend (fresh d)
          [Print ("New product detected: " ++ u ++ ". Fetching details...");
           Print ("Checking URL: " ++ Py.prefix 50 u ++ "...")]).
Proof.
  intros HP R. run_track. unfold bind.
  now rewrite (create_fails u x (fresh d) HP R).
Qed.

Lemma track_unknown_rejected t p tr :
  product_by_url d u = None ->
  writes (get_product_details env u) (t, p) tr ->
  String.eqb t "N/A" || Py.eq p Py.zero = true ->
  POST_track env (request u e) d =
  (Ret ("Failed to retrieve product information. Please verify the Amazon URL.", 400),
   extend (fresh d)
          (Print ("New product detected: " ++ u ++ ". Fetching details...") :: tr)).
Proof.
  intros HP Hw Ht. run_track.
  now rewrite (bind_returns _ _ _ _ _ (create_rejected u t p tr (fresh d) HP Hw Ht)).
Qed.

Lemma track_unknown_accepted t p tr :
  product_by_url d u = None ->
  writes (get_product_details env u) (t, p) tr ->
  String.eqb t "N/A" || Py.eq p Py.zero = false ->
  POST_track env (request u e) d =
  (let P := new_product d u t p in
   let d1 := insert_product P d in
   let log := Print ("New product detected: " ++ u ++ ". Fetching details...") :: tr in
   match commit_error env d1 with
   | Some x =>
       (Raise (SQLAlchemyError x), {| store := d; session := d; trace := log |})
   | None =>
       match subscription_of d1 e (Product.id P) with
       | Some _ =>
           (Ret ("You are already tracking this product.", 200),
            {| store := d; session := d1; trace := log |})
       | None =>
           let d2 := insert_subscription (new_subscription d1 e (Product.id P)) d1 in
           match commit_error env d2 with
           | None =>
               (Ret ("Success! Tracking has been set up for " ++ dquote
                     ++ Py.prefix 30 (Product.title P) ++ "..." ++ dquote, 201),
                {| store := d2; session := d2; trace := log ++ [Commit true] |})
           | Some x =>
               (Ret ("An error occurred while creating the tracking request.", 500),
                {| store := d; session := d;
                   trace := log ++ [Commit false; Rollback;
                                    Print ("Database error: " ++ x)] |})
           end
       end
   end).
Proof.
  intros HP Hw Ht. run_track. unfold bind at 1.
  rewrite (create_accepted u t p tr (fresh d) HP Hw Ht).
  cbv zeta. cbn [session store trace fresh app].
  destruct (commit_error env (insert_product _ d)); [reflexivity|].
  set (P := new_product d u t p).
  set (w1 := {| store := d; session := insert_product P d;
                trace := Print ("New product detected: " ++ u ++ ". Fetching details...")
                         :: tr |}).
  change (insert_product P d) with (session w1) at 1 2.
  destruct (subscription_of (session w1) e (Product.id P)) as [s|] eqn:Hs.
  - now rewrite (subscribe_tracked P (Json.JString e) e s w1 eq_refl Hs).
  - now rewrite (subscribe_new P (Json.JString e) e w1 eq_refl Hs).
Qed.

End Track.

(** *** Any body *)

Lemma lookup_member k (members : list (string * Json.t)) :
  existsb (fun kv => String.eqb (fst kv) k) members = true ->
  exists v, Json.lookup k members = Some v.
Proof.
  unfold Json.lookup.
  assert (H : forall (m : list (string * Json.t)) (acc : option Json.t),
             acc <> None \/ existsb (fun kv => String.eqb (fst kv) k) m = true ->
             exists v,
               fold_left (fun found kv => if String.eqb (fst kv) k
                                          then Some (snd kv) else found) m acc = Some v).
  { induction m as [|kv m IH]; simpl; intros acc [Ha|He].
    - destruct acc as [v|]; [now exists v|congruence].
    - discriminate.
    - apply IH. left. destruct (String.eqb (fst kv) k); [discriminate|exact Ha].
    - apply IH. destruct (String.eqb (fst kv) k); [left; discriminate|now right]. }
  intros E. apply H. now right.
Qed.

(** Up to the two subscripts the handler touches no row: it ends early, or
    it goes on with the two values. *)
Lemma track_body env b d :
  (exists r, POST_track env b d = (r, fresh d) /\ ends_early r) \/
  (exists v1 v2, POST_track env b d = track_values env v1 v2 (fresh d)).
Proof.
  unfold POST_track, track_product, ends_early.
  destruct b as [| |data]; [left; eexists; split; [reflexivity|auto]..|].
  cbn [get_json]. rewrite (bind_writes _ _ _ _ _ (writes_ret _)), extend_nil.
  destruct data as [|[]|n|s|items|members]; cbn [Json.truth negb].
  - left. eexists. split; [reflexivity|auto].
  - left. eexists. split; [reflexivity|]. right. right. left. eexists. reflexivity.
  - left. eexists. split; [reflexivity|auto].
  - left. destruct (Json.nonzero n); eexists; (split; [reflexivity|]);
      [right; right; left; eexists; reflexivity|auto].
  - left. destruct s as [|c s]; [eexists; split; [reflexivity|auto]|].
    cbn [String.eqb negb]. unfold contains, bind, ret, raise, getitem. cbn [Json.member].
    destruct (Json.occurs "product_url" (String c s));
      [|eexists; split; [reflexivity|auto]].
    cbn [negb].
    destruct (Json.occurs "user_email" (String c s));
      eexists; (split; [reflexivity|]);
      [right; right; left; eexists; reflexivity|auto].
  - left. destruct items as [|x items]; [eexists; split; [reflexivity|auto]|].
    cbn [List.length Nat.eqb negb]. unfold contains, bind, ret, raise, getitem.
    cbn [Json.member].
    destruct (existsb _ (x :: items)); [|eexists; split; [reflexivity|auto]].
    cbn [negb].
    destruct (existsb _ (x :: items));
      eexists; (split; [reflexivity|]);
      [right; right; left; eexists; reflexivity|auto].
  - destruct members as [|kv members]; [left; eexists; split; [reflexivity|auto]|].
    cbn [List.length Nat.eqb negb]. unfold contains, bind, ret, raise, getitem.
    cbn [Json.member].
    destruct (existsb (fun kv0 => String.eqb (fst kv0) "product_url") (kv :: members))
      eqn:E1; [|left; eexists; split; [reflexivity|auto]].
    cbn [negb].
    destruct (existsb (fun kv0 => String.eqb (fst kv0) "user_email") (kv :: members))
      eqn:E2; [|left; eexists; split; [reflexivity|auto]].
    cbn [negb].
    destruct (lookup_member _ _ E1) as [v1 H1]. destruct (lookup_member _ _ E2) as [v2 H2].
    rewrite H1, H2. right. exists v1, v2. reflexivity.
Qed.

Section TrackValues.
Variable env : Env.

Lemma track_values_bind v1 v2 v2' w :
  Json.bind v2 = Json.bind v2' ->
  track_values env v1 v2 w = track_values env v1 v2' w.
Proof.
  intros H. unfold track_values, bind.
  destruct (find_or_create env v1 w) as [[[resp|P]|x] w1]; try reflexivity.
  now rewrite (subscribe_bind env P v2 v2' H).
Qed.

Lemma track_values_known v1 v2 u P w :
  Json.bind v1 = Json.Text u ->
  product_by_url (session w) u = Some P ->
  track_values env v1 v2 w = track_values env (Json.JString u) v2 w.
Proof.
  intros H HP. unfold track_values, bind.
  rewrite (find_known env v1 u P w H HP).
  now rewrite (find_known env (Json.JString u) u P w eq_refl HP).
Qed.

Lemma no_commit_in_prints (tr : list event) :
  forallb is_print tr = true -> forall a, ~ In (Commit a) tr.
Proof. intros H a. now apply prints_no_commit. Qed.

(** The product part commits nothing and leaves the store as it is; a
    response of its own has status 400. *)
Lemma find_or_create_frame v w r w' :
  find_or_create env v w = (r, w') ->
  store w' = store w /\
  (exists tr, trace w' = (trace w ++ tr)%list /\ forall a, ~ In (Commit a) tr) /\
  (forall msg code, r = Ret (inl (msg, code)) -> code = 400).
Proof.
  intros Hrun.
  assert (Hsame : forall x, (x, w) = (r, w') ->
                    store w' = store w /\
                    (exists tr, trace w' = (trace w ++ tr)%list /\
                                forall a, ~ In (Commit a) tr)).
  { intros x E. inversion E; subst. split; [reflexivity|].
    exists []. split; [now rewrite app_nil_r|intros a []]. }
  assert (Hext : forall x tr, (forall a, ~ In (Commit a) tr) ->
                    (x, extend w tr) = (r, w') ->
                    store w' = store w /\
                    (exists tr, trace w' = (trace w ++ tr)%list /\
                                forall a, ~ In (Commit a) tr)).
  { intros x tr Hn E. inversion E; subst. split; [reflexivity|]. now exists tr. }
  assert (Hcases : (exists x, Json.bind v = Json.Unbindable x) \/
                   (exists u P, Json.bind v = Json.Text u /\
                                product_by_url (session w) u = Some P) \/
                   unknown (session w) v).
  { unfold unknown. destruct (Json.bind v) as [u| |x]; [|auto|left; now exists x].
    destruct (product_by_url (session w) u) as [P|] eqn:HP.
    - right. left. now exists u, P.
    - right. right. right. now exists u. }
  destruct Hcases as [(x & H)|[(u & P & H & HP)|Hu]].
  - rewrite (find_unbindable env v x w H) in Hrun.
    destruct (Hsame _ Hrun) as [A B]. repeat split; try assumption.
    intros msg code E. rewrite E in Hrun. discriminate.
  - rewrite (find_known env v u P w H HP) in Hrun.
    destruct (Hsame _ Hrun) as [A B]. repeat split; try assumption.
    intros msg code E. rewrite E in Hrun. discriminate.
  - assert (Hstr : (exists u, v = Json.JString u) \/ forall u, v <> Json.JString u).
    { destruct v; try (right; discriminate). left. now eexists. }
    destruct Hstr as [[u ->]|Hstr].
    + assert (HP : product_by_url (session w) u = None).
      { destruct Hu as [H|(u' & H & HP)]; [discriminate|]. cbn in H. congruence. }
      destruct (extraction_cases env u) as [(t & p & Hx)|(x & R)].
      * destruct (extracts_writes _ _ _ _ Hx) as (tr & Hw & Hp).
        assert (Hlog : forall a, ~ In (Commit a)
                   (Print ("New product detected: " ++ u ++ ". Fetching details...") :: tr)).
        { intros a. now apply printed_no_commit. }
        destruct (String.eqb t "N/A" || Py.eq p Py.zero) eqn:Ht.
        -- rewrite (create_rejected env u t p tr w HP Hw Ht) in Hrun.
           destruct (Hext _ _ Hlog Hrun) as [A B]. repeat split; try assumption.
           intros msg code E. rewrite E in Hrun. inversion Hrun. reflexivity.
        -- rewrite (create_accepted env u t p tr w HP Hw Ht) in Hrun. cbv zeta in Hrun.
           destruct (commit_error env _); inversion Hrun; subst; cbn [store trace];
             (split; [reflexivity|]); (split; [eexists; split; [reflexivity|exact Hlog]|]);
             intros msg code E; discriminate.
      * rewrite (create_fails env u x w HP R) in Hrun.
        assert (Hlog : forall a, ~ In (Commit a)
                   [Print ("New product detected: " ++ u ++ ". Fetching details...");
                    Print ("Checking URL: " ++ Py.prefix 50 u ++ "...")]).
        { intros a [H|[H|[]]]; discriminate H. }
        destruct (Hext _ _ Hlog Hrun) as [A B]. repeat split; try assumption.
        intros msg code E. rewrite E in Hrun. discriminate.
    + rewrite (find_not_str env v w Hu Hstr) in Hrun.
      assert (Hlog : forall a, ~ In (Commit a)
                 [PrintValue "New product detected: " v ". Fetching details..."]).
      { intros a [H|[]]; discriminate H. }
      destruct (Hext _ _ Hlog Hrun) as [A B]. repeat split; try assumption.
      intros msg code E. rewrite E in Hrun. discriminate.
Qed.

(** Whatever the body, a request does what a request with two strings does;
    or it ends without looking at the rows or on a value that the driver
    cannot bind or the extractor cannot slice, the store left alone and
    nothing committed; or it is one whose commit fails. *)
Lemma track_reduces b d r w :
  POST_track env b d = (r, w) ->
  (exists u e, POST_track env (request u e) d = (r, w)) \/
  (store w = d /\ (forall a, ~ In (Commit a) (trace w)) /\ stops_short r) \/
  (store w = d /\ session w = d /\
   exists x pre,
     r = Ret ("An error occurred while creating the tracking request.", 500) /\
     trace w = (pre ++ [Commit false; Rollback; Print ("Database error: " ++ x)])%list).
Proof.
  intros Hrun. unfold stops_short.
  destruct (track_body env b d) as [(r0 & H0 & He)|(v1 & v2 & Hv)].
  { rewrite H0 in Hrun. injection Hrun as <- <-. right. left.
    split; [reflexivity|]. split; [intros a []|].
    destruct He as [He|[He|[(x & He)|He]]]; rewrite He;
      [right; eexists; split; [reflexivity|auto]..|now left].
    right. right. left. now exists x. }
  rewrite Hv in Hrun. clear Hv.
  assert (Hstr : forall u e,
             track_values env v1 v2 (fresh d)
             = track_values env (Json.JString u) (Json.JString e) (fresh d) ->
             exists u e, POST_track env (request u e) d = (r, w)).
  { intros u e E. exists u, e. rewrite track_request. now rewrite <- E. }
  assert (Hnull : forall P w1,
             store w1 = d -> (forall a, ~ In (Commit a) (trace w1)) ->
             (forall e, Json.bind v2 <> Json.Text e) ->
             subscribe env P v2 w1 = (r, w) ->
             (store w = d /\ (forall a, ~ In (Commit a) (trace w)) /\
              (r = Ret ("Missing product_url or user_email.", 400) \/
               exists y, r = Raise y /\
                 (y = HTTPException 415 \/ y = HTTPException 400 \/
                  (exists m, y = TypeError m) \/ exists m, y = BindError m))) \/
             (store w = d /\ session w = d /\
              exists y pre,
                r = Ret ("An error occurred while creating the tracking request.", 500) /\
                trace w = (pre ++ [Commit false; Rollback;
                                   Print ("Database error: " ++ y)])%list)).
  { intros P w1 Hst Hnc1 Hx Hsub. destruct (Json.bind v2) as [e| |y] eqn:H2.
    - exfalso. now apply (Hx e).
    - rewrite (subscribe_null env P v2 w1 H2) in Hsub. injection Hsub as <- <-.
      right. cbn [store session trace]. split; [exact Hst|].
      split; [exact Hst|]. eexists _, (trace w1). split; reflexivity.
    - rewrite (subscribe_unbindable env P v2 y w1 H2) in Hsub. injection Hsub as <- <-.
      left. split; [exact Hst|]. split; [exact Hnc1|].
      right. eexists. split; [reflexivity|]. right. right. right. now exists y. }
  assert (Hs1 : (exists u, v1 = Json.JString u) \/ forall u, v1 <> Json.JString u).
  { destruct v1; try (right; discriminate). left. now eexists. }
  destruct (Json.bind v2) as [e| |y] eqn:H2.
  - (* the subscriber's address is bound as a text *)
    rewrite (track_values_bind v1 v2 (Json.JString e) _ H2) in Hrun.
    destruct Hs1 as [[u ->]|Hs1].
    { left. exists u, e. now rewrite track_request. }
    destruct (Json.bind v1) as [u| |x] eqn:H1.
    + destruct (product_by_url d u) as [P|] eqn:HP.
      * left. exists u, e. rewrite track_request.
        now rewrite <- (track_values_known v1 _ u P (fresh d) H1 HP).
      * assert (Hu : unknown (session (fresh d)) v1) by (right; now exists u).
        unfold track_values, bind in Hrun.
        rewrite (find_not_str env v1 (fresh d) Hu Hs1) in Hrun. injection Hrun as <- <-.
        right. left. split; [reflexivity|].
        split; [intros a [H|[]]; discriminate H|].
        right. eexists. split; [reflexivity|]. right. right. left. now eexists.
    + assert (Hu : unknown (session (fresh d)) v1) by now left.
      unfold track_values, bind in Hrun.
      rewrite (find_not_str env v1 (fresh d) Hu Hs1) in Hrun. injection Hrun as <- <-.
      right. left. split; [reflexivity|].
      split; [intros a [H|[]]; discriminate H|].
      right. eexists. split; [reflexivity|]. right. right. left. now eexists.
    + unfold track_values, bind in Hrun.
      rewrite (find_unbindable env v1 x (fresh d) H1) in Hrun. injection Hrun as <- <-.
      right. left. split; [reflexivity|]. split; [intros a []|].
      right. eexists. split; [reflexivity|]. right. right. right. now eexists.
  - (* the subscriber's address is bound as NULL *)
    unfold track_values, bind in Hrun.
    destruct (find_or_create env v1 (fresh d)) as [r1 w1] eqn:Hfind.
    destruct (find_or_create_frame v1 _ _ _ Hfind) as (Hst & (tr & Htr & Hnc) & _).
    cbn [store trace fresh app] in Hst, Htr.
    assert (Hnc1 : forall a, ~ In (Commit a) (trace w1)) by (now rewrite Htr).
    destruct r1 as [[resp|P]|x].
    + destruct Hs1 as [[u ->]|Hs1].
      * left. exists u, "". rewrite track_request. unfold track_values, bind.
        now rewrite Hfind.
      * exfalso. destruct (Json.bind v1) as [u| |x] eqn:H1.
        -- destruct (product_by_url d u) as [P|] eqn:HP.
           ++ rewrite (find_known env v1 u P (fresh d) H1 HP) in Hfind. discriminate.
           ++ rewrite (find_not_str env v1 (fresh d) (or_intror (ex_intro _ u (conj H1 HP))) Hs1)
                in Hfind. discriminate.
        -- rewrite (find_not_str env v1 (fresh d) (or_introl H1) Hs1) in Hfind. discriminate.
        -- rewrite (find_unbindable env v1 x (fresh d) H1) in Hfind. discriminate.
    + right. apply (Hnull P w1 Hst Hnc1); [discriminate|exact Hrun].
    + destruct Hs1 as [[u ->]|Hs1].
      * left. exists u, "". rewrite track_request. unfold track_values, bind.
        now rewrite Hfind.
      * injection Hrun as <- <-. right. left. split; [exact Hst|]. split; [exact Hnc1|].
        right. exists x. split; [reflexivity|].
        destruct (Json.bind v1) as [u| |y] eqn:H1.
        -- destruct (product_by_url d u) as [P|] eqn:HP.
           ++ rewrite (find_known env v1 u P (fresh d) H1 HP) in Hfind. discriminate.
           ++ rewrite (find_not_str env v1 (fresh d) (or_intror (ex_intro _ u (conj H1 HP))) Hs1)
                in Hfind. injection Hfind as <- _. right. right. left. now eexists.
        -- rewrite (find_not_str env v1 (fresh d) (or_introl H1) Hs1) in Hfind.
           injection Hfind as <- _. right. right. left. now eexists.
        -- rewrite (find_unbindable env v1 y (fresh d) H1) in Hfind.
           injection Hfind as <- _. right. right. right. now eexists.
  - (* the subscriber's address cannot be bound *)
    unfold track_values, bind in Hrun.
    destruct (find_or_create env v1 (fresh d)) as [r1 w1] eqn:Hfind.
    destruct (find_or_create_frame v1 _ _ _ Hfind) as (Hst & (tr & Htr & Hnc) & _).
    cbn [store trace fresh app] in Hst, Htr.
    assert (Hnc1 : forall a, ~ In (Commit a) (trace w1)) by (now rewrite Htr).
    destruct r1 as [[resp|P]|x].
    + destruct Hs1 as [[u ->]|Hs1].
      * left. exists u, "". rewrite track_request. unfold track_values, bind.
        now rewrite Hfind.
      * exfalso. destruct (Json.bind v1) as [u| |x] eqn:H1.
        -- destruct (product_by_url d u) as [P|] eqn:HP.
           ++ rewrite (find_known env v1 u P (fresh d) H1 HP) in Hfind. discriminate.
           ++ rewrite (find_not_str env v1 (fresh d) (or_intror (ex_intro _ u (conj H1 HP))) Hs1)
                in Hfind. discriminate.
        -- rewrite (find_not_str env v1 (fresh d) (or_introl H1) Hs1) in Hfind. discriminate.
        -- rewrite (find_unbindable env v1 x (fresh d) H1) in Hfind. discriminate.
    + right. apply (Hnull P w1 Hst Hnc1); [discriminate|exact Hrun].
    + destruct Hs1 as [[u ->]|Hs1].
      * left. exists u, "". rewrite track_request. unfold track_values, bind.
        now rewrite Hfind.
      * injection Hrun as <- <-. right. left. split; [exact Hst|]. split; [exact Hnc1|].
        right. exists x. split; [reflexivity|].
        destruct (Json.bind v1) as [u| |z] eqn:H1.
        -- destruct (product_by_url d u) as [P|] eqn:HP.
           ++ rewrite (find_known env v1 u P (fresh d) H1 HP) in Hfind. discriminate.
           ++ rewrite (find_not_str env v1 (fresh d) (or_intror (ex_intro _ u (conj H1 HP))) Hs1)
                in Hfind. injection Hfind as <- _. right. right. left. now eexists.
        -- rewrite (find_not_str env v1 (fresh d) (or_introl H1) Hs1) in Hfind.
           injection Hfind as <- _. right. right. left. now eexists.
        -- rewrite (find_unbindable env v1 z (fresh d) H1) in Hfind.
           injection Hfind as <- _. right. right. right. now eexists.
Qed.

End TrackValues.

Lemma find_none_if {A} (f : A -> bool) (l : list A) :
  (forall x, In x l -> f x = false) -> List.find f l = None.
Proof.
  intros H. destruct (List.find f l) as [x|] eqn:E; [|reflexivity].
  apply find_some in E. destruct E as [Hin Hf]. rewrite (H x Hin) in Hf. discriminate.
Qed.

Lemma product_by_url_unknown d u :
  ~ In u (map Product.url (products d)) -> product_by_url d u = None.
Proof.
  intros H. apply find_none_if. intros P HP.
  destruct (String.eqb (Product.url P) u) eqn:E; [|reflexivity].
  apply String.eqb_eq in E. exfalso. apply H. rewrite <- E. now apply in_map.
Qed.

(** C3: a track request for an address that no product row has, whose
    fetch and extraction yield the sentinel title ["N/A"] or a price equal
    to [0.0], is answered with status 400; the store is as before and the
    session holds nothing new, so neither a product nor a subscription row
    is created. *)
Theorem failed_extraction_persists_nothing env d u e t p :
  ~ In u (map Product.url (products d)) ->
  extracts env u t p ->
  t = "N/A" \/ Py.eq p Py.zero = true ->
  exists msg w',
    POST_track env (request u e) d = (Ret (msg, 400), w') /\
    store w' = d /\ session w' = d /\
    forallb is_print (trace w') = true.
Proof.
  intros Hu Hx Hs.
  destruct (extracts_writes _ _ _ _ Hx) as (tr & Hw & Hp).
  assert (Ht : String.eqb t "N/A" || Py.eq p Py.zero = true).
  { destruct Hs as [->|Hz]; [reflexivity|]. rewrite Hz. apply orb_true_r. }
  eexists _, _. split.
  - exact (track_unknown_rejected env d u e t p tr (product_by_url_unknown d u Hu) Hw Ht).
  - repeat split. exact Hp.
Qed.

(** The example of the specification: nothing can be read off the page. *)
Lemma failed_extraction_persists_nothing_witness :
  exists msg w',
    POST_track (Sample.serving []) (request "https://shop.example/desk" "ann@example.org")
               Sample.shop
    = (Ret (msg, 400), w') /\
    store w' = Sample.shop /\ session w' = Sample.shop /\
    forallb is_print (trace w') = true.
Proof.
  apply (failed_extraction_persists_nothing
           (Sample.serving []) Sample.shop "https://shop.example/desk"
           "ann@example.org" "N/A" Py.zero).
  - simpl. intros [H|H]; [discriminate H|exact H].
  - intros w. reflexivity.
  - left. reflexivity.
Defined.

(** C7: when the commit of a track request fails, the handler rolls the
    session back, prints the error and answers with status 500; the store
    is the one the request found, and the session holds no change. *)
Theorem failed_commit_is_rolled_back env data d r w' :
  POST_track env data d = (r, w') ->
  In (Commit false) (trace w') ->
  (exists x pre,
      r = Ret ("An error occurred while creating the tracking request.", 500) /\
      trace w' = (pre ++ [Commit false; Rollback; Print ("Database error: " ++ x)])%list) /\
  store w' = d /\ session w' = d.
Proof.
  intros Hrun Hin.
  assert (Hno : forall tr, forallb is_print tr = true -> ~ In (Commit false) (tr ++ [Commit true]))
    by (intros tr Hp H; apply in_app_or in H; destruct H as [H|[H|[]]];
        [exact (prints_no_commit _ _ Hp H)|discriminate H]).
  destruct (track_reduces env data d r w' Hrun)
    as [(u & e & Hreq)|[(_ & Hnc & _)|(Hst & Hse & x & pre & Hr & Ht)]];
    [|exfalso; exact (Hnc false Hin)|split; [now exists x, pre|now split]].
  clear Hrun. rename Hreq into Hrun.
  destruct (product_by_url d u) as [P|] eqn:HP.
  - destruct (subscription_of d e (Product.id P)) as [s|] eqn:Hs.
    + rewrite (track_known_tracked env d u e P s HP Hs) in Hrun.
      inversion Hrun; subst. destruct Hin.
    + rewrite (track_known_new env d u e P HP Hs) in Hrun. cbv zeta in Hrun.
      destruct (commit_error env _) as [x|]; inversion Hrun; subst; clear Hrun.
      * split; [|split; reflexivity]. exists x, []. split; reflexivity.
      * exfalso. exact (Hno [] eq_refl Hin).
  - destruct (extraction_cases env u) as [(t & p & Hx)|(x & R)];
      [|rewrite (track_unknown_fails env d u e x HP R) in Hrun;
        inversion Hrun; subst; cbn [trace extend fresh app] in Hin;
        destruct Hin as [H|[H|[]]]; discriminate H].
    destruct (extracts_writes _ _ _ _ Hx) as (tr & Hw & Hp).
    destruct (String.eqb t "N/A" || Py.eq p Py.zero) eqn:Ht.
    + rewrite (track_unknown_rejected env d u e t p tr HP Hw Ht) in Hrun.
      inversion Hrun; subst. cbn [trace extend fresh app] in Hin.
      exact (False_ind _ (printed_no_commit _ tr false Hp Hin)).
    + rewrite (track_unknown_accepted env d u e t p tr HP Hw Ht) in Hrun.
      cbv zeta in Hrun.
      destruct (commit_error env (insert_product _ d)).
      { inversion Hrun; subst. cbn [trace] in Hin.
        exact (False_ind _ (printed_no_commit _ tr false Hp Hin)). }
      destruct (subscription_of _ _ _).
      * inversion Hrun; subst. cbn [trace] in Hin.
        exact (False_ind _ (printed_no_commit _ tr false Hp Hin)).
      * destruct (commit_error env _) as [x|]; inversion Hrun; subst; clear Hrun.
        -- split; [|split; reflexivity].
           exists x, (Print ("New product detected: " ++ u ++ ". Fetching details...") :: tr).
           split; reflexivity.
        -- exfalso. cbn [trace] in Hin. exact (Hno (Print _ :: tr) Hp Hin).
Qed.

(** A new product whose flush the storage layer accepts and whose commit,
    with the third subscription row, it refuses: the product row inserted by
    the flush is gone as well. *)
Lemma failed_commit_is_rolled_back_witness :
  let env := {| web := fun _ => Sample.ok (Sample.page "Desk" "120" "00");
                SENDER_EMAIL := None; SENDER_PASSWORD := None;
                smtp := fun _ _ => None;
                commit_error := fun rows =>
                  if Nat.ltb 2 (List.length (subscriptions rows))
                  then Some "database is locked" else None |} in
  let run := POST_track env (request "https://shop.example/desk" "ann@example.org")
                        Sample.shop in
  (exists x pre,
      fst run = Ret ("An error occurred while creating the tracking request.", 500) /\
      trace (snd run) =
        (pre ++ [Commit false; Rollback; Print ("Database error: " ++ x)])%list) /\
  store (snd run) = Sample.shop /\ session (snd run) = Sample.shop.
Proof.
  intros env run.
  apply (failed_commit_is_rolled_back env
           (request "https://shop.example/desk" "ann@example.org") Sample.shop
           (fst run) (snd run)).
  - apply surjective_pairing.
  - vm_compute. right. right. left. reflexivity.
Defined.

(** *** Keys and lookups *)

Lemma find_app_first {A} (f : A -> bool) (l l' : list A) :
  List.find f (l ++ l') =
  match List.find f l with Some x => Some x | None => List.find f l' end.
Proof.
  induction l as [|a l IH]; simpl; [reflexivity|].
  destruct (f a); [reflexivity|exact IH].
Qed.

Lemma filter_find_none {A} (f : A -> bool) (l : list A) :
  List.find f l = None -> filter f l = [].
Proof.
  induction l as [|a l IH]; simpl; [reflexivity|].
  destruct (f a); [discriminate|exact IH].
Qed.

Lemma fold_max_ge (i : Z) (l : list Z) x :
  In x (i :: l) -> x <= fold_right Z.max i l.
Proof.
  induction l as [|a l IH]; simpl.
  - intros [->|[]]. lia.
  - intros [->|[->|H]].
    + assert (x <= fold_right Z.max x l) by (apply IH; now left). lia.
    + lia.
    + assert (x <= fold_right Z.max i l) by (apply IH; now right). lia.
Qed.

Lemma next_id_fresh (ids : list Z) : ~ In (next_id ids) ids.
Proof.
  destruct ids as [|i l]; [simpl; tauto|].
  intros H. apply fold_max_ge in H. unfold next_id in H. lia.
Qed.

Lemma subscribes_iff e pid s :
  subscribes e pid s = true <->
  (Subscription.user_email s, Subscription.product_id s) = (e, pid).
Proof.
  unfold subscribes. rewrite andb_true_iff, String.eqb_eq, Z.eqb_eq.
  split; [intros [-> ->]; reflexivity|intros H; inversion H; auto].
Qed.

Lemma unique_subscription (l : list Subscription.t) e pid s :
  NoDup (map (fun s => (Subscription.user_email s, Subscription.product_id s)) l) ->
  List.find (subscribes e pid) l = Some s ->
  List.length (filter (subscribes e pid) l) = 1%nat.
Proof.
  induction l as [|a l IH]; simpl; [discriminate|].
  intros Hnd Hf. inversion Hnd as [|? ? Hna Hl]; subst.
  destruct (subscribes e pid a) eqn:Ha.
  - simpl. f_equal. rewrite filter_find_none; [reflexivity|].
    apply find_none_if. intros x Hx.
    destruct (subscribes e pid x) eqn:Hsx; [|reflexivity].
    exfalso. apply Hna. apply subscribes_iff in Ha, Hsx. rewrite Ha, <- Hsx.
    apply (in_map (fun s => (Subscription.user_email s, Subscription.product_id s))), Hx.
  - now apply IH.
Qed.

(** No subscription row refers to the key of a product row about to be
    inserted. *)
Lemma no_subscription_of_new_product d u t p e :
  schema d ->
  subscription_of (insert_product (new_product d u t p) d) e
                  (Product.id (new_product d u t p)) = None.
Proof.
  intros (_ & _ & _ & _ & Hfk). apply find_none_if. intros s Hs.
  cbn [subscriptions insert_product] in Hs.
  destruct (subscribes e _ s) eqn:E; [|reflexivity].
  apply subscribes_iff in E. inversion E as [[He Hp]].
  exfalso. apply (next_id_fresh (map Product.id (products d))).
  cbn [Product.id new_product] in Hp. rewrite <- Hp. now apply Hfk.
Qed.

Lemma subscription_of_inserted d e pid :
  subscription_of d e pid = None ->
  subscription_of (insert_subscription (new_subscription d e pid) d) e pid
  = Some (new_subscription d e pid) /\
  List.length (filter (subscribes e pid)
                 (subscriptions (insert_subscription (new_subscription d e pid) d)))
  = 1%nat.
Proof.
  intros H. unfold subscription_of in *. cbn [subscriptions insert_subscription].
  assert (Hn : subscribes e pid (new_subscription d e pid) = true).
  { apply subscribes_iff. reflexivity. }
  split.
  - rewrite find_app_first, H. simpl. now rewrite Hn.
  - rewrite filter_app, (filter_find_none _ _ H). simpl. now rewrite Hn.
Qed.

(** C4: on rows that satisfy the schema, with a storage layer that accepts
    what the first request writes and an address that is already tracked
    or whose page yields a title and a price, two equal track requests are
    both answered without error, the second one with status 200 and without
    any change of the store, and the store then holds exactly one
    subscription row of that subscriber to that product. *)
Theorem tracking_twice_subscribes_once env1 env2 d u e :
  schema d ->
  (forall rows, commit_error env1 rows = None) ->
  In u (map Product.url (products d)) \/
  (exists t p, extracts env1 u t p /\ t <> "N/A" /\ Py.eq p Py.zero = false) ->
  exists m1 c1 w1 w2 P,
    POST_track env1 (request u e) d = (Ret (m1, c1), w1) /\
    (c1 = 200 \/ c1 = 201) /\
    POST_track env2 (request u e) (store w1) =
      (Ret ("You are already tracking this product.", 200), w2) /\
    store w2 = store w1 /\
    product_by_url (store w2) u = Some P /\
    List.length (filter (subscribes e (Product.id P)) (subscriptions (store w2))) = 1%nat.
Proof.
  intros Hschema Hc Hok.
  destruct (product_by_url d u) as [P|] eqn:HP.
  - destruct (subscription_of d e (Product.id P)) as [s|] eqn:Hs.
    + eexists _, _, _, _, P.
      rewrite (track_known_tracked env1 d u e P s HP Hs).
      split; [reflexivity|]. split; [now left|]. cbn [store fresh].
      rewrite (track_known_tracked env2 d u e P s HP Hs).
      split; [reflexivity|]. split; [reflexivity|]. split; [exact HP|].
      destruct Hschema as (_ & _ & _ & Hu & _).
      exact (unique_subscription _ _ _ _ Hu Hs).
    + destruct (subscription_of_inserted d e (Product.id P) Hs) as [Hs' Hone].
      eexists _, _, _, _, P.
      rewrite (track_known_new env1 d u e P HP Hs). cbv zeta. rewrite Hc.
      split; [reflexivity|]. split; [now right|]. cbn [store].
      rewrite (track_known_tracked env2
                 (insert_subscription (new_subscription d e (Product.id P)) d)
                 u e P _ HP Hs').
      split; [reflexivity|]. split; [reflexivity|]. split; [exact HP|exact Hone].
  - destruct Hok as [Hin|(t & p & Hx & Ht & Hp)].
    { exfalso. apply in_map_iff in Hin. destruct Hin as (Q & HQ & Hin).
      pose proof (find_none _ _ HP Q Hin) as F. cbv beta in F.
      rewrite HQ, String.eqb_refl in F. discriminate. }
    destruct (extracts_writes _ _ _ _ Hx) as (tr & Hw & _).
    assert (Htest : String.eqb t "N/A" || Py.eq p Py.zero = false).
    { rewrite Hp. apply String.eqb_neq in Ht. now rewrite Ht. }
    pose proof (no_subscription_of_new_product d u t p e Hschema) as Hnone.
    set (P := new_product d u t p) in *. set (d1 := insert_product P d) in *.
    destruct (subscription_of_inserted d1 e (Product.id P) Hnone) as [Hs' Hone].
    assert (HP' : product_by_url (insert_subscription (new_subscription d1 e (Product.id P)) d1) u
                  = Some P).
    { unfold product_by_url in *. cbn [products insert_subscription insert_product d1].
      rewrite find_app_first, HP. cbn [List.find Product.url P new_product].
      now rewrite String.eqb_refl. }
    eexists _, _, _, _, P.
    rewrite (track_unknown_accepted env1 d u e t p tr HP Hw Htest). cbv zeta.
    fold P. fold d1. rewrite (Hc d1), Hnone, Hc.
    split; [reflexivity|]. split; [now right|]. cbn [store].
    rewrite (track_known_tracked env2 _ u e P _ HP' Hs').
    split; [reflexivity|]. split; [reflexivity|]. split; [exact HP'|exact Hone].
Qed.

(** A desk not tracked so far, requested twice by the same subscriber. *)
Lemma tracking_twice_subscribes_once_witness :
  exists m1 c1 w1 w2 P,
    POST_track (Sample.serving (Sample.page "Desk" "120" "00"))
               (request "https://shop.example/desk" "ann@example.org") Sample.shop
    = (Ret (m1, c1), w1) /\
    (c1 = 200 \/ c1 = 201) /\
    POST_track (Sample.serving [])
               (request "https://shop.example/desk" "ann@example.org") (store w1)
    = (Ret ("You are already tracking this product.", 200), w2) /\
    store w2 = store w1 /\
    product_by_url (store w2) "https://shop.example/desk" = Some P /\
    List.length (filter (subscribes "ann@example.org" (Product.id P))
                        (subscriptions (store w2))) = 1%nat.
Proof.
  apply (tracking_twice_subscribes_once
           (Sample.serving (Sample.page "Desk" "120" "00")) (Sample.serving [])
           Sample.shop "https://shop.example/desk" "ann@example.org").
  - unfold schema. simpl. repeat split.
    + constructor; [simpl; tauto|constructor].
    + constructor; [simpl; tauto|constructor].
    + constructor; [simpl; intros [H|H]; [discriminate H|exact H]|].
      constructor; [simpl; tauto|constructor].
    + constructor; [simpl; intros [H|H]; [discriminate H|exact H]|].
      constructor; [simpl; tauto|constructor].
    + intros s [<-|[<-|[]]]; simpl; left; reflexivity.
  - intros rows. reflexivity.
  - right. exists "Desk", (Py.of_decimal false 12000 (-2)). split; [|split].
    + intros w. reflexivity.
    + discriminate.
    + reflexivity.
Defined.

(** ** The prices that get stored *)

Lemma silent_no_set_price pid p (tr : list event) :
  silent pid tr -> ~ In (SetPrice pid p) tr.
Proof.
  unfold silent. intros H Hin. rewrite forallb_forall in H.
  specialize (H _ Hin). cbn [about] in H. rewrite Z.eqb_refl in H. discriminate.
Qed.

Lemma notifier_no_set_price pid p (tr : list event) :
  forallb notifier_event tr = true -> ~ In (SetPrice pid p) tr.
Proof.
  intros H Hin. rewrite forallb_forall in H. specialize (H _ Hin). discriminate.
Qed.

Lemma priced_repriced pid p d :
  Py.lt Py.zero p = true -> priced d -> priced (repriced pid p d).
Proof.
  intros Hp Hd Q HQ. unfold repriced in HQ. cbn [products] in HQ.
  apply in_map_iff in HQ. destruct HQ as (q & <- & Hq).
  destruct (Product.id q =? pid).
  - cbn [with_price Product.price]. now apply PyFacts.pos_not_eq_zero.
  - now apply Hd.
Qed.

Section Prices.
Variable env : Env.

Lemma sound_extend w tr :
  forallb is_print tr = true -> sound w -> sound (extend w tr).
Proof.
  intros Hp (H1 & H2 & H3). repeat split; try assumption.
  intros pid p Hin. cbn [trace extend] in Hin. apply in_app_or in Hin.
  destruct Hin as [Hin|Hin]; [now apply (H3 pid)|].
  rewrite forallb_forall in Hp. specialize (Hp _ Hin). discriminate.
Qed.

Lemma check_product_sound product w r w' :
  sound w -> check_product env product w = (r, w') -> sound w'.
Proof.
  intros (H1 & H2 & H3) Hrun.
  destruct (extraction_cases env (Product.url product)) as [(t & p & Hx)|(x & R)];
    [|rewrite (check_product_rejected env product x R) in Hrun;
      inversion Hrun; subst; apply sound_extend; [reflexivity|now repeat split]].
  destruct (price_drop p product) eqn:Hd.
  - destruct (check_product_drop env product t p Hx Hd w)
      as (pre & mid & Hrun' & Hpre & _ & _ & Hmid & _).
    rewrite Hrun' in Hrun. cbv zeta in Hrun.
    assert (Hpos : Py.lt Py.zero p = true).
    { unfold price_drop in Hd. apply andb_true_iff in Hd. tauto. }
    assert (Htr : forall b rest pid q,
               forallb is_print rest = true ->
               In (SetPrice pid q)
                  (trace w ++ pre ++ mid
                   ++ SetPrice (Product.id product) p :: Commit b :: rest) ->
               Py.lt Py.zero q = true).
    { intros b rest pid q Hrest Hin.
      apply in_app_or in Hin. destruct Hin as [Hin|Hin]; [now apply (H3 pid)|].
      apply in_app_or in Hin. destruct Hin as [Hin|Hin];
        [exfalso; exact (silent_no_set_price _ _ _ (Hpre pid) Hin)|].
      apply in_app_or in Hin. destruct Hin as [Hin|Hin];
        [exfalso; exact (notifier_no_set_price _ _ _ Hmid Hin)|].
      destruct Hin as [Hin|[Hin|Hin]].
      - inversion Hin; subst. exact Hpos.
      - discriminate Hin.
      - rewrite forallb_forall in Hrest. specialize (Hrest _ Hin). discriminate. }
    destruct (commit_error env _); inversion Hrun; subst; clear Hrun;
      unfold sound; cbn [store session trace].
    + split; [assumption|]. split; [now apply priced_repriced|].
      intros pid q. now apply Htr.
    + split; [now apply priced_repriced|]. split; [now apply priced_repriced|].
      intros pid q. now apply Htr.
  - destruct (check_product_no_drop env product t p Hx Hd) as (tr & Hw & Hp).
    rewrite Hw in Hrun. inversion Hrun; subst.
    apply sound_extend; [exact Hp|]. now repeat split.
Qed.

Lemma loop_sound (ps : list Product.t) w r w' :
  sound w -> for_each ps (check_product env) w = (r, w') -> sound w'.
Proof.
  revert w. induction ps as [|Q ps IH]; intros w Hs Hrun.
  - inversion Hrun; subst. exact Hs.
  - cbn [for_each] in Hrun. unfold bind in Hrun.
    destruct (check_product env Q w) as [[[]|x] w1] eqn:Hq.
    + apply (IH w1); [|exact Hrun]. exact (check_product_sound Q w _ _ Hs Hq).
    + inversion Hrun; subst. exact (check_product_sound Q w _ _ Hs Hq).
Qed.

Lemma job_sound d r w :
  priced d -> job env d = (r, w) ->
  priced (store w) /\
  (forall pid p, In (SetPrice pid p) (trace w) -> Py.lt Py.zero p = true).
Proof.
  intros Hd Hjob.
  assert (Hstart : sound (extend (fresh d) [Print "Hourly price check started."])).
  { apply sound_extend; [reflexivity|]. repeat split; try assumption.
    intros pid p []. }
  destruct (products d) as [|P ps] eqn:E.
  - unfold job, check_prices in Hjob.
    rewrite (bind_writes _ _ _ _ _ (writes_print _)) in Hjob.
    unfold Product_query_all in Hjob. rewrite bind_query in Hjob.
    cbn [session extend fresh] in Hjob. rewrite E in Hjob.
    rewrite (writes_print _ _) in Hjob. inversion Hjob; subst.
    assert (Hend : sound (extend (extend (fresh d) [Print "Hourly price check started."])
                                 [Print "No products found in the database."]))
      by (apply sound_extend; [reflexivity|exact Hstart]).
    destruct Hend as (H1 & _ & H3). split; assumption.
  - assert (Hne : products d <> []) by (rewrite E; discriminate).
    rewrite (job_run env d Hne) in Hjob.
    destruct (for_each (products d) (check_product env) _) as [[[]|x] w1] eqn:Hloop.
    + inversion Hjob; subst.
      assert (Hend : sound (extend w1 [Print "Price check completed."]))
        by (apply sound_extend; [reflexivity|exact (loop_sound _ _ _ _ Hstart Hloop)]).
      destruct Hend as (H1 & _ & H3). split; assumption.
    + inversion Hjob; subst.
      destruct (loop_sound _ _ _ _ Hstart Hloop) as (H1 & _ & H3). split; assumption.
Qed.

End Prices.

(** The products that a track request leaves in the store: those it found,
    and possibly one more, whose price is not [0.0]. *)
Lemma track_products env data d r w :
  POST_track env data d = (r, w) ->
  products (store w) = products d \/
  exists u t p,
    products (store w) = (products d ++ [new_product d u t p])%list /\
    Py.eq p Py.zero = false.
Proof.
  intros Hrun.
  destruct (track_reduces env data d r w Hrun) as [(u & e & Hreq)|[(Hst & _)|(Hst & _)]];
    [clear Hrun; rename Hreq into Hrun|rewrite Hst; now left..].
  destruct (product_by_url d u) as [P|] eqn:HP.
  - destruct (subscription_of d e (Product.id P)) as [s|] eqn:Hs.
    + rewrite (track_known_tracked env d u e P s HP Hs) in Hrun.
      inversion Hrun; subst. now left.
    + rewrite (track_known_new env d u e P HP Hs) in Hrun. cbv zeta in Hrun.
      destruct (commit_error env _); inversion Hrun; subst; now left.
  - destruct (extraction_cases env u) as [(t & p & Hx)|(x & R)];
      [|rewrite (track_unknown_fails env d u e x HP R) in Hrun;
        inversion Hrun; subst; now left].
    destruct (extracts_writes _ _ _ _ Hx) as (tr & Hw & Hp).
    destruct (String.eqb t "N/A" || Py.eq p Py.zero) eqn:Ht.
    + rewrite (track_unknown_rejected env d u e t p tr HP Hw Ht) in Hrun.
      inversion Hrun; subst. now left.
    + rewrite (track_unknown_accepted env d u e t p tr HP Hw Ht) in Hrun.
      cbv zeta in Hrun. apply orb_false_iff in Ht. destruct Ht as [_ Hz].
      destruct (commit_error env (insert_product _ d));
        [inversion Hrun; subst; now left|].
      destruct (subscription_of _ _ _); [inversion Hrun; subst; now left|].
      destruct (commit_error env _); inversion Hrun; subst; [now left|].
      right. exists u, t, p. split; [reflexivity|exact Hz].
Qed.

Lemma track_priced env data d r w :
  priced d -> POST_track env data d = (r, w) -> priced (store w).
Proof.
  intros Hd Hrun Q HQ.
  destruct (track_products env data d r w Hrun) as [E|(u & t & p & E & Hz)];
    rewrite E in HQ.
  - now apply Hd.
  - apply in_app_or in HQ. destruct HQ as [HQ|[<-|[]]]; [now apply Hd|exact Hz].
Qed.

(** C9, as the code has it: no product row that the application ever
    stores has a price equal to [0.0], and a sweep sets a price only to a
    strictly positive one. *)
Theorem stored_prices_are_not_zero d :
  reachable d ->
  priced d /\
  (forall env r w pid p,
      job env d = (r, w) -> In (SetPrice pid p) (trace w) -> Py.lt Py.zero p = true).
Proof.
  intros Hr.
  assert (Hp : priced d).
  { induction Hr as [|env data d r w Hr IH Hrun|env d r w Hr IH Hrun].
    - intros Q [].
    - exact (track_priced env data d r w IH Hrun).
    - exact (proj1 (job_sound env d r w IH Hrun)). }
  split; [exact Hp|].
  intros env r w pid p Hjob. exact (proj2 (job_sound env d r w Hp Hjob) pid p).
Qed.

(** A page that shows the whole part ["-5"]: the text ["-5.00"] parses to
    [-5.0], which is not [0.0], and the product is stored at that price. *)
Example negative_price_is_stored :
  let run := POST_track (Sample.serving (Sample.page "Lamp" "-5" "00"))
                        (request "https://shop.example/lamp" "ann@example.org")
                        {| products := []; subscriptions := [] |} in
  fst run = Ret ("Success! Tracking has been set up for " ++ dquote ++ "Lamp..." ++ dquote, 201) /\
  products (store (snd run)) =
    [Product.mk 1 "https://shop.example/lamp" "Lamp" (Py.of_decimal true 500 (-2))] /\
  Py.of_decimal true 500 (-2) = S754_finite true 5629499534213120 (-50) /\
  Py.lt Py.zero (Py.of_decimal true 500 (-2)) = false.
Proof. repeat split. Qed.

(** C9 as stated fails: a stored price need not be strictly positive. *)
Lemma stored_price_need_not_be_positive :
  ~ (forall d, reachable d ->
               forall product, In product (products d) ->
                               Py.lt Py.zero (Product.price product) = true).
Proof.
  intros H.
  pose (run := POST_track (Sample.serving (Sample.page "Lamp" "-5" "00"))
                          (request "https://shop.example/lamp" "ann@example.org")
                          {| products := []; subscriptions := [] |}).
  assert (Hr : reachable (store (snd run))).
  { apply (reachable_track (Sample.serving (Sample.page "Lamp" "-5" "00"))
                           (request "https://shop.example/lamp" "ann@example.org")
                           {| products := []; subscriptions := [] |} (fst run) (snd run)).
    - exact reachable_empty.
    - apply surjective_pairing. }
  specialize (H _ Hr (Product.mk 1 "https://shop.example/lamp" "Lamp"
                                 (Py.of_decimal true 500 (-2)))).
  assert (F : false = true) by (apply H; vm_compute; left; reflexivity).
  discriminate F.
Qed.

Lemma stored_prices_are_not_zero_witness :
  let run := POST_track (Sample.serving (Sample.page "Lamp" "-5" "00"))
                        (request "https://shop.example/lamp" "ann@example.org")
                        {| products := []; subscriptions := [] |} in
  priced (store (snd run)) /\
  (forall env r w pid p,
      job env (store (snd run)) = (r, w) ->
      In (SetPrice pid p) (trace w) -> Py.lt Py.zero p = true).
Proof.
  intros run.
  apply (stored_prices_are_not_zero (store (snd run))).
  apply (reachable_track (Sample.serving (Sample.page "Lamp" "-5" "00"))
                         (request "https://shop.example/lamp" "ann@example.org")
                         {| products := []; subscriptions := [] |} (fst run) (snd run)).
  - exact reachable_empty.
  - apply surjective_pairing.
Defined.

(** ** The schema is kept *)

Lemma NoDup_snoc {A} (l : list A) (x : A) :
  NoDup l -> ~ In x l -> NoDup (l ++ [x]).
Proof.
  induction l as [|a l IH]; simpl; intros Hnd Hx.
  - constructor; [simpl; tauto|constructor].
  - inversion Hnd as [|? ? Ha Hl]; subst. constructor.
    + intros Hin. apply in_app_or in Hin. destruct Hin as [Hin|[->|[]]]; tauto.
    + apply IH; tauto.
Qed.

Lemma keys_and_subs_schema d d' :
  keys_and_subs d = keys_and_subs d' -> schema d -> schema d'.
Proof.
  intros H. destruct (keys_and_subs_eq _ _ H) as (Hi & Hu & Hs).
  unfold schema. now rewrite Hi, Hu, Hs.
Qed.

Lemma job_keys env d r w :
  job env d = (r, w) -> keys_and_subs (store w) = keys_and_subs d.
Proof.
  intros Hjob. destruct (products d) as [|P ps] eqn:E.
  - unfold job, check_prices in Hjob.
    rewrite (bind_writes _ _ _ _ _ (writes_print _)) in Hjob.
    unfold Product_query_all in Hjob. rewrite bind_query in Hjob.
    cbn [session extend fresh] in Hjob. rewrite E in Hjob.
    rewrite (writes_print _ _) in Hjob. now inversion Hjob.
  - assert (Hne : products d <> []) by (rewrite E; discriminate).
    rewrite (job_run env d Hne) in Hjob.
    assert (Hall : forall Q, In Q (products d) ->
                     leaves_alone env (next_id (map Product.id (products d))) Q).
    { intros Q HQ. left. intros F.
      apply (next_id_fresh (map Product.id (products d))). rewrite <- F.
      now apply in_map. }
    destruct (for_each (products d) (check_product env) _) as [[[]|x] w1] eqn:Hloop;
      inversion Hjob; subst;
      destruct (loop_frame env _ _ Hall _ _ _ Hloop) as (_ & _ & _ & _ & Hk);
      exact (Hk eq_refl).
Qed.

Lemma product_by_url_in d u P :
  product_by_url d u = Some P -> In P (products d) /\ Product.url P = u.
Proof.
  intros H. apply find_some in H. destruct H as [Hin Hu].
  apply String.eqb_eq in Hu. now split.
Qed.

Lemma product_by_url_none d u :
  product_by_url d u = None -> ~ In u (map Product.url (products d)).
Proof.
  intros H Hin. apply in_map_iff in Hin. destruct Hin as (Q & HQ & Hin).
  pose proof (find_none _ _ H Q Hin) as F. cbv beta in F.
  rewrite HQ, String.eqb_refl in F. discriminate.
Qed.

Lemma subscription_of_none d e pid :
  subscription_of d e pid = None ->
  ~ In (e, pid) (map (fun s => (Subscription.user_email s, Subscription.product_id s))
                     (subscriptions d)).
Proof.
  intros H Hin. apply in_map_iff in Hin. destruct Hin as (s & Hs & Hin).
  pose proof (find_none _ _ H s Hin) as F. cbv beta in F.
  apply subscribes_iff in Hs. congruence.
Qed.

Lemma schema_insert_product d u t p :
  schema d -> product_by_url d u = None ->
  schema (insert_product (new_product d u t p) d).
Proof.
  intros (H1 & H2 & H3 & H4 & H5) Hu. unfold schema.
  cbn [products subscriptions insert_product]. rewrite !map_app.
  cbn [map Product.id Product.url new_product]. repeat split; try assumption.
  - apply NoDup_snoc; [assumption|apply next_id_fresh].
  - apply NoDup_snoc; [assumption|now apply product_by_url_none].
  - intros s Hs. apply in_or_app. left. now apply H5.
Qed.

Lemma schema_insert_subscription d e pid :
  schema d -> In pid (map Product.id (products d)) ->
  subscription_of d e pid = None ->
  schema (insert_subscription (new_subscription d e pid) d).
Proof.
  intros (H1 & H2 & H3 & H4 & H5) Hp Hs. unfold schema.
  cbn [products subscriptions insert_subscription]. rewrite !map_app.
  cbn [map Subscription.id Subscription.user_email Subscription.product_id
       new_subscription].
  repeat split; try assumption.
  - apply NoDup_snoc; [assumption|apply next_id_fresh].
  - apply NoDup_snoc; [assumption|now apply subscription_of_none].
  - intros s Hin. apply in_app_or in Hin. destruct Hin as [Hin|[<-|[]]];
      [now apply H5|exact Hp].
Qed.

(** The store after a track request: as before, or with one subscription
    row more, for a product that was there or that the request created. *)
Lemma track_store env data d r w :
  POST_track env data d = (r, w) ->
  store w = d \/
  (exists u e P,
      product_by_url d u = Some P /\ subscription_of d e (Product.id P) = None /\
      store w = insert_subscription (new_subscription d e (Product.id P)) d) \/
  (exists u e t p,
      product_by_url d u = None /\
      subscription_of (insert_product (new_product d u t p) d) e
                      (Product.id (new_product d u t p)) = None /\
      store w = insert_subscription
                  (new_subscription (insert_product (new_product d u t p) d) e
                                    (Product.id (new_product d u t p)))
                  (insert_product (new_product d u t p) d)).
Proof.
  intros Hrun.
  destruct (track_reduces env data d r w Hrun) as [(u & e & Hreq)|[(Hst & _)|(Hst & _)]];
    [clear Hrun; rename Hreq into Hrun|now left..].
  destruct (product_by_url d u) as [P|] eqn:HP.
  - destruct (subscription_of d e (Product.id P)) as [s|] eqn:Hs.
    + rewrite (track_known_tracked env d u e P s HP Hs) in Hrun.
      inversion Hrun; subst. now left.
    + rewrite (track_known_new env d u e P HP Hs) in Hrun. cbv zeta in Hrun.
      destruct (commit_error env _); inversion Hrun; subst; [now left|].
      right. left. now exists u, e, P.
  - destruct (extraction_cases env u) as [(t & p & Hx)|(x & R)];
      [|rewrite (track_unknown_fails env d u e x HP R) in Hrun;
        inversion Hrun; subst; now left].
    destruct (extracts_writes _ _ _ _ Hx) as (tr & Hw & Hp).
    destruct (String.eqb t "N/A" || Py.eq p Py.zero) eqn:Ht.
    + rewrite (track_unknown_rejected env d u e t p tr HP Hw Ht) in Hrun.
      inversion Hrun; subst. now left.
    + rewrite (track_unknown_accepted env d u e t p tr HP Hw Ht) in Hrun.
      cbv zeta in Hrun.
      destruct (commit_error env (insert_product _ d));
        [inversion Hrun; subst; now left|].
      destruct (subscription_of _ _ _) eqn:Hs; [inversion Hrun; subst; now left|].
      destruct (commit_error env _); inversion Hrun; subst; [now left|].
      right. right. now exists u, e, t, p.
Qed.

Lemma track_schema env data d r w :
  schema d -> POST_track env data d = (r, w) -> schema (store w).
Proof.
  intros Hd Hrun.
  destruct (track_store env data d r w Hrun)
    as [->|[(u & e & P & HP & Hs & ->)|(u & e & t & p & HP & Hs & ->)]].
  - exact Hd.
  - apply schema_insert_subscription; try assumption.
    apply in_map. now apply (product_by_url_in d u).
  - apply schema_insert_subscription; try assumption.
    + now apply schema_insert_product.
    + cbn [products insert_product]. rewrite map_app. apply in_or_app.
      right. left. reflexivity.
Qed.

(** Every store that the application brings about satisfies the schema. *)
Lemma reachable_schema d : reachable d -> schema d.
Proof.
  induction 1 as [|env data d r w Hr IH Hrun|env d r w Hr IH Hrun].
  - unfold schema. simpl. repeat split; try constructor. intros s [].
  - exact (track_schema env data d r w IH Hrun).
  - apply (keys_and_subs_schema d); [|exact IH].
    symmetry. exact (job_keys env d r w Hrun).
Qed.

(** * Further properties *)

(** ** The extractor as a function of the environment *)

Lemma details_writes env u :
  rejection env u = None ->
  exists tr,
    writes (get_product_details env u) (details env u) tr /\
    forallb is_print tr = true.
Proof.
  unfold rejection, details. destruct (web env u) as [e|r|r e] eqn:H.
  - intros _.
    eexists. split; [apply (get_product_details_unreachable _ _ _ H)|reflexivity].
  - intros _. destruct (error_status r) eqn:E.
    + eexists. split; [apply (get_product_details_http_error _ _ _ H E)|reflexivity].
    + eexists. split; [apply (get_product_details_fetched _ _ _ H E)|reflexivity].
  - destruct (error_status r) eqn:E; [intros _|discriminate].
    eexists.
    split; [apply (get_product_details_http_error_malformed _ _ _ _ H E)|reflexivity].
Qed.

Lemma details_extracts env u :
  rejection env u = None ->
  extracts env u (fst (details env u)) (snd (details env u)).
Proof.
  intros R. destruct (details_writes env u R) as (tr & Hw & _).
  rewrite (surjective_pairing (details env u)) in Hw.
  exact (writes_extracts _ _ _ _ _ Hw).
Qed.

Lemma extracts_details env u t p : extracts env u t p -> details env u = (t, p).
Proof.
  intros H.
  destruct (extracts_fun _ _ _ _ _ _ H
              (details_extracts env u (extracts_accepted env u t p H))) as [-> ->].
  apply surjective_pairing.
Qed.

(** Where the extractor raises, [details] shows the sentinels. *)
Lemma rejection_details env u x :
  rejection env u = Some x -> details env u = ("N/A", Py.zero).
Proof.
  unfold rejection, details. destruct (web env u); try discriminate. reflexivity.
Qed.

(** X1: whatever the environment and the address, the extractor changes no
    row and only prints, and it ends in one of two ways.  When the response
    has no error status and the parser rejects its body, the parser's
    [ParserRejectedMarkup] leaves the extractor, after the first printed
    line.  In every other case it returns: [("N/A", 0.0)] when the fetch
    fails or the status is an error status, and otherwise the text of the
    title tag (or ["N/A"]) with the parsed price (or [0.0]). *)
Theorem extractor_returns_or_parser_rejects env u w :
  exists tr,
    forallb is_print tr = true /\
    store (extend w tr) = store w /\ session (extend w tr) = session w /\
    match web env u with
    | ConnectionFailed _ =>
        get_product_details env u w = (Ret ("N/A", Py.zero), extend w tr)
    | Fetched r =>
        get_product_details env u w =
        (Ret (if error_status r then ("N/A", Py.zero)
              else (title_of (content r), price_of (content r))),
         extend w tr)
    | Malformed r x =>
        get_product_details env u w =
        (if error_status r then Ret ("N/A", Py.zero)
         else Raise (ParserRejectedMarkup x),
         extend w tr) /\
        (error_status r = false ->
         tr = [Print ("Checking URL: " ++ Py.prefix 50 u ++ "...")])
    end.
Proof.
  destruct (web env u) as [e|r|r x] eqn:H.
  - eexists. split; [|split; [reflexivity|split; [reflexivity|]]];
      [|apply (get_product_details_unreachable _ _ _ H)]. reflexivity.
  - destruct (error_status r) eqn:E.
    + eexists. split; [|split; [reflexivity|split; [reflexivity|]]];
        [|apply (get_product_details_http_error _ _ _ H E)]. reflexivity.
    + eexists. split; [|split; [reflexivity|split; [reflexivity|]]];
        [|apply (get_product_details_fetched _ _ _ H E)]. reflexivity.
  - destruct (error_status r) eqn:E.
    + eexists. split; [|split; [reflexivity|split; [reflexivity|split]]];
        [|apply (get_product_details_http_error_malformed _ _ _ _ H E)|discriminate].
      reflexivity.
    + eexists. split; [|split; [reflexivity|split; [reflexivity|split]]];
        [|apply (get_product_details_rejected _ _ _ _ H E)|reflexivity].
      reflexivity.
Qed.

(** ** What a sweep makes of the store *)

Lemma lt_irrefl (x : Py.float) : Py.lt x x = false.
Proof.
  unfold Py.lt, SFltb.
  destruct x as [[]|[]| |[] m e]; simpl; try reflexivity;
    rewrite Z.compare_refl, Pos.compare_cont_refl; reflexivity.
Qed.

Lemma lowered_id env P : Product.id (lowered env P) = Product.id P.
Proof. unfold lowered. destruct (price_drop _ P); reflexivity. Qed.

Lemma lowered_url env P : Product.url (lowered env P) = Product.url P.
Proof. unfold lowered. destruct (price_drop _ P); reflexivity. Qed.

Lemma lowered_title env P : Product.title (lowered env P) = Product.title P.
Proof. unfold lowered. destruct (price_drop _ P); reflexivity. Qed.

(** A row that had its turn does not drop again on the same page. *)
Lemma lowered_no_drop env P :
  price_drop (snd (details env (Product.url (lowered env P)))) (lowered env P) = false.
Proof.
  rewrite lowered_url. unfold lowered.
  destruct (price_drop (snd (details env (Product.url P))) P) eqn:E; [|exact E].
  unfold price_drop. cbn [with_price Product.price].
  rewrite lt_irrefl. apply andb_false_r.
Qed.

Lemma repriced_at (A ps : list Product.t) (Q : Product.t) p :
  NoDup (map Product.id (A ++ Q :: ps)) ->
  map (fun q => if Product.id q =? Product.id Q then with_price q p else q)
      (A ++ Q :: ps)
  = (A ++ with_price Q p :: ps)%list.
Proof.
  intros Hnd. rewrite map_app in Hnd. cbn [map] in Hnd.
  apply NoDup_remove_2 in Hnd.
  assert (Hid : forall l, (forall q, In q l -> Product.id q <> Product.id Q) ->
                          map (fun q => if Product.id q =? Product.id Q
                                        then with_price q p else q) l = l).
  { induction l as [|q l IH]; intros H; [reflexivity|]. cbn [map].
    rewrite IH by (intros q' Hq'; apply H; now right).
    assert (E : Product.id q <> Product.id Q) by (apply H; now left).
    apply Z.eqb_neq in E. now rewrite E. }
  rewrite map_app. cbn [map]. rewrite Z.eqb_refl. rewrite !Hid; [reflexivity| |].
  - intros q Hq E. apply Hnd. apply in_or_app. right. rewrite <- E. now apply in_map.
  - intros q Hq E. apply Hnd. apply in_or_app. left. rewrite <- E. now apply in_map.
Qed.

Section SweepResult.
Variable env : Env.

(** The loop over the products [ps] that follow the rows [A] already
    visited: it lowers an initial segment of [ps], all of it when it
    returns. *)
Lemma loop_lowers (ps : list Product.t) :
  forall A w r w',
    NoDup (map Product.id (A ++ ps)) ->
    session w = store w ->
    products (store w) = (A ++ ps)%list ->
    for_each ps (check_product env) w = (r, w') ->
    exists done rest,
      ps = (done ++ rest)%list /\
      products (store w') = (A ++ map (lowered env) done ++ rest)%list /\
      subscriptions (store w') = subscriptions (store w) /\
      (r = Ret tt -> rest = [] /\ session w' = store w') /\
      (forall Q, In Q done -> rejection env (Product.url Q) = None).
Proof.
  induction ps as [|Q ps IH]; intros A w r w' Hnd Hs Hp Hrun.
  - inversion Hrun; subst. exists [], []. repeat split; auto. intros Q [].
  - cbn [for_each] in Hrun. unfold bind in Hrun.
    destruct (rejection env (Product.url Q)) as [x|] eqn:R.
    { rewrite (check_product_rejected env Q x R) in Hrun. inversion Hrun; subst.
      exists [], (Q :: ps). cbn [store extend].
      repeat split; auto; try discriminate. intros Q' []. }
    pose proof (details_extracts env (Product.url Q) R) as Hx.
    destruct (price_drop (snd (details env (Product.url Q))) Q) eqn:Hd.
    + destruct (check_product_drop env Q _ _ Hx Hd w) as (pre & mid & Hq & _).
      cbv zeta in Hq. rewrite Hq in Hrun. clear Hq.
      assert (Hrows : products (repriced (Product.id Q)
                                         (snd (details env (Product.url Q))) (session w))
                      = ((A ++ [lowered env Q]) ++ ps)%list).
      { unfold repriced. cbn [products]. rewrite Hs, Hp.
        rewrite (repriced_at A ps Q _ Hnd). unfold lowered. rewrite Hd.
        now rewrite <- app_assoc. }
      destruct (commit_error env _) as [x|].
      * inversion Hrun; subst. exists [], (Q :: ps). cbn [store].
        repeat split; auto; try discriminate. intros Q' [].
      * assert (Hnd' : NoDup (map Product.id ((A ++ [lowered env Q]) ++ ps))).
        { rewrite <- app_assoc. cbn [app]. rewrite map_app. cbn [map].
          rewrite lowered_id. rewrite map_app in Hnd. exact Hnd. }
        apply (IH (A ++ [lowered env Q])%list) in Hrun;
          [|exact Hnd'|reflexivity|exact Hrows].
        destruct Hrun as (done & rest & -> & Hp' & Hsub & Hret & Hacc).
        exists (Q :: done), rest. cbn [store subscriptions repriced] in Hsub.
        split; [reflexivity|]. split; [rewrite Hp'; rewrite <- app_assoc; reflexivity|].
        split; [rewrite Hsub; now rewrite Hs|]. split; [exact Hret|].
        intros Q' [<-|HQ']; [exact R|now apply Hacc].
    + destruct (check_product_no_drop env Q _ _ Hx Hd) as (tr & Hw & _).
      rewrite Hw in Hrun.
      assert (Hl : lowered env Q = Q) by (unfold lowered; now rewrite Hd).
      assert (Hnd' : NoDup (map Product.id ((A ++ [Q]) ++ ps)))
        by (now rewrite <- app_assoc).
      assert (Hp' : products (store (extend w tr)) = ((A ++ [Q]) ++ ps)%list)
        by (cbn [store extend]; rewrite Hp; now rewrite <- app_assoc).
      destruct (IH (A ++ [Q])%list (extend w tr) r w' Hnd' Hs Hp' Hrun)
        as (done & rest & -> & Hq & Hsub & Hret & Hacc).
      exists (Q :: done), rest. cbn [map]. rewrite Hl.
      split; [reflexivity|]. split; [rewrite Hq; rewrite <- app_assoc; reflexivity|].
      split; [exact Hsub|]. split; [exact Hret|].
      intros Q' [<-|HQ']; [exact R|now apply Hacc].
Qed.

Lemma job_lowers d r w :
  NoDup (map Product.id (products d)) ->
  job env d = (r, w) ->
  exists done rest,
    products d = (done ++ rest)%list /\
    products (store w) = (map (lowered env) done ++ rest)%list /\
    subscriptions (store w) = subscriptions d /\
    (r = Ret tt -> rest = []) /\
    (forall Q, In Q done -> rejection env (Product.url Q) = None).
Proof.
  intros Hnd Hjob. destruct (products d) as [|P ps] eqn:E.
  - unfold job, check_prices in Hjob.
    rewrite (bind_writes _ _ _ _ _ (writes_print _)) in Hjob.
    unfold Product_query_all in Hjob. rewrite bind_query in Hjob.
    cbn [session extend fresh] in Hjob. rewrite E in Hjob.
    rewrite (writes_print _ _) in Hjob. inversion Hjob; subst.
    exists [], []. cbn [store extend fresh]. rewrite E.
    repeat split; try reflexivity. intros Q [].
  - assert (Hne : products d <> []) by (rewrite E; discriminate).
    rewrite (job_run env d Hne) in Hjob. rewrite <- E in *.
    destruct (for_each (products d) (check_product env) _) as [r1 w1] eqn:Hloop.
    apply (loop_lowers (products d) []) in Hloop; [|exact Hnd|reflexivity|reflexivity].
    destruct Hloop as (done & rest & Hsplit & Hp & Hsub & Hret & Hacc).
    exists done, rest. destruct r1 as [[]|x]; inversion Hjob; subst.
    + cbn [store extend]. repeat split; try assumption.
      intros _. now apply Hret.
    + repeat split; try assumption. discriminate.
Qed.

End SweepResult.

(** A loop that returns has read every page through. *)
Lemma loop_returned_accepted env (ps : list Product.t) :
  forall w w', for_each ps (check_product env) w = (Ret tt, w') ->
               forall Q, In Q ps -> rejection env (Product.url Q) = None.
Proof.
  induction ps as [|Q ps IH]; intros w w' Hrun Q' HQ; [destruct HQ|].
  cbn [for_each] in Hrun. unfold bind in Hrun.
  destruct (check_product env Q w) as [[[]|x] w1] eqn:Hq; [|discriminate].
  destruct HQ as [<-|HQ]; [|exact (IH _ _ Hrun Q' HQ)].
  destruct (rejection env (Product.url Q)) as [x|] eqn:R; [|reflexivity].
  rewrite (check_product_rejected env Q x R) in Hq. discriminate.
Qed.

Lemma job_returned_accepted env d w :
  job env d = (Ret tt, w) ->
  forall Q, In Q (products d) -> rejection env (Product.url Q) = None.
Proof.
  intros Hjob Q HQ.
  assert (Hne : products d <> []) by (intros E; rewrite E in HQ; exact HQ).
  rewrite (job_run env d Hne) in Hjob.
  destruct (for_each (products d) (check_product env) _) as [[[]|x] w1] eqn:Hloop;
    [|discriminate].
  exact (loop_returned_accepted env _ _ _ Hloop Q HQ).
Qed.

Lemma job_returns env d :
  (forall rows, commit_error env rows = None) ->
  (forall Q, In Q (products d) -> rejection env (Product.url Q) = None) ->
  exists w, job env d = (Ret tt, w).
Proof.
  intros Hc HR. destruct (products d) as [|P ps] eqn:E.
  - unfold job, check_prices.
    rewrite (bind_writes _ _ _ _ _ (writes_print _)).
    unfold Product_query_all. rewrite bind_query.
    cbn [session extend fresh]. rewrite E. rewrite (writes_print _ _).
    eexists. reflexivity.
  - assert (Hne : products d <> []) by (rewrite E; discriminate).
    rewrite (job_run env d Hne).
    rewrite <- E in HR.
    destruct (loop_returns env (products d) Hc HR
                (extend (fresh d) [Print "Hourly price check started."])) as [w Hw].
    rewrite Hw. eexists. reflexivity.
Qed.

(** A loop over products none of which drops, on pages that the parser
    accepts, only prints. *)
Lemma loop_quiet env (ps : list Product.t) :
  (forall Q, In Q ps -> rejection env (Product.url Q) = None) ->
  (forall Q, In Q ps -> price_drop (snd (details env (Product.url Q))) Q = false) ->
  exists tr,
    writes (for_each ps (check_product env)) tt tr /\ forallb is_print tr = true.
Proof.
  induction ps as [|Q ps IH]; intros HR H.
  - exists []. split; [apply writes_ret|reflexivity].
  - destruct (check_product_no_drop env Q _ _
                (details_extracts env (Product.url Q) (HR Q (or_introl eq_refl)))
                (H Q (or_introl eq_refl))) as (t1 & Hw1 & Hp1).
    destruct (IH (fun Q' HQ' => HR Q' (or_intror HQ'))
                 (fun Q' HQ' => H Q' (or_intror HQ'))) as (t2 & Hw2 & Hp2).
    exists (t1 ++ t2)%list. split.
    + cbn [for_each]. apply (writes_bind _ _ tt tt); assumption.
    + rewrite forallb_app, Hp1, Hp2. reflexivity.
Qed.

Lemma job_quiet env d :
  (forall Q, In Q (products d) -> rejection env (Product.url Q) = None) ->
  (forall Q, In Q (products d) ->
             price_drop (snd (details env (Product.url Q))) Q = false) ->
  exists tr,
    job env d = (Ret tt, extend (fresh d) tr) /\ forallb is_print tr = true.
Proof.
  intros HR H. destruct (products d) as [|P ps] eqn:E.
  - unfold job, check_prices.
    rewrite (bind_writes _ _ _ _ _ (writes_print _)).
    unfold Product_query_all. rewrite bind_query.
    cbn [session extend fresh]. rewrite E. rewrite (writes_print _ _).
    rewrite extend_extend. eexists. split; reflexivity.
  - assert (Hne : products d <> []) by (rewrite E; discriminate).
    rewrite (job_run env d Hne). rewrite <- E in H, HR.
    destruct (loop_quiet env (products d) HR H) as (tr & Hw & Hp).
    rewrite Hw. rewrite !extend_extend. eexists. split; [reflexivity|].
    cbn [forallb is_print app andb]. rewrite forallb_app, Hp. reflexivity.
Qed.

(** The row [P'] is the row [P] after its turn in a sweep: key, address and
    title are the same, the page was read, and the price is the one on the
    page if that is a drop and the one from before otherwise. *)
Lemma lowered_turn env P :
  rejection env (Product.url P) = None ->
  turn env P (lowered env P).
Proof.
  intros R. unfold turn, lowered, price_drop.
  destruct (Py.lt Py.zero (snd (details env (Product.url P)))
            && Py.lt (snd (details env (Product.url P))) (Product.price P));
    repeat split; assumption.
Qed.

(** X2: on rows with distinct keys a sweep, however it ends, leaves the
    store with an initial segment of the products having had their turn:
    each of these rows has its key, address and title, its page was read
    through, and its price is the price on the page where that is a drop
    ([0 < page price < stored price]) and the price from before otherwise.
    The other products and all subscriptions are as they were.  The segment
    is all of the products when the sweep returns, which it does when the
    storage layer accepts the commits and the parser the pages. *)
Theorem sweep_lowers_a_segment env d r w :
  NoDup (map Product.id (products d)) ->
  job env d = (r, w) ->
  (exists done done' rest,
      products d = (done ++ rest)%list /\
      products (store w) = (done' ++ rest)%list /\
      Forall2 (fun P P' =>
                 Product.id P' = Product.id P /\
                 Product.url P' = Product.url P /\
                 Product.title P' = Product.title P /\
                 rejection env (Product.url P) = None /\
                 Product.price P' =
                   if Py.lt Py.zero (snd (details env (Product.url P)))
                      && Py.lt (snd (details env (Product.url P))) (Product.price P)
                   then snd (details env (Product.url P))
                   else Product.price P)
              done done' /\
      (r = Ret tt -> rest = [])) /\
  subscriptions (store w) = subscriptions d /\
  ((forall rows, commit_error env rows = None) ->
   (forall Q, In Q (products d) -> rejection env (Product.url Q) = None) ->
   r = Ret tt).
Proof.
  intros Hnd Hjob.
  destruct (job_lowers env d r w Hnd Hjob)
    as (done & rest & Hsplit & Hp & Hsub & Hret & Hacc).
  split; [|split; [exact Hsub|]].
  - exists done, (map (lowered env) done), rest.
    split; [exact Hsplit|]. split; [exact Hp|]. split; [|exact Hret].
    clear Hsplit Hp. induction done as [|P done IH]; [constructor|].
    cbn [map]. constructor.
    + apply (lowered_turn env P). apply Hacc. now left.
    + apply IH. intros Q HQ. apply Hacc. now right.
  - intros Hc HR. destruct (job_returns env d Hc HR) as [w0 H0].
    rewrite Hjob in H0. now inversion H0.
Qed.

Lemma sweep_lowers_a_segment_witness :
  let env := Sample.serving (Sample.page "Lamp" "45" "00") in
  let run := job env Sample.shop in
  (exists done done' rest,
      products Sample.shop = (done ++ rest)%list /\
      products (store (snd run)) = (done' ++ rest)%list /\
      Forall2 (fun P P' =>
                 Product.id P' = Product.id P /\
                 Product.url P' = Product.url P /\
                 Product.title P' = Product.title P /\
                 rejection env (Product.url P) = None /\
                 Product.price P' =
                   if Py.lt Py.zero (snd (details env (Product.url P)))
                      && Py.lt (snd (details env (Product.url P))) (Product.price P)
                   then snd (details env (Product.url P))
                   else Product.price P)
              done done' /\
      (fst run = Ret tt -> rest = [])) /\
  subscriptions (store (snd run)) = subscriptions Sample.shop /\
  ((forall rows, commit_error env rows = None) ->
   (forall Q, In Q (products Sample.shop) -> rejection env (Product.url Q) = None) ->
   fst run = Ret tt).
Proof.
  intros env run.
  apply (sweep_lowers_a_segment env Sample.shop (fst run) (snd run)).
  - simpl. constructor; [simpl; tauto|constructor].
  - apply surjective_pairing.
Defined.

(** X3: after a sweep that returned, on rows with distinct keys, a second
    sweep over the same pages only prints: it returns, changes no row,
    calls the notifier for nobody and commits nothing. *)
Theorem second_sweep_is_quiet env d w :
  NoDup (map Product.id (products d)) ->
  job env d = (Ret tt, w) ->
  exists tr,
    job env (store w) = (Ret tt, extend (fresh (store w)) tr) /\
    forallb is_print tr = true.
Proof.
  intros Hnd Hjob.
  destruct (job_lowers env d _ w Hnd Hjob) as (done & rest & Hsplit & Hp & _ & Hret & _).
  rewrite (Hret eq_refl), app_nil_r in Hp, Hsplit.
  pose proof (job_returned_accepted env d w Hjob) as HR.
  apply job_quiet.
  - intros Q HQ. rewrite Hp in HQ.
    apply in_map_iff in HQ. destruct HQ as (P & <- & HP).
    rewrite lowered_url. apply HR. rewrite Hsplit. exact HP.
  - intros Q HQ. rewrite Hp in HQ.
    apply in_map_iff in HQ. destruct HQ as (P & <- & _).
    apply lowered_no_drop.
Qed.

Lemma second_sweep_is_quiet_witness :
  let env := Sample.serving (Sample.page "Lamp" "45" "00") in
  let run := job env Sample.shop in
  exists tr,
    job env (store (snd run)) = (Ret tt, extend (fresh (store (snd run))) tr) /\
    forallb is_print tr = true.
Proof.
  intros env run.
  apply (second_sweep_is_quiet env Sample.shop (snd run)).
  - simpl. constructor; [simpl; tauto|constructor].
  - reflexivity.
Defined.

Lemma lowered_price env P :
  Product.price (lowered env P) = Product.price P \/
  (Py.lt Py.zero (Product.price (lowered env P)) = true /\
   Py.lt (Product.price (lowered env P)) (Product.price P) = true).
Proof.
  unfold lowered.
  destruct (price_drop (snd (details env (Product.url P))) P) eqn:E; [|now left].
  right. cbn [with_price Product.price]. unfold price_drop in E.
  now apply andb_true_iff in E.
Qed.

(** X4: on rows with distinct keys a sweep, however it ends, keeps the
    products in their order with their keys, addresses and titles, and
    every stored price is either the one from before or a strictly positive
    and strictly lower one: a sweep never raises a price. *)
Theorem sweep_never_raises_a_price env d r w :
  NoDup (map Product.id (products d)) ->
  job env d = (r, w) ->
  Forall2 (fun P P' =>
             Product.id P' = Product.id P /\
             Product.url P' = Product.url P /\
             Product.title P' = Product.title P /\
             (Product.price P' = Product.price P \/
              (Py.lt Py.zero (Product.price P') = true /\
               Py.lt (Product.price P') (Product.price P) = true)))
          (products d) (products (store w)).
Proof.
  intros Hnd Hjob.
  destruct (job_lowers env d r w Hnd Hjob) as (done & rest & -> & -> & _).
  apply Forall2_app.
  - clear. induction done as [|P done IH]; cbn [map]; constructor; [|exact IH].
    split; [apply lowered_id|]. split; [apply lowered_url|].
    split; [apply lowered_title|apply lowered_price].
  - clear. induction rest as [|P rest IH]; constructor; [|exact IH].
    repeat split. now left.
Qed.

Lemma sweep_never_raises_a_price_witness :
  let run := job (Sample.serving (Sample.page "Lamp" "45" "00")) Sample.shop in
  Forall2 (fun P P' =>
             Product.id P' = Product.id P /\
             Product.url P' = Product.url P /\
             Product.title P' = Product.title P /\
             (Product.price P' = Product.price P \/
              (Py.lt Py.zero (Product.price P') = true /\
               Py.lt (Product.price P') (Product.price P) = true)))
          (products Sample.shop) (products (store (snd run))).
Proof.
  intros run.
  apply (sweep_never_raises_a_price
           (Sample.serving (Sample.page "Lamp" "45" "00")) Sample.shop
           (fst run) (snd run)).
  - simpl. constructor; [simpl; tauto|constructor].
  - apply surjective_pairing.
Defined.

(** ** Who is notified, and when a sweep raises *)

Lemma notified_in a b c (tr : list event) :
  In (Notify a b c) tr -> In (a, b, c) (notified tr).
Proof.
  intros H. unfold notified. apply in_flat_map.
  exists (Notify a b c). split; [exact H|now left].
Qed.

Lemma sent_in m (tr : list event) : In (Sent m) tr -> In m (sent tr).
Proof.
  intros H. unfold sent. apply in_flat_map.
  exists (Sent m). split; [exact H|now left].
Qed.

Lemma log_not_in (tr : list event) e :
  forallb is_log tr = true -> is_log e = false -> ~ In e tr.
Proof.
  intros H He Hin. rewrite forallb_forall in H. rewrite (H _ Hin) in He. discriminate.
Qed.

Lemma prints_log (tr : list event) :
  forallb is_print tr = true -> forallb is_log tr = true.
Proof.
  rewrite !forallb_forall. intros H e He. specialize (H e He).
  destruct e; try discriminate H. reflexivity.
Qed.

Lemma notifier_events_not_in (tr : list event) e :
  forallb notifier_event tr = true -> notifier_event e = false -> ~ In e tr.
Proof.
  intros H He Hin. rewrite forallb_forall in H. rewrite (H _ Hin) in He. discriminate.
Qed.

(** A page that shows a drop is one that the parser accepted. *)
Lemma drop_accepted env product :
  price_drop (snd (details env (Product.url product))) product = true ->
  rejection env (Product.url product) = None.
Proof.
  intros Hd. destruct (rejection env (Product.url product)) as [x|] eqn:R; [|reflexivity].
  rewrite (rejection_details env _ x R) in Hd. discriminate Hd.
Qed.

(** The run of the loop body on a drop, with what each part of its trace
    holds. *)
Lemma check_product_drop_log env product w :
  price_drop (snd (details env (Product.url product))) product = true ->
  exists pre mid,
    check_product env product w =
      (let p := snd (details env (Product.url product)) in
       let rows := repriced (Product.id product) p (session w) in
       match commit_error env rows with
       | None =>
           (Ret tt,
            {| store := rows; session := rows;
               trace := trace w ++ pre ++ mid
                        ++ [SetPrice (Product.id product) p; Commit true;
                            Print "Database updated."] |})
       | Some e =>
           (Raise (SQLAlchemyError e),
            {| store := store w; session := rows;
               trace := trace w ++ pre ++ mid
                        ++ [SetPrice (Product.id product) p; Commit false] |})
       end) /\
    forallb is_log pre = true /\
    forallb notifier_event mid = true /\
    notified mid =
      map (fun s => (Subscription.user_email s, product,
                     snd (details env (Product.url product))))
          (subscriptions_of (session w) product) /\
    sent mid =
      map (fun s => message env (Subscription.user_email s) product
                            (snd (details env (Product.url product))))
          (filter (fun s => deliverable env product
                                        (snd (details env (Product.url product)))
                                        (Subscription.user_email s))
                  (subscriptions_of (session w) product)).
Proof.
  intros Hd. pose proof (drop_accepted env product Hd) as R.
  set (p := snd (details env (Product.url product))) in *.
  destruct (details_writes env (Product.url product) R) as (tr & Hw & Hp).
  rewrite (surjective_pairing (details env (Product.url product))) in Hw. fold p in Hw.
  destruct (notify_all_writes env product p (subscriptions_of (session w) product))
    as (mid & Hm & Hn & Hs & He & _).
  exists ([Print ("Checking: " ++ Py.prefix 30 (Product.title product) ++ "...")]
          ++ tr
          ++ [Print ("PRICE DROP DETECTED! " ++ Py.prefix 30 (Product.title product));
              PrintPrices (Product.price product) p])%list, mid.
  split; [|repeat split; try assumption].
  - unfold check_product.
    rewrite (bind_writes _ _ _ _ _ (writes_print _)).
    rewrite (bind_writes _ _ _ _ _ Hw). cbn [snd]. rewrite Hd.
    rewrite (bind_writes _ _ _ _ _ (writes_print _)).
    rewrite (bind_writes _ _ _ _ _ (writes_emit _)).
    unfold Product_subscriptions. rewrite bind_query.
    rewrite !extend_extend. cbn [session extend].
    rewrite (bind_writes _ _ _ _ _ Hm). rewrite !extend_extend.
    rewrite (bind_returns _ _ _ _ _ (set_price_run _ _ _)).
    unfold bind, commit. cbn [session store trace extend]. cbv zeta.
    destruct (commit_error env (repriced (Product.id product) p (session w))).
    + unfold extend. cbn [session store trace].
      repeat rewrite <- app_assoc. reflexivity.
    + unfold print, emit, extend. cbn [session store trace].
      repeat rewrite <- app_assoc. reflexivity.
  - rewrite !forallb_app, (prints_log tr Hp). reflexivity.
Qed.

Lemma justified_log env d (tr : list event) :
  forallb is_log tr = true -> Forall (justified env d) tr.
Proof.
  intros H. apply Forall_forall. intros e He. rewrite forallb_forall in H.
  specialize (H e He). destruct e; try discriminate H; exact I.
Qed.

Section SweepEvents.
Variable env : Env.
Variable d : DB.

Lemma check_product_events Q w r w' :
  In Q (products d) ->
  subscriptions (session w) = subscriptions d ->
  check_product env Q w = (r, w') ->
  exists tr,
    trace w' = (trace w ++ tr)%list /\
    subscriptions (session w') = subscriptions d /\
    Forall (justified env d) tr /\
    sweep_ends env d r tr.
Proof.
  intros HQ Hsub Hrun.
  destruct (rejection env (Product.url Q)) as [x|] eqn:R.
  { rewrite (check_product_rejected env Q x R) in Hrun. inversion Hrun; subst.
    eexists. cbn [trace session extend]. split; [reflexivity|]. split; [exact Hsub|].
    split; [repeat constructor|].
    right. right.
    exists x, [Print ("Checking: " ++ Py.prefix 30 (Product.title Q) ++ "...")], Q.
    repeat split; try assumption. intros [H|[]]; discriminate H. }
  destruct (price_drop (snd (details env (Product.url Q))) Q) eqn:Hd.
  - destruct (check_product_drop_log env Q w Hd)
      as (pre & mid & Hrun' & Hpre & Hmid & Hn & Hs).
    rewrite Hrun' in Hrun. cbv zeta in Hrun. clear Hrun'.
    assert (Hj : Forall (justified env d) mid).
    { apply Forall_forall. intros e He. destruct e; try exact I.
      - apply notified_in in He. rewrite Hn in He. apply in_map_iff in He.
        destruct He as (s & Es & Hin). inversion Es; subst.
        unfold subscriptions_of in Hin. apply filter_In in Hin.
        destruct Hin as [Hin Hpid]. apply Z.eqb_eq in Hpid. rewrite Hsub in Hin.
        repeat split; try assumption. now exists s.
      - apply sent_in in He. rewrite Hs in He. apply in_map_iff in He.
        destruct He as (s & Es & Hin). apply filter_In in Hin.
        destruct Hin as [Hin Hdel]. unfold subscriptions_of in Hin.
        apply filter_In in Hin. destruct Hin as [Hin Hpid].
        apply Z.eqb_eq in Hpid. rewrite Hsub in Hin.
        unfold deliverable in Hdel. apply andb_true_iff in Hdel.
        destruct Hdel as [Hcred _]. subst m. cbn [message mail_to mail_product
          mail_new_price]. repeat split; try assumption. now exists s. }
    assert (Hnc : forall b, ~ In (Commit b) (pre ++ mid)).
    { intros b Hin. apply in_app_or in Hin. destruct Hin as [Hin|Hin].
      - exact (log_not_in pre (Commit b) Hpre eq_refl Hin).
      - exact (notifier_events_not_in mid (Commit b) Hmid eq_refl Hin). }
    destruct (commit_error env _) as [x|]; inversion Hrun; subst; clear Hrun;
      eexists; cbn [trace session]; (split; [reflexivity|]);
      (split; [exact Hsub|]); split.
    + apply Forall_app. split; [now apply justified_log|].
      apply Forall_app. split; [exact Hj|]. repeat constructor.
    + right. left.
      exists x, (pre ++ mid ++ [SetPrice (Product.id Q)
                                         (snd (details env (Product.url Q)))])%list.
      split; [reflexivity|]. split.
      * repeat rewrite <- app_assoc. reflexivity.
      * rewrite app_assoc. intros Hin. apply in_app_or in Hin.
        destruct Hin as [Hin|[Hin|[]]]; [exact (Hnc false Hin)|discriminate Hin].
    + apply Forall_app. split; [now apply justified_log|].
      apply Forall_app. split; [exact Hj|]. repeat constructor.
    + left. split; [reflexivity|]. rewrite app_assoc. intros Hin.
      apply in_app_or in Hin.
      destruct Hin as [Hin|[Hin|[Hin|[Hin|[]]]]];
        [exact (Hnc false Hin)|discriminate Hin..].
  - destruct (check_product_no_drop env Q _ _
                (details_extracts env (Product.url Q) R) Hd)
      as (tr & Hw & Hp).
    rewrite Hw in Hrun. inversion Hrun; subst. exists tr. cbn [trace session extend].
    split; [reflexivity|]. split; [exact Hsub|].
    split; [apply justified_log, prints_log, Hp|].
    left. split; [reflexivity|]. exact (prints_no_commit tr false Hp).
Qed.

Lemma loop_events (ps : list Product.t) :
  (forall Q, In Q ps -> In Q (products d)) ->
  forall w r w',
    subscriptions (session w) = subscriptions d ->
    for_each ps (check_product env) w = (r, w') ->
    exists tr,
      trace w' = (trace w ++ tr)%list /\
      Forall (justified env d) tr /\
      sweep_ends env d r tr.
Proof.
  induction ps as [|Q ps IH]; intros Hin w r w' Hsub Hrun.
  - inversion Hrun; subst. exists []. split; [now rewrite app_nil_r|].
    split; [constructor|]. left. split; [reflexivity|]. intros [].
  - cbn [for_each] in Hrun. unfold bind in Hrun.
    destruct (check_product env Q w) as [r1 w1] eqn:Hq.
    destruct (check_product_events Q w r1 w1 (Hin Q (or_introl eq_refl)) Hsub Hq)
      as (t1 & E1 & Hsub1 & J1 & O1).
    destruct O1 as [[-> N1]|[(x & t0 & -> & -> & N0)|(x & t0 & Q0 & -> & HQ0 & R0 & -> & N0)]].
    + destruct (IH (fun Q' H => Hin Q' (or_intror H)) w1 r w' Hsub1 Hrun)
        as (t2 & E2 & J2 & O2).
      exists (t1 ++ t2)%list. split; [now rewrite E2, E1, app_assoc|].
      split; [apply Forall_app; now split|].
      destruct O2 as [[-> N2]|[(x & t0 & -> & -> & N0)|(x & t0 & Q0 & -> & HQ0 & R0 & -> & N0)]].
      * left. split; [reflexivity|]. intros H. apply in_app_or in H. tauto.
      * right. left. exists x, (t1 ++ t0)%list. split; [reflexivity|].
        split; [now rewrite app_assoc|]. intros H. apply in_app_or in H. tauto.
      * right. right. exists x, (t1 ++ t0)%list, Q0. split; [reflexivity|].
        split; [exact HQ0|]. split; [exact R0|].
        split; [now rewrite app_assoc|]. intros H. apply in_app_or in H. tauto.
    + inversion Hrun; subst. exists (t0 ++ [Commit false])%list.
      split; [exact E1|]. split; [exact J1|].
      right. left. now exists x, t0.
    + inversion Hrun; subst. eexists.
      split; [exact E1|]. split; [exact J1|].
      right. right. now exists x, t0, Q0.
Qed.

Lemma job_events r w :
  job env d = (r, w) ->
  Forall (justified env d) (trace w) /\ sweep_ends env d r (trace w).
Proof.
  intros Hjob. destruct (products d) as [|P ps] eqn:E.
  - unfold job, check_prices in Hjob.
    rewrite (bind_writes _ _ _ _ _ (writes_print _)) in Hjob.
    unfold Product_query_all in Hjob. rewrite bind_query in Hjob.
    cbn [session extend fresh] in Hjob. rewrite E in Hjob.
    rewrite (writes_print _ _) in Hjob. inversion Hjob; subst.
    cbn [trace extend fresh app]. split; [repeat constructor|].
    left. split; [reflexivity|]. intros [H|[H|[]]]; discriminate H.
  - assert (Hne : products d <> []) by (rewrite E; discriminate).
    rewrite (job_run env d Hne) in Hjob.
    destruct (for_each (products d) (check_product env) _) as [r1 w1] eqn:Hloop.
    apply (loop_events (products d) (fun Q H => H)) in Hloop; [|reflexivity].
    destruct Hloop as (tr & Et & J & O).
    cbn [trace extend fresh app] in Et.
    destruct O as [[-> N]|[(x & t0 & -> & -> & N0)|(x & t0 & Q0 & -> & HQ0 & R0 & -> & N0)]];
      inversion Hjob; subst.
    + cbn [trace extend]. rewrite Et. split.
      * constructor; [exact I|]. apply Forall_app. split; [exact J|repeat constructor].
      * left. split; [reflexivity|]. intros [H|H]; [discriminate H|].
        apply in_app_or in H. destruct H as [H|[H|[]]]; [tauto|discriminate H].
    + rewrite Et. split.
      * constructor; [exact I|exact J].
      * right. left.
        exists x, (Print "Hourly price check started." :: t0). split; [reflexivity|].
        split; [reflexivity|]. intros [H|H]; [discriminate H|tauto].
    + rewrite Et. split.
      * constructor; [exact I|exact J].
      * right. right.
        exists x, (Print "Hourly price check started." :: t0), Q0. split; [reflexivity|].
        split; [exact HQ0|]. split; [exact R0|].
        split; [reflexivity|]. intros [H|H]; [discriminate H|tauto].
Qed.

End SweepEvents.

(** X5: whatever the environment, the rows and the way it ends, a sweep
    calls the notifier only for a stored product whose page shows a drop
    ([0 < price on the page < stored price]) and only with the address of a
    subscription to that product; every mail handed to the relay is about
    such a product, goes to such an address, comes from the configured
    sender, and is sent only with both credentials set. *)
Theorem sweep_notifies_only_subscribers env d :
  (forall a P p,
      In (Notify a P p) (trace (snd (job env d))) ->
      In P (products d) /\
      p = snd (details env (Product.url P)) /\
      Py.lt Py.zero p = true /\ Py.lt p (Product.price P) = true /\
      exists s, In s (subscriptions d) /\
                Subscription.product_id s = Product.id P /\
                Subscription.user_email s = a) /\
  (forall m,
      In (Sent m) (trace (snd (job env d))) ->
      In (mail_product m) (products d) /\
      mail_new_price m = snd (details env (Product.url (mail_product m))) /\
      Py.lt Py.zero (mail_new_price m) = true /\
      Py.lt (mail_new_price m) (Product.price (mail_product m)) = true /\
      (exists s, In s (subscriptions d) /\
                 Subscription.product_id s = Product.id (mail_product m) /\
                 Subscription.user_email s = mail_to m) /\
      mail_from m = value (SENDER_EMAIL env) /\
      credentials_set env = true).
Proof.
  destruct (job env d) as [r w] eqn:Hjob. cbn [snd].
  destruct (job_events env d r w Hjob) as [J _].
  rewrite Forall_forall in J. split.
  - intros a P p Hin. specialize (J _ Hin). cbn [justified] in J.
    destruct J as (HP & Hp & Hd & Hs). unfold price_drop in Hd.
    apply andb_true_iff in Hd. destruct Hd as [H0 H1]. repeat split; assumption.
  - intros m Hin. specialize (J _ Hin). cbn [justified] in J.
    destruct J as (Hm & Hc & HP & Hp & Hd & Hs). unfold price_drop in Hd.
    apply andb_true_iff in Hd. destruct Hd as [H0 H1].
    repeat split; try assumption. rewrite Hm. reflexivity.
Qed.

(** X6: a sweep ends in one of three ways.  It returns, and then no commit
    has failed.  Or it raises the error of a failed commit ([check_prices]
    has no handler for it); that commit is then the last thing the sweep
    did.  Or it raises the [ParserRejectedMarkup] of the page of a stored
    product, right after the line that the extractor prints first, and no
    commit has failed.  In the last two cases the products after that one
    were not looked at. *)
Theorem sweep_returns_or_stops_at_an_error env d :
  (fst (job env d) = Ret tt /\ ~ In (Commit false) (trace (snd (job env d)))) \/
  (exists x tr,
      fst (job env d) = Raise (SQLAlchemyError x) /\
      trace (snd (job env d)) = (tr ++ [Commit false])%list /\
      ~ In (Commit false) tr) \/
  (exists x tr Q,
      fst (job env d) = Raise (ParserRejectedMarkup x) /\
      In Q (products d) /\ rejection env (Product.url Q) = Some x /\
      trace (snd (job env d)) =
        (tr ++ [Print ("Checking URL: " ++ Py.prefix 50 (Product.url Q) ++ "...")])%list /\
      ~ In (Commit false) tr).
Proof.
  destruct (job env d) as [r w] eqn:Hjob. cbn [fst snd].
  exact (proj2 (job_events env d r w Hjob)).
Qed.

(** ** The answers of the track endpoint *)

Lemma product_by_url_appended d u P :
  product_by_url d u = None -> Product.url P = u ->
  product_by_url (insert_product P d) u = Some P.
Proof.
  intros H E. unfold product_by_url in *. cbn [products insert_product].
  rewrite find_app_first, H. cbn [List.find]. rewrite E, String.eqb_refl. reflexivity.
Qed.

(** X7: what a track request comes to.  A request whose body is an object
    with strings under the two keys is answered with 400, 200, 500 or 201,
    or it raises, and it raises in two cases only, both for an address that
    no row has: the parser rejects the page ([ParserRejectedMarkup]), or
    the storage layer refuses the flush of the new product row.  400: the
    page yields the sentinel title or a price equal to 0.0.  500: a commit
    failed.  On 400, 200, 500 and when it raises, the store is as before.
    201: the commit went through; the store has one subscription row more,
    of the requesting address to the product with the requested address,
    and the product rows are as before or have that product, with the
    extracted title and price, appended.  Any other body either comes to
    what such a request comes to, or it stops short with the store as
    before and nothing committed (the answer 400 for a missing key, or an
    exception of [get_json], of the subscripts or of a value that is not a
    str), or it ends in status 500 on a failed commit. *)
Theorem track_product_outcomes env d :
  (forall u e, exists r w,
      POST_track env (request u e) d = (r, w) /\
      ((exists msg,
           r = Ret (msg, 400) /\ store w = d /\ session w = d /\
           forallb is_print (trace w) = true /\
           product_by_url d u = None /\ rejection env u = None /\
           (fst (details env u) = "N/A" \/ Py.eq (snd (details env u)) Py.zero = true))
       \/
       (r = Ret ("You are already tracking this product.", 200) /\
        store w = d /\ forallb is_print (trace w) = true)
       \/
       (r = Ret ("An error occurred while creating the tracking request.", 500) /\
        store w = d /\ session w = d /\ In (Commit false) (trace w))
       \/
       (exists msg P s,
           r = Ret (msg, 201) /\ session w = store w /\ In (Commit true) (trace w) /\
           product_by_url (store w) u = Some P /\
           (products (store w) = products d \/
            (product_by_url d u = None /\
             P = new_product d u (fst (details env u)) (snd (details env u)) /\
             products (store w) = (products d ++ [P])%list)) /\
           subscriptions (store w) = (subscriptions d ++ [s])%list /\
           Subscription.user_email s = e /\
           Subscription.product_id s = Product.id P)
       \/
       (exists m,
           r = Raise (ParserRejectedMarkup m) /\ rejection env u = Some m /\
           product_by_url d u = None /\
           store w = d /\ session w = d /\ forallb is_print (trace w) = true)
       \/
       (exists m,
           r = Raise (SQLAlchemyError m) /\ product_by_url d u = None /\
           commit_error env (insert_product
                               (new_product d u (fst (details env u))
                                            (snd (details env u))) d) = Some m /\
           store w = d /\ session w = d /\ forallb is_print (trace w) = true))) /\
  (forall b r w,
      POST_track env b d = (r, w) ->
      (exists u e, POST_track env (request u e) d = (r, w)) \/
      (store w = d /\ (forall a, ~ In (Commit a) (trace w)) /\
       (r = Ret ("Missing product_url or user_email.", 400) \/
        exists x, r = Raise x /\
          (x = HTTPException 415 \/ x = HTTPException 400 \/
           (exists m, x = TypeError m) \/ exists m, x = BindError m))) \/
      (store w = d /\ session w = d /\
       r = Ret ("An error occurred while creating the tracking request.", 500) /\
       In (Commit false) (trace w))) /\
  POST_track env NotJson d = (Raise (HTTPException 415), fresh d) /\
  POST_track env BadJson d = (Raise (HTTPException 400), fresh d) /\
  (forall e,
      POST_track env (Json (Json.JObject [("product_url", Json.JNull);
                                          ("user_email", Json.JString e)])) d =
      (Raise (TypeError "object is not subscriptable"),
       extend (fresh d)
              [PrintValue "New product detected: " Json.JNull ". Fetching details..."])).
Proof.
  split; [|split; [|repeat split]].
  - intros u e.
    destruct (product_by_url d u) as [P|] eqn:HP.
    + destruct (subscription_of d e (Product.id P)) as [s|] eqn:Hs.
      * eexists _, _. split; [exact (track_known_tracked env d u e P s HP Hs)|].
        right. left. repeat split.
      * rewrite (track_known_new env d u e P HP Hs). cbv zeta.
        destruct (commit_error env _) as [x|];
          eexists _, _; (split; [reflexivity|]).
        -- right. right. left. repeat split. cbn. tauto.
        -- right. right. right. left.
           eexists _, P, (new_subscription d e (Product.id P)).
           cbn [store session trace products subscriptions insert_subscription].
           split; [reflexivity|]. repeat split; auto. cbn. tauto.
    + destruct (rejection env u) as [m|] eqn:R.
      { eexists _, _. split; [exact (track_unknown_fails env d u e m HP R)|].
        right. right. right. right. left. exists m. repeat split; auto. }
      destruct (details_writes env u R) as (tr & Hw & Hp).
      rewrite (surjective_pairing (details env u)) in Hw.
      destruct (String.eqb (fst (details env u)) "N/A"
                || Py.eq (snd (details env u)) Py.zero) eqn:Ht.
      * eexists _, _.
        split; [exact (track_unknown_rejected env d u e _ _ tr HP Hw Ht)|].
        left. eexists. cbn [store session trace extend fresh app forallb is_print andb].
        repeat split; try assumption.
        apply orb_true_iff in Ht. destruct Ht as [Ht|Ht]; [left|now right].
        now apply String.eqb_eq.
      * rewrite (track_unknown_accepted env d u e _ _ tr HP Hw Ht). cbv zeta.
        destruct (commit_error env (insert_product _ d)) as [m|] eqn:Hf.
        { eexists _, _. split; [reflexivity|].
          right. right. right. right. right. exists m.
          cbn [store session trace forallb is_print andb]. repeat split; auto. }
        clear Hf.
        destruct (subscription_of _ _ _) as [s|];
          [|destruct (commit_error env _) as [x|]];
          eexists _, _; (split; [reflexivity|]).
        -- right. left. cbn [store trace forallb is_print andb]. repeat split. exact Hp.
        -- right. right. left. repeat split. cbn [trace].
           apply in_or_app. right. now left.
        -- right. right. right. left.
           eexists _, (new_product d u (fst (details env u)) (snd (details env u))), _.
           cbn [store session trace].
           split; [reflexivity|]. split; [reflexivity|].
           split; [apply in_or_app; right; now left|].
           split; [now apply product_by_url_appended|].
           split; [right; repeat split; auto|].
           cbn [subscriptions insert_subscription insert_product].
           repeat split.
  - intros b r w Hrun.
    destruct (track_reduces env b d r w Hrun)
      as [H|[H|(Hst & Hse & x & pre & Hr & Ht)]]; [now left|right; now left|].
    right. right. repeat split; try assumption.
    rewrite Ht. apply in_or_app. right. now left.
Qed.

Lemma product_by_url_known d u :
  In u (map Product.url (products d)) -> exists P, product_by_url d u = Some P.
Proof.
  intros H. destruct (product_by_url d u) as [P|] eqn:E; [now exists P|].
  exfalso. exact (product_by_url_none d u E H).
Qed.

(** A page that shows a title is one that the parser accepted. *)
Lemma titled_accepted env u :
  fst (details env u) <> "N/A" -> rejection env u = None.
Proof.
  intros H. destruct (rejection env u) as [x|] eqn:R; [|reflexivity].
  rewrite (rejection_details env u x R) in H. now elim H.
Qed.

(** X8: on rows that satisfy the schema, a track request for an address
    that no product row has, whose page yields a title other than ["N/A"]
    and a price not equal to 0.0, with the storage layer accepting what the
    request writes, is answered
    with 201 and the first 30 characters of the title; the store gets
    exactly one product row (fresh key, the address, the extracted title
    and price) and one subscription row to it, and the two lookups of the
    handler find these rows afterwards. *)
Theorem tracking_a_new_address env d u e :
  schema d ->
  ~ In u (map Product.url (products d)) ->
  fst (details env u) <> "N/A" ->
  Py.eq (snd (details env u)) Py.zero = false ->
  (forall rows, commit_error env rows = None) ->
  let P := new_product d u (fst (details env u)) (snd (details env u)) in
  let s := new_subscription d e (Product.id P) in
  exists w,
    POST_track env (request u e) d =
      (Ret ("Success! Tracking has been set up for " ++ dquote
            ++ Py.prefix 30 (fst (details env u)) ++ "..." ++ dquote, 201), w) /\
    store w = {| products := products d ++ [P];
                 subscriptions := subscriptions d ++ [s] |} /\
    product_by_url (store w) u = Some P /\
    subscription_of (store w) e (Product.id P) = Some s /\
    schema (store w).
Proof.
  intros Hschema Hu Ht Hp Hc P s.
  pose proof (product_by_url_unknown d u Hu) as HP.
  destruct (details_writes env u (titled_accepted env u Ht)) as (tr & Hw & _).
  rewrite (surjective_pairing (details env u)) in Hw.
  assert (Htest : String.eqb (fst (details env u)) "N/A"
                  || Py.eq (snd (details env u)) Py.zero = false).
  { rewrite Hp. apply String.eqb_neq in Ht. now rewrite Ht. }
  pose proof (no_subscription_of_new_product d u (fst (details env u))
                (snd (details env u)) e Hschema) as Hnone.
  fold P in Hnone.
  destruct (subscription_of_inserted (insert_product P d) e (Product.id P) Hnone)
    as [Hs' _].
  pose proof (track_unknown_accepted env d u e _ _ tr HP Hw Htest) as Hrun.
  cbv zeta in Hrun. fold P in Hrun. rewrite (Hc (insert_product P d)), Hnone, Hc in Hrun.
  eexists. split; [exact Hrun|]. cbn [store]. split; [reflexivity|].
  split; [now apply product_by_url_appended|]. split; [exact Hs'|].
  exact (track_schema env _ d _ _ Hschema Hrun).
Qed.

Lemma tracking_a_new_address_witness :
  let env := Sample.serving (Sample.page "Desk" "120" "00") in
  let P := new_product Sample.shop "https://shop.example/desk"
                       (fst (details env "https://shop.example/desk"))
                       (snd (details env "https://shop.example/desk")) in
  let s := new_subscription Sample.shop "ann@example.org" (Product.id P) in
  exists w,
    POST_track env (request "https://shop.example/desk" "ann@example.org") Sample.shop =
      (Ret ("Success! Tracking has been set up for " ++ dquote
            ++ Py.prefix 30 (fst (details env "https://shop.example/desk"))
            ++ "..." ++ dquote, 201), w) /\
    store w = {| products := products Sample.shop ++ [P];
                 subscriptions := subscriptions Sample.shop ++ [s] |} /\
    product_by_url (store w) "https://shop.example/desk" = Some P /\
    subscription_of (store w) "ann@example.org" (Product.id P) = Some s /\
    schema (store w).
Proof.
  apply (tracking_a_new_address
           (Sample.serving (Sample.page "Desk" "120" "00")) Sample.shop
           "https://shop.example/desk" "ann@example.org").
  - unfold schema. simpl. repeat split.
    + constructor; [simpl; tauto|constructor].
    + constructor; [simpl; tauto|constructor].
    + constructor; [simpl; intros [H|H]; [discriminate H|exact H]|].
      constructor; [simpl; tauto|constructor].
    + constructor; [simpl; intros [H|H]; [discriminate H|exact H]|].
      constructor; [simpl; tauto|constructor].
    + intros s [<-|[<-|[]]]; simpl; left; reflexivity.
  - simpl. intros [H|H]; [discriminate H|exact H].
  - vm_compute. discriminate.
  - reflexivity.
  - intros rows. reflexivity.
Defined.

(** X9: for an address that a product row already has, the handler does
    not look at the web, the mail settings or the relay: two environments
    whose storage layers answer alike give the same response and the same
    world.  The product rows stay as they are, so the stored title and
    price are not refreshed. *)
Theorem known_address_is_not_fetched env env' d u e :
  In u (map Product.url (products d)) ->
  (forall rows, commit_error env rows = commit_error env' rows) ->
  POST_track env (request u e) d = POST_track env' (request u e) d /\
  products (store (snd (POST_track env (request u e) d))) = products d /\
  forall line, In (Print line) (trace (snd (POST_track env (request u e) d))) ->
               exists x, line = "Database error: " ++ x.
Proof.
  intros Hu Hc. destruct (product_by_url_known d u Hu) as [P HP].
  destruct (subscription_of d e (Product.id P)) as [s|] eqn:Hs.
  - rewrite (track_known_tracked env d u e P s HP Hs),
            (track_known_tracked env' d u e P s HP Hs).
    repeat split. intros line [].
  - rewrite (track_known_new env d u e P HP Hs),
            (track_known_new env' d u e P HP Hs).
    cbv zeta. rewrite <- Hc.
    destruct (commit_error env _) as [x|]; repeat split; cbn [snd trace].
    + intros line [H|[H|[H|[]]]]; try discriminate H.
      inversion H. now exists x.
    + intros line [H|[]]. discriminate H.
Qed.

Lemma known_address_is_not_fetched_witness :
  let env := Sample.serving (Sample.page "Lamp" "45" "00") in
  let env' := Sample.serving [] in
  let req := request "https://shop.example/lamp" "cy@example.org" in
  POST_track env req Sample.shop = POST_track env' req Sample.shop /\
  products (store (snd (POST_track env req Sample.shop))) = products Sample.shop /\
  forall line, In (Print line) (trace (snd (POST_track env req Sample.shop))) ->
               exists x, line = "Database error: " ++ x.
Proof.
  intros env env' req.
  apply (known_address_is_not_fetched env env' Sample.shop
           "https://shop.example/lamp" "cy@example.org").
  - simpl. left. reflexivity.
  - intros rows. reflexivity.
Defined.

Lemma unique_by_url (l : list Product.t) u P :
  NoDup (map Product.url l) ->
  List.find (fun p => String.eqb (Product.url p) u) l = Some P ->
  List.length (filter (fun p => String.eqb (Product.url p) u) l) = 1%nat.
Proof.
  induction l as [|a l IH]; simpl; [discriminate|].
  intros Hnd Hf. inversion Hnd as [|? ? Hna Hl]; subst.
  destruct (String.eqb (Product.url a) u) eqn:Ha.
  - simpl. f_equal. rewrite filter_find_none; [reflexivity|].
    apply find_none_if. intros x Hx.
    destruct (String.eqb (Product.url x) u) eqn:Hxu; [|reflexivity].
    exfalso. apply Hna. apply String.eqb_eq in Ha, Hxu. rewrite Ha, <- Hxu.
    now apply in_map.
  - now apply IH.
Qed.

Lemma filter_snoc_other {A} (f : A -> bool) (l : list A) x :
  f x = false -> filter f (l ++ [x]) = filter f l.
Proof. intros H. rewrite filter_app. simpl. rewrite H. apply app_nil_r. Qed.

(** A request that can succeed: its effect on the store. *)
Lemma track_subscribes env d u e :
  schema d ->
  (forall rows, commit_error env rows = None) ->
  In u (map Product.url (products d)) \/
  (fst (details env u) <> "N/A" /\ Py.eq (snd (details env u)) Py.zero = false) ->
  exists m c w P,
    POST_track env (request u e) d = (Ret (m, c), w) /\
    (c = 200 \/ c = 201) /\
    schema (store w) /\
    product_by_url (store w) u = Some P /\
    (In u (map Product.url (products d)) ->
     product_by_url d u = Some P /\ products (store w) = products d) /\
    (forall e', e' <> e ->
       filter (subscribes e' (Product.id P)) (subscriptions (store w)) =
       filter (subscribes e' (Product.id P)) (subscriptions d)) /\
    List.length (filter (subscribes e (Product.id P)) (subscriptions (store w))) = 1%nat.
Proof.
  intros Hschema Hc Hok.
  assert (Hother : forall d0 e' pid,
             e' <> e ->
             filter (subscribes e' pid)
                    (subscriptions (insert_subscription (new_subscription d0 e pid) d0))
             = filter (subscribes e' pid) (subscriptions d0)).
  { intros d0 e' pid Hne. cbn [subscriptions insert_subscription].
    apply filter_snoc_other. unfold subscribes.
    cbn [Subscription.user_email new_subscription].
    apply not_eq_sym in Hne. apply String.eqb_neq in Hne. now rewrite Hne. }
  destruct (product_by_url d u) as [P|] eqn:HP.
  - destruct (subscription_of d e (Product.id P)) as [s|] eqn:Hs.
    + pose proof (track_known_tracked env d u e P s HP Hs) as Hrun.
      eexists _, _, _, P. split; [exact Hrun|]. split; [now left|].
      cbn [store fresh]. split; [exact Hschema|]. split; [exact HP|].
      split; [now intros _|]. split; [reflexivity|].
      destruct Hschema as (_ & _ & _ & Hu & _).
      exact (unique_subscription _ _ _ _ Hu Hs).
    + destruct (subscription_of_inserted d e (Product.id P) Hs) as [_ Hone].
      pose proof (track_known_new env d u e P HP Hs) as Hrun.
      cbv zeta in Hrun. rewrite Hc in Hrun.
      eexists _, _, _, P. split; [exact Hrun|]. split; [now right|].
      split; [exact (track_schema env _ d _ _ Hschema Hrun)|]. cbn [store].
      split; [exact HP|]. split; [now intros _|].
      split; [intros e' Hne; now apply Hother|exact Hone].
  - destruct Hok as [Hin|[Ht Hp]];
      [exfalso; exact (product_by_url_none d u HP Hin)|].
    destruct (details_writes env u (titled_accepted env u Ht)) as (tr & Hw & _).
    rewrite (surjective_pairing (details env u)) in Hw.
    assert (Htest : String.eqb (fst (details env u)) "N/A"
                    || Py.eq (snd (details env u)) Py.zero = false).
    { rewrite Hp. apply String.eqb_neq in Ht. now rewrite Ht. }
    pose proof (no_subscription_of_new_product d u (fst (details env u))
                  (snd (details env u)) e Hschema) as Hnone.
    set (P := new_product d u (fst (details env u)) (snd (details env u))) in *.
    destruct (subscription_of_inserted (insert_product P d) e (Product.id P) Hnone)
      as [_ Hone].
    pose proof (track_unknown_accepted env d u e _ _ tr HP Hw Htest) as Hrun.
    cbv zeta in Hrun. fold P in Hrun.
    rewrite (Hc (insert_product P d)), Hnone, Hc in Hrun.
    eexists _, _, _, P. split; [exact Hrun|]. split; [now right|].
    split; [exact (track_schema env _ d _ _ Hschema Hrun)|]. cbn [store].
    split; [now apply product_by_url_appended|].
    split; [intros Hin; exfalso; exact (product_by_url_none d u HP Hin)|].
    split; [|exact Hone].
    intros e' Hne. exact (Hother (insert_product P d) e' (Product.id P) Hne).
Qed.

(** X10: on rows that satisfy the schema, with the commits accepted and an
    address that is already tracked or whose page yields a title and a
    price, two track requests for the same address by two different
    subscribers are both answered without error; afterwards the store holds
    exactly one product row with that address and exactly one subscription
    row to it for each of the two subscribers. *)
Theorem two_subscribers_share_one_product env1 env2 d u e1 e2 :
  schema d ->
  e1 <> e2 ->
  (forall rows, commit_error env1 rows = None) ->
  (forall rows, commit_error env2 rows = None) ->
  In u (map Product.url (products d)) \/
  (fst (details env1 u) <> "N/A" /\ Py.eq (snd (details env1 u)) Py.zero = false) ->
  exists m1 c1 w1 m2 c2 w2 P,
    POST_track env1 (request u e1) d = (Ret (m1, c1), w1) /\
    POST_track env2 (request u e2) (store w1) = (Ret (m2, c2), w2) /\
    (c1 = 200 \/ c1 = 201) /\ (c2 = 200 \/ c2 = 201) /\
    products (store w2) = products (store w1) /\
    product_by_url (store w2) u = Some P /\
    List.length (filter (fun p => String.eqb (Product.url p) u)
                        (products (store w2))) = 1%nat /\
    List.length (filter (subscribes e1 (Product.id P))
                        (subscriptions (store w2))) = 1%nat /\
    List.length (filter (subscribes e2 (Product.id P))
                        (subscriptions (store w2))) = 1%nat.
Proof.
  intros Hschema Hne Hc1 Hc2 Hok.
  destruct (track_subscribes env1 d u e1 Hschema Hc1 Hok)
    as (m1 & c1 & w1 & P & Hrun1 & Hcode1 & Hschema1 & HP1 & _ & _ & Hone1).
  assert (Hknown : In u (map Product.url (products (store w1)))).
  { destruct (product_by_url_in _ _ _ HP1) as [Hin <-]. now apply in_map. }
  destruct (track_subscribes env2 (store w1) u e2 Hschema1 Hc2 (or_introl Hknown))
    as (m2 & c2 & w2 & P2 & Hrun2 & Hcode2 & Hschema2 & HP2 & Hsame & Hother & Hone2).
  destruct (Hsame Hknown) as [HP2' Hprod].
  assert (P2 = P) by congruence. subst P2.
  exists m1, c1, w1, m2, c2, w2, P.
  repeat split; try assumption.
  - destruct Hschema2 as (_ & Hurls & _). exact (unique_by_url _ _ _ Hurls HP2).
  - rewrite (Hother e1 Hne). exact Hone1.
Qed.

Lemma two_subscribers_share_one_product_witness :
  let env := Sample.serving (Sample.page "Desk" "120" "00") in
  exists m1 c1 w1 m2 c2 w2 P,
    POST_track env (request "https://shop.example/desk" "ann@example.org") Sample.shop
    = (Ret (m1, c1), w1) /\
    POST_track env (request "https://shop.example/desk" "bob@example.org") (store w1)
    = (Ret (m2, c2), w2) /\
    (c1 = 200 \/ c1 = 201) /\ (c2 = 200 \/ c2 = 201) /\
    products (store w2) = products (store w1) /\
    product_by_url (store w2) "https://shop.example/desk" = Some P /\
    List.length (filter (fun p => String.eqb (Product.url p) "https://shop.example/desk")
                        (products (store w2))) = 1%nat /\
    List.length (filter (subscribes "ann@example.org" (Product.id P))
                        (subscriptions (store w2))) = 1%nat /\
    List.length (filter (subscribes "bob@example.org" (Product.id P))
                        (subscriptions (store w2))) = 1%nat.
Proof.
  intros env.
  apply (two_subscribers_share_one_product env env Sample.shop
           "https://shop.example/desk" "ann@example.org" "bob@example.org").
  - unfold schema. simpl. repeat split.
    + constructor; [simpl; tauto|constructor].
    + constructor; [simpl; tauto|constructor].
    + constructor; [simpl; intros [H|H]; [discriminate H|exact H]|].
      constructor; [simpl; tauto|constructor].
    + constructor; [simpl; intros [H|H]; [discriminate H|exact H]|].
      constructor; [simpl; tauto|constructor].
    + intros s [<-|[<-|[]]]; simpl; left; reflexivity.
  - discriminate.
  - intros rows. reflexivity.
  - intros rows. reflexivity.
  - right. split; [vm_compute; discriminate|reflexivity].
Defined.

(** ** Over the life of the store *)

Lemma lt_trans (x y z : Py.float) :
  Py.lt x y = true -> Py.lt y z = true -> Py.lt x z = true.
Proof.
  unfold Py.lt, SFltb.
  destruct x as [[]|[]| |[] mx ex], y as [[]|[]| |[] my ey], z as [[]|[]| |[] mz ez];
    simpl; try discriminate; try reflexivity;
    destruct (Z.compare_spec ex ey), (Z.compare_spec ey ez), (Z.compare_spec ex ez);
    simpl; try discriminate; try reflexivity; try lia; subst;
    rewrite ?Pos.compare_cont_spec; simpl;
    destruct (Pos.compare_spec mx my), (Pos.compare_spec my mz),
             (Pos.compare_spec mx mz);
    simpl; try discriminate; try reflexivity; try lia.
Qed.

Lemma kept_refl P : kept P P.
Proof. repeat split. now left. Qed.

Lemma kept_trans P Q R : kept P Q -> kept Q R -> kept P R.
Proof.
  intros (I1 & U1 & T1 & H1) (I2 & U2 & T2 & H2).
  split; [congruence|]. split; [congruence|]. split; [congruence|].
  destruct H2 as [E2|[Z2 L2]].
  - rewrite E2. exact H1.
  - right. split; [exact Z2|]. destruct H1 as [E1|[_ L1]].
    + now rewrite <- E1.
    + exact (lt_trans _ _ _ L2 L1).
Qed.

Lemma kept_lowered env P : kept P (lowered env P).
Proof.
  split; [apply lowered_id|]. split; [apply lowered_url|].
  split; [apply lowered_title|apply lowered_price].
Qed.

Lemma track_keeps_rows env data d r w :
  POST_track env data d = (r, w) ->
  (forall P, In P (products d) -> In P (products (store w))) /\
  (forall s, In s (subscriptions d) -> In s (subscriptions (store w))).
Proof.
  intros Hrun.
  destruct (track_store env data d r w Hrun)
    as [->|[(u & e & P & _ & _ & ->)|(u & e & t & p & _ & _ & ->)]];
    cbn [products subscriptions insert_subscription insert_product];
    split; intros x Hx; auto using in_or_app.
Qed.

Lemma job_keeps_rows env d r w :
  NoDup (map Product.id (products d)) ->
  job env d = (r, w) ->
  (forall P, In P (products d) -> exists P', In P' (products (store w)) /\ kept P P') /\
  subscriptions (store w) = subscriptions d.
Proof.
  intros Hnd Hjob.
  destruct (job_lowers env d r w Hnd Hjob) as (done & rest & Hsplit & Hp & Hsub & _).
  split; [|exact Hsub].
  intros P HP. rewrite Hsplit in HP. rewrite Hp.
  apply in_app_or in HP. destruct HP as [HP|HP].
  - exists (lowered env P). split; [|apply kept_lowered].
    apply in_or_app. left. now apply in_map.
  - exists P. split; [|apply kept_refl]. apply in_or_app. now right.
Qed.

(** X11: over any number of track requests and sweeps, in any environments
    and however each of them ends, starting from rows that satisfy the
    schema: the schema stays satisfied; no subscription row is ever removed
    or changed; every product row stays, with its key, address and title,
    and its price never goes up: it is the price from before or a strictly
    positive, strictly lower one. *)
Theorem rows_are_kept_and_prices_only_fall d d' :
  schema d ->
  evolves d d' ->
  schema d' /\
  (forall s, In s (subscriptions d) -> In s (subscriptions d')) /\
  (forall P, In P (products d) -> exists P', In P' (products d') /\ kept P P').
Proof.
  intros Hschema Hev.
  induction Hev as [d|env data d d' r w Hev IH Hrun|env d d' r w Hev IH Hrun].
  - split; [exact Hschema|]. split; [auto|].
    intros P HP. exists P. split; [exact HP|apply kept_refl].
  - destruct (IH Hschema) as (Hs' & Hsubs & Hprods).
    destruct (track_keeps_rows env data d' r w Hrun) as [Kp Ks].
    split; [exact (track_schema env data d' r w Hs' Hrun)|].
    split; [auto|].
    intros P HP. destruct (Hprods P HP) as (P' & HP' & HK).
    exists P'. split; [now apply Kp|exact HK].
  - destruct (IH Hschema) as (Hs' & Hsubs & Hprods).
    destruct (job_keeps_rows env d' r w (proj1 Hs') Hrun) as [Kp Ks].
    split.
    { apply (keys_and_subs_schema d'); [|exact Hs'].
      symmetry. exact (job_keys env d' r w Hrun). }
    split; [intros s Hs; rewrite Ks; auto|].
    intros P HP. destruct (Hprods P HP) as (P' & HP' & HK).
    destruct (Kp P' HP') as (P'' & HP'' & HK').
    exists P''. split; [exact HP''|exact (kept_trans _ _ _ HK HK')].
Qed.

(** A request, a sweep that finds 45.00 and another request. *)
Lemma rows_are_kept_and_prices_only_fall_witness :
  let env := Sample.serving (Sample.page "Lamp" "45" "00") in
  let d1 := store (snd (POST_track env (request "https://shop.example/lamp"
                                                 "cy@example.org") Sample.shop)) in
  let d2 := store (snd (job env d1)) in
  schema d2 /\
  (forall s, In s (subscriptions Sample.shop) -> In s (subscriptions d2)) /\
  (forall P, In P (products Sample.shop) ->
             exists P', In P' (products d2) /\ kept P P').
Proof.
  intros env d1 d2.
  apply (rows_are_kept_and_prices_only_fall Sample.shop d2).
  - unfold schema. simpl. repeat split.
    + constructor; [simpl; tauto|constructor].
    + constructor; [simpl; tauto|constructor].
    + constructor; [simpl; intros [H|H]; [discriminate H|exact H]|].
      constructor; [simpl; tauto|constructor].
    + constructor; [simpl; intros [H|H]; [discriminate H|exact H]|].
      constructor; [simpl; tauto|constructor].
    + intros s [<-|[<-|[]]]; simpl; left; reflexivity.
  - apply (evolves_job env Sample.shop d1 (fst (job env d1)) (snd (job env d1))).
    + apply (evolves_track env (request "https://shop.example/lamp" "cy@example.org")
                           Sample.shop Sample.shop
                           (fst (POST_track env (request "https://shop.example/lamp"
                                                         "cy@example.org") Sample.shop))
                           (snd (POST_track env (request "https://shop.example/lamp"
                                                         "cy@example.org") Sample.shop))).
      * apply evolves_refl.
      * apply surjective_pairing.
    + apply surjective_pairing.
Defined.

(** X12: every store that the application brings about from the empty
    tables, by any track requests and sweeps in any environments, satisfies
    the constraints of the two models: distinct keys in both tables, one
    product row per address, one subscription row per subscriber and
    product, and every subscription pointing to a product row. *)
Theorem reachable_store_satisfies_schema d :
  reachable d ->
  NoDup (map Product.id (products d)) /\
  NoDup (map Product.url (products d)) /\
  NoDup (map Subscription.id (subscriptions d)) /\
  NoDup (map (fun s => (Subscription.user_email s, Subscription.product_id s))
             (subscriptions d)) /\
  (forall s, In s (subscriptions d) ->
             exists P, In P (products d) /\ Product.id P = Subscription.product_id s).
Proof.
  intros Hr. destruct (reachable_schema d Hr) as (H1 & H2 & H3 & H4 & H5).
  repeat split; try assumption.
  intros s Hs. specialize (H5 s Hs). apply in_map_iff in H5.
  destruct H5 as (P & HP & Hin). now exists P.
Qed.

Lemma reachable_store_satisfies_schema_witness :
  let d := store (snd (POST_track (Sample.serving (Sample.page "Lamp" "45" "00"))
                                  (request "https://shop.example/lamp" "ann@example.org")
                                  {| products := []; subscriptions := [] |})) in
  NoDup (map Product.id (products d)) /\
  NoDup (map Product.url (products d)) /\
  NoDup (map Subscription.id (subscriptions d)) /\
  NoDup (map (fun s => (Subscription.user_email s, Subscription.product_id s))
             (subscriptions d)) /\
  (forall s, In s (subscriptions d) ->
             exists P, In P (products d) /\ Product.id P = Subscription.product_id s).
Proof.
  intros d.
  apply (reachable_store_satisfies_schema d).
  apply (reachable_track (Sample.serving (Sample.page "Lamp" "45" "00"))
                         (request "https://shop.example/lamp" "ann@example.org")
                         {| products := []; subscriptions := [] |}
                         (fst (POST_track (Sample.serving (Sample.page "Lamp" "45" "00"))
                                 (request "https://shop.example/lamp" "ann@example.org")
                                 {| products := []; subscriptions := [] |}))
                         (snd (POST_track (Sample.serving (Sample.page "Lamp" "45" "00"))
                                 (request "https://shop.example/lamp" "ann@example.org")
                                 {| products := []; subscriptions := [] |}))).
  - exact reachable_empty.
  - apply surjective_pairing.
Defined.

(** ** No price is a NaN *)

Module NoNaN.

Lemma shr_1_nonneg mrs : 0 <= shr_m mrs -> 0 <= shr_m (shr_1 mrs).
Proof.
  destruct mrs as [m r s]. destruct m as [|[p|p|]|p]; simpl; lia.
Qed.

Lemma iter_shr_nonneg p : forall mrs, 0 <= shr_m mrs -> 0 <= shr_m (iter_pos shr_1 p mrs).
Proof.
  induction p as [p IH|p IH|]; simpl; intros mrs H.
  - apply IH, IH, shr_1_nonneg, H.
  - apply IH, IH, H.
  - apply shr_1_nonneg, H.
Qed.

Lemma shr_nonneg mrs e n : 0 <= shr_m mrs -> 0 <= shr_m (fst (shr mrs e n)).
Proof.
  intros H. destruct n; simpl; try exact H. now apply iter_shr_nonneg.
Qed.

Lemma shr_fexp_nonneg m e l :
  0 <= m -> 0 <= shr_m (fst (shr_fexp Py.prec Py.emax m e l)).
Proof.
  intros H. unfold shr_fexp. apply shr_nonneg.
  destruct l as [|[]]; exact H.
Qed.

Lemma round_nonneg m l : 0 <= m -> 0 <= round_nearest_even m l.
Proof.
  intros H. unfold round_nearest_even.
  destruct l as [|[]]; try destruct (Z.even m); lia.
Qed.

Lemma binary_round_aux_not_nan sx m e l :
  0 <= m -> binary_round_aux Py.prec Py.emax sx m e l <> S754_nan.
Proof.
  intros H. unfold binary_round_aux.
  pose proof (shr_fexp_nonneg m e l H) as H1.
  destruct (shr_fexp Py.prec Py.emax m e l) as [mrs1 e1]. cbn [fst] in H1.
  pose proof (shr_fexp_nonneg _ e1 loc_Exact
                (round_nonneg _ (loc_of_shr_record mrs1) H1)) as H2.
  destruct (shr_fexp Py.prec Py.emax _ e1 loc_Exact) as [mrs2 e2]. cbn [fst] in H2.
  destruct (shr_m mrs2) as [|p|p]; try discriminate; [|lia].
  destruct (e2 <=? Py.emax - Py.prec); discriminate.
Qed.

Lemma of_decimal_not_nan neg m e : Py.of_decimal neg m e <> S754_nan.
Proof.
  unfold Py.of_decimal. destruct m as [|p|p]; try discriminate.
  destruct (0 <=? e) eqn:He.
  - unfold binary_round. destruct (shl_align _ _ _) as [mz ez].
    apply binary_round_aux_not_nan. lia.
  - apply Z.leb_gt in He. unfold SFdiv_core_binary.
    set (s := 0 - 0 - Z.min _ _).
    set (m' := match s with
               | Z0 => Z.pos p
               | Z.pos _ => Z.shiftl (Z.pos p) s
               | Z.neg _ => 0
               end).
    assert (Hm : 0 <= m').
    { subst m'. destruct s; try lia. apply Z.shiftl_nonneg. lia. }
    assert (Hq : 0 <= fst (Z.div_eucl m' (10 ^ (- e)))).
    { change (fst (Z.div_eucl m' (10 ^ (- e)))) with (m' / 10 ^ (- e)).
      apply Z.div_pos; [exact Hm|]. apply Z.pow_pos_nonneg; lia. }
    destruct (Z.div_eucl m' (10 ^ (- e))) as [q r]. cbn [fst] in Hq.
    now apply binary_round_aux_not_nan.
Qed.

Lemma in_lstrip sp c s :
  sp c = false -> In c (chars s) -> In c (chars (Py.lstrip_by sp s)).
Proof.
  intros Hc. induction s as [|a s IH]; simpl; [tauto|].
  intros [->|H].
  - rewrite Hc. now left.
  - destruct (sp a); [now apply IH|now right].
Qed.

Lemma in_rstrip sp c s :
  sp c = false -> In c (chars s) -> In c (chars (Py.rstrip_by sp s)).
Proof.
  intros Hc. induction s as [|a s IH]; simpl; [tauto|].
  intros [->|H].
  - destruct (Py.rstrip_by sp s); [rewrite Hc|]; now left.
  - specialize (IH H). destruct (Py.rstrip_by sp s); [destruct IH|now right].
Qed.

Lemma in_drop_underscores c s :
  c <> "_"%char ->
  forall prev t, Py.drop_underscores prev s = Some t ->
                 In c (chars s) -> In c (chars t).
Proof.
  intros Hc. induction s as [|a s IH]; simpl; intros prev t Ht Hin; [tauto|].
  destruct (Ascii.eqb a "_") eqn:Ea.
  - apply Ascii.eqb_eq in Ea. subst a.
    destruct Hin as [E|Hin]; [congruence|].
    destruct (Py.isdigit prev); [|discriminate]. now apply (IH "_"%char t).
  - destruct (Ascii.eqb prev "_" && negb (Py.isdigit a)); [discriminate|].
    destruct (Py.drop_underscores a s) as [t'|] eqn:Et; [|discriminate].
    inversion Ht; subst. simpl. destruct Hin as [E|Hin]; [now left|].
    right. now apply (IH a t').
Qed.

Lemma in_sign c t :
  c <> "-"%char -> c <> "+"%char ->
  In c (chars t) -> In c (chars (snd (Py.sign t))).
Proof.
  intros Hm Hp. destruct t as [|a t]; simpl; [tauto|].
  intros [E|H].
  - subst a. destruct c as [[] [] [] [] [] [] [] []]; simpl; try (now left); congruence.
  - destruct a as [[] [] [] [] [] [] [] []]; simpl; auto.
Qed.

Lemma in_lower_str c s : In c (chars s) -> In (Py.lower c) (chars (Py.lower_str s)).
Proof.
  induction s as [|a s IH]; simpl; [tauto|].
  intros [->|H]; [now left|right; now apply IH].
Qed.

Lemma in_append c s1 s2 :
  In c (chars s2) -> In c (chars (s1 ++ s2)).
Proof. induction s1 as [|a s1 IH]; simpl; auto. Qed.

(** A text with a point in it is not read as a NaN. *)
Lemma float_of_pointed s :
  In "."%char (chars s) -> Py.float_of_string s <> Some S754_nan.
Proof.
  intros Hin. unfold Py.float_of_string.
  apply (in_lstrip Py.float_space) in Hin; [|reflexivity].
  apply (in_rstrip Py.float_space) in Hin; [|reflexivity].
  destruct (Py.drop_underscores " " _) as [t|] eqn:Et; [|discriminate].
  apply (in_drop_underscores "."%char _ ltac:(discriminate) _ _ Et) in Hin.
  apply in_sign in Hin; try discriminate.
  destruct (Py.sign t) as [neg u]. cbn [snd] in Hin.
  apply in_lower_str in Hin. change (Py.lower ".") with "."%char in Hin.
  destruct (String.eqb (Py.lower_str u) "inf" || String.eqb (Py.lower_str u) "infinity");
    [discriminate|].
  destruct (String.eqb (Py.lower_str u) "nan") eqn:En.
  - apply String.eqb_eq in En. rewrite En in Hin. simpl in Hin.
    exfalso. destruct Hin as [H|[H|[H|[]]]]; discriminate H.
  - unfold Py.decimal.
    destruct (Py.digits u 0 0) as [[i ni] r1].
    destruct (match r1 with
              | String "." r => Py.digits r i 0
              | _ => (i, 0, r1)
              end) as [[m nf] r2].
    destruct (0 <? ni + nf); [|discriminate].
    destruct (Py.exponent r2); [|discriminate].
    intros H. inversion H as [H']. exact (of_decimal_not_nan _ _ _ H').
Qed.

Lemma price_of_not_nan soup : price_of soup <> S754_nan.
Proof.
  unfold price_of.
  destruct (Soup.find (Soup.has_class "a-price-whole") soup) as [tw|]; [|discriminate].
  destruct (Soup.find (Soup.has_class "a-price-fraction") soup) as [tf|]; [|discriminate].
  destruct (Py.float_of_string _) as [x|] eqn:E; [|discriminate].
  intros ->. revert E. apply float_of_pointed.
  apply in_append. simpl. now left.
Qed.

Lemma details_not_nan env u : snd (details env u) <> S754_nan.
Proof.
  unfold details. destruct (web env u) as [e|r|r e]; [discriminate| |discriminate].
  destruct (error_status r); [discriminate|]. apply price_of_not_nan.
Qed.

End NoNaN.

Lemma track_request_products env d u e r w :
  POST_track env (request u e) d = (r, w) ->
  products (store w) = products d \/
  products (store w) =
  (products d ++ [new_product d u (fst (details env u)) (snd (details env u))])%list.
Proof.
  intros Hrun.
  destruct (product_by_url d u) as [P|] eqn:HP.
  - destruct (subscription_of d e (Product.id P)) as [s|] eqn:Hs.
    + rewrite (track_known_tracked env d u e P s HP Hs) in Hrun.
      inversion Hrun; subst. now left.
    + rewrite (track_known_new env d u e P HP Hs) in Hrun. cbv zeta in Hrun.
      destruct (commit_error env _); inversion Hrun; subst; now left.
  - destruct (rejection env u) as [x|] eqn:R;
      [rewrite (track_unknown_fails env d u e x HP R) in Hrun;
       inversion Hrun; subst; now left|].
    destruct (details_writes env u R) as (tr & Hw & _).
    rewrite (surjective_pairing (details env u)) in Hw.
    destruct (String.eqb (fst (details env u)) "N/A"
              || Py.eq (snd (details env u)) Py.zero) eqn:Ht.
    + rewrite (track_unknown_rejected env d u e _ _ tr HP Hw Ht) in Hrun.
      inversion Hrun; subst. now left.
    + rewrite (track_unknown_accepted env d u e _ _ tr HP Hw Ht) in Hrun.
      cbv zeta in Hrun.
      destruct (commit_error env (insert_product _ d));
        [inversion Hrun; subst; now left|].
      destruct (subscription_of _ _ _); [inversion Hrun; subst; now left|].
      destruct (commit_error env _); inversion Hrun; subst; [now left|].
      right. reflexivity.
Qed.

Lemma track_products_details env b d r w :
  POST_track env b d = (r, w) ->
  products (store w) = products d \/
  exists u,
    products (store w) =
    (products d ++ [new_product d u (fst (details env u)) (snd (details env u))])%list.
Proof.
  intros Hrun.
  destruct (track_reduces env b d r w Hrun) as [(u & e & Hreq)|[(Hst & _)|(Hst & _)]];
    [|rewrite Hst; now left..].
  destruct (track_request_products env d u e r w Hreq) as [H|H]; [now left|right].
  now exists u.
Qed.

Lemma lowered_not_nan env P :
  Product.price P <> S754_nan -> Product.price (lowered env P) <> S754_nan.
Proof.
  intros H. unfold lowered.
  destruct (price_drop _ P); [|exact H].
  destruct P. cbn. apply NoNaN.details_not_nan.
Qed.

(** X13: the price that the extractor returns is never a NaN, whatever the
    page holds: the text that it parses has a point in it, so the parser's
    [nan] literal cannot match, and a decimal numeral rounds to a finite or
    an infinite value. *)
Theorem extractor_never_returns_nan env u w :
  match fst (get_product_details env u w) with
  | Ret (_, p) => p <> S754_nan
  | Raise _ => True
  end.
Proof.
  destruct (rejection env u) as [x|] eqn:R.
  - now rewrite (get_product_details_fails env u x R).
  - destruct (details_writes env u R) as (tr & Hw & _). rewrite Hw. cbn [fst].
    pose proof (NoNaN.details_not_nan env u) as H.
    destruct (details env u) as [t p]. exact H.
Qed.

(** X14: no product row of a store that the application brings about holds
    a NaN price, so the comparison of the sweep is never made void by the
    stored side. *)
Theorem stored_price_is_never_nan d P :
  reachable d -> In P (products d) -> Product.price P <> S754_nan.
Proof.
  intros Hr. revert P.
  induction Hr as [|env data d r w Hr IH Hrun|env d r w Hr IH Hrun];
    intros P HP.
  - destruct HP.
  - destruct (track_products_details env data d r w Hrun) as [E|(u & E)];
      rewrite E in HP; [now apply IH|].
    apply in_app_or in HP. destruct HP as [HP|[<-|[]]]; [now apply IH|].
    cbn. apply NoNaN.details_not_nan.
  - destruct (job_lowers env d r w (proj1 (reachable_schema d Hr)) Hrun)
      as (done & rest & Hsplit & Hp & _).
    rewrite Hp in HP. apply in_app_or in HP. destruct HP as [HP|HP].
    + apply in_map_iff in HP. destruct HP as (Q & <- & HQ).
      apply lowered_not_nan. apply IH. rewrite Hsplit. apply in_or_app. now left.
    + apply IH. rewrite Hsplit. apply in_or_app. now right.
Qed.

Lemma stored_price_is_never_nan_witness :
  let d := store (snd (POST_track (Sample.serving (Sample.page "Lamp" "45" "00"))
                                  (request "https://shop.example/lamp" "ann@example.org")
                                  {| products := []; subscriptions := [] |})) in
  let P := Product.mk 1 "https://shop.example/lamp" "Lamp"
                      (S754_finite false 6333186975989760 (-47)) in
  In P (products d) /\ Product.price P <> S754_nan.
Proof.
  intros d P.
  assert (HP : In P (products d)) by (vm_compute; now left).
  split; [exact HP|].
  apply (stored_price_is_never_nan d P); [|exact HP].
  apply (reachable_track (Sample.serving (Sample.page "Lamp" "45" "00"))
                         (request "https://shop.example/lamp" "ann@example.org")
                         {| products := []; subscriptions := [] |}
                         (fst (POST_track (Sample.serving (Sample.page "Lamp" "45" "00"))
                                 (request "https://shop.example/lamp" "ann@example.org")
                                 {| products := []; subscriptions := [] |}))
                         (snd (POST_track (Sample.serving (Sample.page "Lamp" "45" "00"))
                                 (request "https://shop.example/lamp" "ann@example.org")
                                 {| products := []; subscriptions := [] |}))).
  - exact reachable_empty.
  - apply surjective_pairing.
Defined.

(** ** A track request, then a sweep *)

(** After a request for an address that no row had, any row at that address
    holds the price of the page. *)
Lemma tracked_at_page_price env d u e r w :
  ~ In u (map Product.url (products d)) ->
  POST_track env (request u e) d = (r, w) ->
  forall Q, In Q (products (store w)) -> Product.url Q = u ->
            Product.price Q = snd (details env u).
Proof.
  intros Hu Hrun Q HQ HuQ.
  destruct (track_request_products env d u e r w Hrun) as [E|E]; rewrite E in HQ.
  - exfalso. apply Hu. rewrite <- HuQ. now apply in_map.
  - apply in_app_or in HQ. destruct HQ as [HQ|[<-|[]]].
    + exfalso. apply Hu. rewrite <- HuQ. now apply in_map.
    + reflexivity.
Qed.

Lemma no_drop_at_page_price env Q :
  Product.price Q = snd (details env (Product.url Q)) ->
  price_drop (snd (details env (Product.url Q))) Q = false.
Proof.
  intros <-. unfold price_drop. rewrite lt_irrefl. apply andb_false_r.
Qed.

(** X15: a track request for an address that no row had, followed by a
    sweep over the same pages: whatever the request answered and however
    the sweep ends, the sweep calls the notifier for no product at that
    address, sends no mail about one, and leaves the row at that address as
    the request stored it. *)
Theorem sweep_after_tracking_is_quiet_there env d u e r w r' w' :
  schema d ->
  ~ In u (map Product.url (products d)) ->
  POST_track env (request u e) d = (r, w) ->
  job env (store w) = (r', w') ->
  (forall a Q p, In (Notify a Q p) (trace w') -> Product.url Q <> u) /\
  (forall m, In (Sent m) (trace w') -> Product.url (mail_product m) <> u) /\
  (forall Q, In Q (products (store w')) -> Product.url Q = u ->
             In Q (products (store w))).
Proof.
  intros Hs Hu Hrun Hjob.
  pose proof (tracked_at_page_price env d u e r w Hu Hrun) as Hprice.
  assert (Hquiet : forall Q, In Q (products (store w)) -> Product.url Q = u ->
                             price_drop (snd (details env (Product.url Q))) Q = false).
  { intros Q HQ HuQ. apply no_drop_at_page_price. rewrite HuQ. now apply Hprice. }
  destruct (job_events env (store w) r' w' Hjob) as [J _].
  rewrite Forall_forall in J.
  split; [|split].
  - intros a Q p Hin HuQ. specialize (J _ Hin). cbn in J.
    destruct J as (HQ & -> & Hdrop & _).
    rewrite (Hquiet Q HQ HuQ) in Hdrop. discriminate.
  - intros m Hin HuQ. specialize (J _ Hin). cbn in J.
    destruct J as (_ & _ & HQ & Ep & Hdrop & _).
    rewrite Ep, (Hquiet _ HQ HuQ) in Hdrop. discriminate.
  - intros Q HQ HuQ.
    pose proof (track_schema env _ d r w Hs Hrun) as Hs'.
    destruct (job_lowers env (store w) r' w' (proj1 Hs') Hjob)
      as (done & rest & Hsplit & Hp & _).
    rewrite Hp in HQ. rewrite Hsplit. rewrite Hsplit in Hquiet.
    apply in_app_or in HQ. apply in_or_app. destruct HQ as [HQ|HQ]; [left|now right].
    apply in_map_iff in HQ. destruct HQ as (Q0 & <- & HQ0).
    rewrite lowered_url in HuQ.
    unfold lowered. rewrite (Hquiet Q0 (in_or_app _ _ _ (or_introl HQ0)) HuQ).
    exact HQ0.
Qed.

Lemma sweep_after_tracking_is_quiet_there_witness :
  let env := Sample.serving (Sample.page "Desk" "45" "00") in
  let u := "https://shop.example/desk" in
  let w := snd (POST_track env (request u "cy@example.org") Sample.shop) in
  let w' := snd (job env (store w)) in
  (forall a Q p, In (Notify a Q p) (trace w') -> Product.url Q <> u) /\
  (forall m, In (Sent m) (trace w') -> Product.url (mail_product m) <> u) /\
  (forall Q, In Q (products (store w')) -> Product.url Q = u ->
             In Q (products (store w))).
Proof.
  intros env u w w'.
  apply (sweep_after_tracking_is_quiet_there
           env Sample.shop u "cy@example.org"
           (fst (POST_track env (request u "cy@example.org") Sample.shop)) w
           (fst (job env (store w))) w').
  - unfold schema. simpl. repeat split.
    + constructor; [simpl; tauto|constructor].
    + constructor; [simpl; tauto|constructor].
    + constructor; [simpl; intros [H|H]; [discriminate H|exact H]|].
      constructor; [simpl; tauto|constructor].
    + constructor; [simpl; intros [H|H]; [discriminate H|exact H]|].
      constructor; [simpl; tauto|constructor].
    + intros s [<-|[<-|[]]]; simpl; left; reflexivity.
  - simpl. intros [H|H]; [discriminate H|exact H].
  - apply surjective_pairing.
  - apply surjective_pairing.
Defined.

(** ** When the notifier mails *)

Lemma credentials_set_spec env :
  credentials_set env = true <->
  exists a s, SENDER_EMAIL env = Some a /\ a <> "" /\
              SENDER_PASSWORD env = Some s /\ s <> "".
Proof.
  unfold credentials_set. cbn [forallb].
  destruct (SENDER_EMAIL env) as [[|c a]|]; destruct (SENDER_PASSWORD env) as [[|c' s]|];
    cbn; split; try discriminate;
    try (intros (a0 & s0 & H1 & H2 & H3 & H4); congruence).
  intros _. eexists _, _. repeat split; discriminate.
Qed.

Lemma empty_credential env :
  SENDER_EMAIL env = Some "" \/ SENDER_PASSWORD env = Some "" ->
  credentials_set env = false.
Proof.
  unfold credentials_set. cbn [forallb].
  intros [->| ->]; cbn; [reflexivity|].
  destruct (truthy (SENDER_EMAIL env)); reflexivity.
Qed.

(** X16: one call of the notifier hands at most one mail to the relay, and
    it does so exactly when both credentials are set to non-empty strings
    and the relay, logged in with the password, accepts the mail; the mail
    is then the filled template for that receiver.  A credential set to the
    empty string counts as missing: the call only prints the warning. *)
Theorem notifier_mails_iff_credentials_and_relay env receiver product new_price :
  exists tr,
    writes (send_notification_email env receiver product new_price) tt tr /\
    (forall m, In (Sent m) tr <->
               m = message env receiver product new_price /\
               exists a s, SENDER_EMAIL env = Some a /\ a <> "" /\
                           SENDER_PASSWORD env = Some s /\ s <> "" /\
                           smtp env s m = None) /\
    (List.length (sent tr) <= 1)%nat /\
    (SENDER_EMAIL env = Some "" \/ SENDER_PASSWORD env = Some "" ->
     tr = [Notify receiver product new_price;
           Print "Sender email credentials are not set."]).
Proof.
  destruct (credentials_set env) eqn:C;
    [destruct (relay_answer env receiver product new_price) as [e|] eqn:R|].
  - eexists. split; [exact (notifier_catches env receiver product new_price e C R)|].
    split; [|split].
    + intros m. split.
      * simpl. intros [H|[H|[H|[]]]]; discriminate H.
      * intros (-> & a & s & _ & _ & Hs & _ & Hr). exfalso.
        unfold relay_answer in R. rewrite Hs in R. cbn [value] in R. congruence.
    + simpl. lia.
    + intros H. rewrite (empty_credential env H) in C. discriminate.
  - eexists. split; [exact (notifier_delivers env receiver product new_price C R)|].
    split; [|split].
    + intros m. split.
      * simpl. intros [H|[H|[H|[H|[]]]]]; try discriminate H.
        inversion H; subst m. split; [reflexivity|].
        destruct (proj1 (credentials_set_spec env) C) as (a & s & Ha & Na & Hs & Ns).
        exists a, s. repeat split; try assumption.
        unfold relay_answer in R. rewrite Hs in R. exact R.
      * intros (-> & _). simpl. right. right. now left.
    + simpl. lia.
    + intros H. rewrite (empty_credential env H) in C. discriminate.
  - eexists. split; [exact (notifier_without_credentials env receiver product new_price C)|].
    split; [|split].
    + intros m. split.
      * simpl. intros [H|[H|[]]]; discriminate H.
      * intros (_ & a & s & Ha & Na & Hs & Ns & _). exfalso.
        assert (credentials_set env = true)
          by (apply credentials_set_spec; exists a, s; auto).
        congruence.
    + simpl. lia.
    + intros _. reflexivity.
Qed.
